(** * The byte-stream transport of the microTVM ETISS project template

    A shallow embedding of the transport methods of [Handler] in
    [template_project/microtvm_api_server.py]: [close_transport],
    [_await_ready], [read_transport] and [write_transport].

    The methods talk to the operating system ([time.monotonic],
    [select.select], [os.read], [os.write], [os.getpgid], [os.killpg]) and to
    the child process object ([Popen.terminate], [Popen.kill], [Popen.wait]).
    Everything outside the Python code is a [Host]: a state type with one
    transition per call, each of which may return, raise or never return.
    The methods themselves are programs in a state-and-exception monad over
    the handler's attributes, the host state and a log of the calls made. *)

From Stdlib Require Import List ZArith QArith Bool String Ascii Lia Lqa.
From Stdlib Require Import DecimalString.
Import ListNotations.

(** ** Data *)

Definition bytes := list Byte.byte.
Definition Fd := Z.

(** What a call ends in: a value, an exception of type [E], or no end. *)
Inductive Outcome (E A : Type) : Type :=
| Returns (a : A)
| Raises (e : E)
| Blocks.
Arguments Returns {E A} a.
Arguments Raises {E A} e.
Arguments Blocks {E A}.

(** Exceptions the interpreter and its library raise from the calls below. *)
Inductive OSError : Type :=
| BrokenPipeError
| ProcessLookupError
| BlockingIOError
| ValueError
| OtherOSError (errno : Z).

(** Exceptions that can leave a transport method. *)
Inductive Exn : Type :=
| OsErr (e : OSError)
| IoTimeoutError
| TransportClosedError
| AttributeError (name : string).

Inductive Signal : Type := SIGTERM | SIGKILL.

(** [subprocess.Popen]: the pid and the two pipe ends of the child. *)
Record Popen : Type := mkPopen {
  pid : Z;
  stdin_fileno : Fd;
  stdout_fileno : Fd
}.

(** The attributes of a [Handler] instance the transport uses. [elfdest] and
    [outputs] are only assigned when [DBG] is set. *)
Record Handler : Type := mkHandler {
  _proc : option Popen;
  elfdest : string;
  outputs : bytes
}.

Definition DBG : bool := false.

Definition Ready : Type := (list Fd * list Fd * list Fd)%type.

(** One entry of the call log: the call, its arguments and how it ended. *)
Inductive Call : Type :=
| CMonotonic (now : Q)
| CSelect (rlist wlist xlist : list Fd) (timeout : option Q)
          (r : Outcome OSError Ready)
| CRead (fd : Fd) (n : Z) (r : Outcome OSError bytes)
| CWrite (fd : Fd) (data : bytes) (r : Outcome OSError nat)
| CGetpgid (p : Z) (r : Outcome OSError Z)
| CTerminate (proc : Popen) (r : Outcome OSError unit)
| CKill (proc : Popen) (r : Outcome OSError unit)
| CWait (proc : Popen) (r : Outcome OSError Z)
| CKillpg (pgrp : Z) (sig : Signal) (r : Outcome OSError unit)
| CWriteFile (path : string) (content : bytes) (r : Outcome OSError unit).

(** The world outside the handler. [h_write] answers with a byte count, which
    is never negative. *)
Record Host : Type := mkHost {
  OS : Type;
  h_monotonic : OS -> Q * OS;
  h_select : list Fd -> list Fd -> list Fd -> option Q -> OS ->
             Outcome OSError Ready * OS;
  h_read : Fd -> Z -> OS -> Outcome OSError bytes * OS;
  h_write : Fd -> bytes -> OS -> Outcome OSError nat * OS;
  h_getpgid : Z -> OS -> Outcome OSError Z * OS;
  h_terminate : Popen -> OS -> Outcome OSError unit * OS;
  h_kill : Popen -> OS -> Outcome OSError unit * OS;
  h_wait : Popen -> OS -> Outcome OSError Z * OS;
  h_killpg : Z -> Signal -> OS -> Outcome OSError unit * OS;
  h_write_file : string -> bytes -> OS -> Outcome OSError unit * OS
}.

(** Python's [max(0, x)]: [x] when it is greater than [0], else [0]. *)
Definition py_max0 (x : Q) : Q := if Qle_bool x 0 then 0%Q else x.

Definition is_empty {A} (l : list A) : bool :=
  match l with [] => true | _ :: _ => false end.

(** ** The monad *)

Section Transport.

Variable H : Host.

Record Machine : Type := mkMachine {
  self : Handler;
  os : OS H;
  log : list Call
}.

Definition M (A : Type) : Type := Machine -> Outcome Exn A * Machine.

Definition ret {A} (a : A) : M A := fun m => (Returns a, m).

Definition bind {A B} (c : M A) (k : A -> M B) : M B :=
  fun m =>
    match c m with
    | (Returns a, m') => k a m'
    | (Raises e, m') => (Raises e, m')
    | (Blocks, m') => (Blocks, m')
    end.

Definition raise {A} (e : Exn) : M A := fun m => (Raises e, m).

(** [try: c  except BrokenPipeError: h] *)
Definition try_except_BrokenPipeError {A} (c : M A) (h : M A) : M A :=
  fun m =>
    match c m with
    | (Raises (OsErr BrokenPipeError), m') => h m'
    | r => r
    end.

Definition get_self : M Handler := fun m => (Returns (self m), m).

Definition set_self (s : Handler) : M unit :=
  fun m => (Returns tt, mkMachine s (os m) (log m)).

Definition lift {A} (r : Outcome OSError A) : Outcome Exn A :=
  match r with
  | Returns a => Returns a
  | Raises e => Raises (OsErr e)
  | Blocks => Blocks
  end.

(** A call out of the program: the host moves, the call is logged. *)
Definition call {A} (f : OS H -> Outcome OSError A * OS H)
    (entry : Outcome OSError A -> Call) : M A :=
  fun m =>
    let (r, o) := f (os m) in
    (lift r, mkMachine (self m) o (log m ++ [entry r])).

End Transport.

Arguments ret {H A} a.
Arguments raise {H A} e.
Arguments get_self {H}.
Arguments set_self {H} s.
Arguments mkMachine {H} self os log.
Arguments self {H} m.
Arguments os {H} m.
Arguments log {H} m.
Arguments bind {H A B} c k.
Arguments try_except_BrokenPipeError {H A} c h.
Arguments call {H A} f entry.

Declare Scope transport_scope.
Delimit Scope transport_scope with transport.
Notation "x <- c ;; k" := (bind c (fun x => k))
  (at level 61, c at next level, right associativity) : transport_scope.
Notation "c ;; k" := (bind c (fun _ => k))
  (at level 61, right associativity) : transport_scope.
Open Scope transport_scope.

(** ** The calls *)

Section Calls.

Variable H : Host.

Definition time_monotonic : M H Q :=
  fun m =>
    let (now, o) := h_monotonic H (os m) in
    (Returns now, mkMachine (self m) o (log m ++ [CMonotonic now])).

Definition select_select (rlist wlist xlist : list Fd) (timeout : option Q)
    : M H Ready :=
  call (h_select H rlist wlist xlist timeout) (CSelect rlist wlist xlist timeout).

Definition os_read (fd : Fd) (n : Z) : M H bytes :=
  call (h_read H fd n) (CRead fd n).

Definition os_write (fd : Fd) (data : bytes) : M H nat :=
  call (h_write H fd data) (CWrite fd data).

Definition os_getpgid (p : Z) : M H Z :=
  call (h_getpgid H p) (CGetpgid p).

Definition proc_terminate (proc : Popen) : M H unit :=
  call (h_terminate H proc) (CTerminate proc).

Definition proc_kill (proc : Popen) : M H unit :=
  call (h_kill H proc) (CKill proc).

Definition proc_wait (proc : Popen) : M H Z :=
  call (h_wait H proc) (CWait proc).

Definition os_killpg (pgrp : Z) (sig : Signal) : M H unit :=
  call (h_killpg H pgrp sig) (CKillpg pgrp sig).

Definition write_file (path : string) (content : bytes) : M H unit :=
  call (h_write_file H path content) (CWriteFile path content).

End Calls.

(** ** The methods of [Handler] *)

Section Methods.

Variable H : Host.

(** [self.disconnect_transport]: the class body of [Handler] defines no
    attribute of this name, so the lookup goes on to the base class
    [server.ProjectAPIHandler], which is not part of this repository. The
    variable is what the base class provides under that name, [None] when it
    has no such attribute. *)
Variable inherited_disconnect_transport : option (M H unit).

Definition disconnect_transport : M H unit :=
  match inherited_disconnect_transport with
  | Some method => method
  | None => raise (AttributeError "disconnect_transport"%string)
  end.

Definition close_transport : M H unit :=
  (if DBG then
     s <- get_self ;;
     write_file H (elfdest s ++ ".out")%string (outputs s)
   else ret tt) ;;
  s <- get_self ;;
  match _proc s with
  | Some proc =>
      pgrp <- os_getpgid H (pid proc) ;;
      set_self (mkHandler None (elfdest s) (outputs s)) ;;
      proc_terminate H proc ;;
      proc_kill H proc ;;
      proc_wait H proc ;;
      os_killpg H pgrp SIGKILL
  | None => ret tt
  end.

Definition _await_ready (rlist wlist : list Fd) (timeout_sec end_time : option Q)
    : M H bool :=
  timeout_sec <- match timeout_sec, end_time with
                 | None, Some e =>
                     now <- time_monotonic H ;;
                     ret (Some (py_max0 (e - now)))
                 | _, _ => ret timeout_sec
                 end ;;
  ready <- select_select H rlist wlist (rlist ++ wlist) timeout_sec ;;
  let '(rlist, wlist, xlist) := ready in
  if is_empty rlist && is_empty wlist && is_empty xlist
  then raise IoTimeoutError
  else ret true.

(** [None if timeout_sec is None else time.monotonic() + timeout_sec] *)
Definition deadline (timeout_sec : option Q) : M H (option Q) :=
  match timeout_sec with
  | None => ret None
  | Some t => now <- time_monotonic H ;; ret (Some (now + t)%Q)
  end.

(** [to_return] is the bytes read, or [None] for the integer [0] the handler
    of the [try] assigns. [not to_return] holds for that [0] and for the empty
    bytes; in the other case the bytes are not empty. *)
Definition read_transport (n : Z) (timeout_sec : option Q) : M H bytes :=
  s <- get_self ;;
  match _proc s with
  | None => raise TransportClosedError
  | Some proc =>
      let fd := stdout_fileno proc in
      end_time <- deadline timeout_sec ;;
      to_return <- try_except_BrokenPipeError
                     (_await_ready [fd] [] None end_time ;;
                      b <- os_read H fd n ;;
                      ret (Some b))
                     (ret None) ;;
      match to_return with
      | Some (x :: b) =>
          (if DBG then
             s <- get_self ;;
             set_self (mkHandler (_proc s) (elfdest s) (outputs s ++ x :: b))
           else ret tt) ;;
          ret (x :: b)
      | _ =>
          close_transport ;;
          raise TransportClosedError
      end
  end.

(** The [while data:] loop. Every pass that goes on drops at least one byte,
    so [length data] passes are enough; [fuel] is that bound. *)
Fixpoint write_loop (fuel : nat) (fd : Fd) (end_time : option Q) (data : bytes)
    : M H unit :=
  match data with
  | [] => ret tt
  | _ :: _ =>
      match fuel with
      | O => fun m => (Blocks, m)
      | S fuel' =>
          _await_ready [] [fd] None end_time ;;
          num_written <- try_except_BrokenPipeError (os_write H fd data) (ret O) ;;
          match num_written with
          | O =>
              disconnect_transport ;;
              raise TransportClosedError
          | S _ => write_loop fuel' fd end_time (skipn num_written data)
          end
      end
  end.

Definition write_transport (data : bytes) (timeout_sec : option Q) : M H unit :=
  s <- get_self ;;
  match _proc s with
  | None => raise TransportClosedError
  | Some proc =>
      let fd := stdin_fileno proc in
      end_time <- deadline timeout_sec ;;
      write_loop (List.length data) fd end_time data
  end.

End Methods.

Arguments disconnect_transport {H} inherited_disconnect_transport.
Arguments close_transport {H}.
Arguments _await_ready {H} rlist wlist timeout_sec end_time.
Arguments deadline {H} timeout_sec.
Arguments read_transport {H} n timeout_sec.
Arguments write_loop {H} inherited_disconnect_transport fuel fd end_time data.
Arguments write_transport {H} inherited_disconnect_transport data timeout_sec.

(** ** A host to run the methods on: a child that echoes its input

    The child copies what it is sent to its output. It leads its own process
    group ([preexec_fn=os.setsid]), so its group id is its pid. One write
    accepts at most [capacity] bytes. *)

Module Echo.

Record State : Type := mkState {
  clock : Q;
  alive : bool;          (* the child still runs *)
  reaped : bool;         (* the child has been waited for: its pid is free *)
  descendants : bool;    (* other processes are left in the child's group *)
  pending : bytes;       (* echoed by the child, not yet read *)
  capacity : nat
}.

Definition monotonic (o : State) : Q * State := (clock o, o).

Definition select (rlist wlist xlist : list Fd) (timeout : option Q) (o : State)
    : Outcome OSError Ready * State :=
  let readable := negb (is_empty (pending o)) || negb (alive o) in
  let r := if readable then rlist else [] in
  if is_empty r && is_empty wlist then
    match timeout with
    | None => (Blocks, o)
    | Some t =>
        if Qle_bool 0 t then
          (Returns ([], [], []),
           mkState (clock o + t) (alive o) (reaped o) (descendants o)
                   (pending o) (capacity o))
        else (Raises ValueError, o)
    end
  else (Returns (r, wlist, []), o).

Definition read (fd : Fd) (n : Z) (o : State) : Outcome OSError bytes * State :=
  if (n <? 0)%Z then (Raises (OtherOSError 22), o)
  else
    match pending o with
    | [] => if alive o then (Raises BlockingIOError, o) else (Returns [], o)
    | _ :: _ =>
        (Returns (firstn (Z.to_nat n) (pending o)),
         mkState (clock o) (alive o) (reaped o) (descendants o)
                 (skipn (Z.to_nat n) (pending o)) (capacity o))
    end.

Definition write (fd : Fd) (data : bytes) (o : State)
    : Outcome OSError nat * State :=
  if alive o then
    let k := Nat.min (capacity o) (List.length data) in
    (Returns k,
     mkState (clock o) (alive o) (reaped o) (descendants o)
             (pending o ++ firstn k data) (capacity o))
  else (Raises BrokenPipeError, o).

Definition getpgid (p : Z) (o : State) : Outcome OSError Z * State :=
  if reaped o then (Raises ProcessLookupError, o) else (Returns p, o).

Definition stop (o : State) : State :=
  mkState (clock o) false (reaped o) (descendants o) (pending o) (capacity o).

Definition terminate (proc : Popen) (o : State) : Outcome OSError unit * State :=
  (Returns tt, stop o).

Definition kill (proc : Popen) (o : State) : Outcome OSError unit * State :=
  (Returns tt, stop o).

Definition wait (proc : Popen) (o : State) : Outcome OSError Z * State :=
  (Returns (-9)%Z,
   mkState (clock o) false true (descendants o) (pending o) (capacity o)).

Definition killpg (pgrp : Z) (sig : Signal) (o : State)
    : Outcome OSError unit * State :=
  if negb (reaped o) || descendants o then
    (Returns tt,
     mkState (clock o) false (reaped o) false (pending o) (capacity o))
  else (Raises ProcessLookupError, o).

Definition write_file (path : string) (content : bytes) (o : State)
    : Outcome OSError unit * State := (Returns tt, o).

Definition host : Host :=
  mkHost State monotonic select read write getpgid terminate kill wait killpg
         write_file.

Definition child : Popen := mkPopen 4242%Z 5%Z 6%Z.

Definition live : Handler := mkHandler (Some child) "" [].
Definition torn_down : Handler := mkHandler None "" [].

(** The child runs and has echoed nothing yet. *)
Definition running (cap : nat) (grp : bool) : State :=
  mkState 10 true false grp [] cap.

(** The child has exited on its own and is yet to be waited for. *)
Definition exited (grp : bool) : State :=
  mkState 10 false false grp [] 4.

(** The child has exited and its pid is gone from the process table. *)
Definition vanished : State :=
  mkState 10 false true false [] 4.

Definition start (s : Handler) (o : State) : Machine host :=
  @mkMachine host s o [].

End Echo.

(** ** What the methods rely on from the host *)

(** [select.select] without a timeout returns only once something is ready. *)
Definition select_waits (H : Host) : Prop :=
  forall rlist wlist xlist o ready o',
    h_select H rlist wlist xlist None o = (Returns ready, o') ->
    ready <> ([], [], []).

(** [os.read(fd, n)] returns at most [n] bytes. *)
Definition read_bounded (H : Host) : Prop :=
  forall fd n o b o',
    (0 <= n)%Z ->
    h_read H fd n o = (Returns b, o') ->
    (Z.of_nat (List.length b) <= n)%Z.

(** ** Reading the call log *)

(** A logged call is a readiness wait, a read or a write. *)
Definition is_io (c : Call) : bool :=
  match c with
  | CSelect _ _ _ _ _ | CRead _ _ _ | CWrite _ _ _ => true
  | _ => false
  end.

(** A logged call is a read. *)
Definition is_read (c : Call) : bool :=
  match c with CRead _ _ _ => true | _ => false end.

(** How a logged call ended, its value put aside. *)
Definition forget {A} (r : Outcome OSError A) : Outcome OSError unit :=
  match r with
  | Returns _ => Returns tt
  | Raises e => Raises e
  | Blocks => Blocks
  end.

Definition ended (c : Call) : Outcome OSError unit :=
  match c with
  | CMonotonic _ => Returns tt
  | CSelect _ _ _ _ r => forget r
  | CRead _ _ r => forget r
  | CWrite _ _ r => forget r
  | CGetpgid _ r => forget r
  | CTerminate _ r => r
  | CKill _ r => r
  | CWait _ r => forget r
  | CKillpg _ _ r => r
  | CWriteFile _ _ r => r
  end.

(** What a run of calls with no handler around them ends in: the first call
    that does not return decides. *)
Fixpoint verdict (made : list Call) : Outcome Exn unit :=
  match made with
  | [] => Returns tt
  | c :: rest =>
      match ended c with
      | Returns _ => verdict rest
      | Raises e => Raises (OsErr e)
      | Blocks => Blocks
      end
  end.

(** The bytes the writes of a run took: of each write that returned a count,
    that many bytes from the front of what it was handed. *)
Fixpoint accepted (made : list Call) : bytes :=
  match made with
  | [] => []
  | CWrite _ data (Returns k) :: rest => firstn k data ++ accepted rest
  | _ :: rest => accepted rest
  end.

(** A logged call belongs to a readiness wait: a reading of the clock or a
    [select]. *)
Definition is_wait (c : Call) : bool :=
  match c with
  | CMonotonic _ | CSelect _ _ _ _ _ => true
  | _ => false
  end.

Definition is_write (c : Call) : bool :=
  match c with CWrite _ _ _ => true | _ => false end.

Definition is_select (c : Call) : bool :=
  match c with CSelect _ _ _ _ _ => true | _ => false end.

(** The writes of a run on [fd], each handed exactly the bytes of [data] no
    earlier write took, none of them empty-handed, and none after a write that
    took nothing or did not return. *)
Fixpoint sends (fd : Fd) (data : bytes) (made : list Call) : Prop :=
  match made with
  | [] => True
  | CWrite fd' d r :: rest =>
      fd' = fd /\ d = data /\ data <> [] /\
      match r with
      | Returns (S k) => sends fd (skipn (S k) data) rest
      | _ => rest = []
      end
  | _ :: rest => sends fd data rest
  end.

(** The timeout [max(0, end_time - now)] as [select] gets it: [0] once the
    deadline is reached, the time left before that. *)
Definition time_left (end_time now : Q) (timeout : option Q) : Prop :=
  ((end_time <= now)%Q /\ timeout = Some 0%Q) \/
  ((now < end_time)%Q /\ timeout = Some (end_time - now)%Q).

(** What follows the [select] of a pass of the write loop on [fd], with
    [data] still to send: nothing when [select] reported nothing or did not
    return; else one [os.write] of [data] on [fd], and only when that write
    took at least one byte the passes [go_on] for the bytes it left. *)
Definition after_select (fd : Fd) (data : bytes) (r : Outcome OSError Ready)
    (rest : list Call) (go_on : bytes -> list Call -> Prop) : Prop :=
  match r with
  | Returns (a, b, c) =>
      if is_empty a && is_empty b && is_empty c then rest = []
      else
        match rest with
        | CWrite fd' d rw :: rest' =>
            fd' = fd /\ d = data /\
            match rw with
            | Returns (S k) => go_on (skipn (S k) data) rest'
            | _ => rest' = []
            end
        | _ => False
        end
  | _ => rest = []
  end.

(** The calls of a write of [data] on [fd] under the deadline [end_time], pass
    by pass: no call at all when there is nothing to send; else a wait for
    [fd] to become writable, [select([], [fd], [fd], timeout)], whose timeout
    is none without a deadline and else what is left until [end_time] by a
    clock read just before; then what [after_select] says. *)
Fixpoint write_run (fd : Fd) (end_time : option Q) (data : bytes)
    (made : list Call) {struct made} : Prop :=
  match made with
  | [] => data = []
  | CMonotonic now :: CSelect rlist wlist xlist timeout r :: rest =>
      data <> [] /\
      (exists e, end_time = Some e /\ time_left e now timeout) /\
      rlist = [] /\ wlist = [fd] /\ xlist = [fd] /\
      after_select fd data r rest (write_run fd end_time)
  | CSelect rlist wlist xlist timeout r :: rest =>
      data <> [] /\
      end_time = None /\ timeout = None /\
      rlist = [] /\ wlist = [fd] /\ xlist = [fd] /\
      after_select fd data r rest (write_run fd end_time)
  | _ => False
  end.

(** The calls of a teardown of [proc], in their order, given how each would
    end: a call is made only when the one before it returned, and
    [os.killpg] gets the group id [os.getpgid] returned. *)
Definition teardown_calls (proc : Popen) (r1 : Outcome OSError Z)
    (r2 r3 : Outcome OSError unit) (r4 : Outcome OSError Z)
    (r5 : Outcome OSError unit) : list Call :=
  CGetpgid (pid proc) r1 ::
  match r1 with
  | Returns pgrp =>
      CTerminate proc r2 ::
      match r2 with
      | Returns _ =>
          CKill proc r3 ::
          match r3 with
          | Returns _ =>
              CWait proc r4 ::
              match r4 with
              | Returns _ => [CKillpg pgrp SIGKILL r5]
              | _ => []
              end
          | _ => []
          end
      | _ => []
      end
  | _ => []
  end.

(** * The project side of the handler

    [str2bool], [build], [_set_nonblock] and [open_transport]. The values
    of [options] come out of a JSON object. A [str] is a [string], one
    character per code point. *)

(** ** Option values *)

Inductive PyVal : Type :=
| PyNone
| PyBool (b : bool)
| PyInt (z : Z)
| PyStr (s : string)
| PyList (l : list string).

(** [bool(v)], the test of an [if]. *)
Definition truthy (v : PyVal) : bool :=
  match v with
  | PyNone => false
  | PyBool b => b
  | PyInt z => negb (z =? 0)%Z
  | PyStr s => negb (s =? "")%string
  | PyList l => negb (is_empty l)
  end.

Definition Options : Type := list (string * PyVal).

(** [options.get(key, default)]: the default only stands in for a missing
    key, not for a key that is there with the value [None]. *)
Fixpoint options_get (options : Options) (key : string) (default : PyVal)
    : PyVal :=
  match options with
  | [] => default
  | (k, v) :: rest =>
      if (k =? key)%string then v else options_get rest key default
  end.

(** What a method of the handler can end in, beyond the transport errors. *)
Inductive Error : Type :=
| Base (e : Exn)
| AssertionError
| TypeError
| CalledProcessError (returncode : Z).

Definition obind {E A B} (r : Outcome E A) (k : A -> Outcome E B)
    : Outcome E B :=
  match r with
  | Returns a => k a
  | Raises e => Raises e
  | Blocks => Blocks
  end.

(** ** [str2bool] *)

Definition lower_ascii (c : ascii) : ascii :=
  let n := nat_of_ascii c in
  if (65 <=? n)%nat && (n <=? 90)%nat then ascii_of_nat (n + 32) else c.

(** [str.lower()], on the letters A to Z. *)
Fixpoint lower (s : string) : string :=
  match s with
  | EmptyString => EmptyString
  | String c rest => String (lower_ascii c) (lower rest)
  end.

Definition in_strings (s : string) (l : list string) : bool :=
  existsb (String.eqb s) l.

(** [distutils.util.strtobool] of the Python standard library: the string
    is lowered and looked up in two lists of words; any other word is a
    [ValueError]. *)
Definition strtobool (val : string) : Outcome Error bool :=
  let val := lower val in
  if in_strings val ["y"; "yes"; "t"; "true"; "on"; "1"]%string
  then Returns true
  else if in_strings val ["n"; "no"; "f"; "false"; "off"; "0"]%string
  then Returns false
  else Raises (Base (OsErr ValueError)).

(** [str2bool(value, allow_none)]. The result is a bool, or [None] when the
    value is [None]. A list has no [lower]. *)
Definition str2bool (value : PyVal) (allow_none : bool)
    : Outcome Error (option bool) :=
  match value with
  | PyNone => if allow_none then Returns None else Raises AssertionError
  | PyBool b => Returns (Some b)
  | PyInt z => Returns (Some (negb (z =? 0)%Z))
  | PyStr s => obind (strtobool s) (fun b => Returns (Some b))
  | PyList _ => Raises (Base (AttributeError "lower"))
  end.

(** The test of [if str2bool(...)]: [None] counts as false. *)
Definition truthy_result (r : option bool) : bool :=
  match r with
  | Some b => b
  | None => false
  end.

(** ** The arguments of [build] and of the launch *)

Definition ARCH : string := "rv32gc".
Definition ABI : string := "ilp32d".
Definition TRIPLE : string := "riscv32-unknown-elf".
Definition TOOLCHAIN : string := "gcc".
Definition BUILD_TARGET : string := "build/main".
Definition WORKSPACE_SIZE_BYTES : Z := (1 * 1024 * 1024)%Z.

(** [prefix + v]: only a string can be added to a string. *)
Definition str_add (prefix : string) (v : PyVal) : Outcome Error string :=
  match v with
  | PyStr s => Returns (prefix ++ s)%string
  | _ => Raises TypeError
  end.

(** The list [build] hands to cmake after [".."]. *)
Definition cmake_args (options : Options) : Outcome Error (list string) :=
  let debug := options_get options "debug" (PyBool false) in
  let build_type := if truthy debug then "Debug"%string else "Release"%string in
  let a_type := ("-DCMAKE_BUILD_TYPE=" ++ build_type)%string in
  obind (str_add "-DTOOLCHAIN="
           (options_get options "toolchain" (PyStr TOOLCHAIN))) (fun a_tool =>
  let llvm_dir := options_get options "llvm_dir" PyNone in
  obind (if truthy llvm_dir
         then obind (str_add "-DLLVM_DIR=" llvm_dir) (fun a => Returns [a])
         else Returns []) (fun a_llvm =>
  obind (str_add "-DRISCV_ARCH="
           (options_get options "arch" (PyStr ARCH))) (fun a_arch =>
  obind (str_add "-DRISCV_ABI="
           (options_get options "abi" (PyStr ABI))) (fun a_abi =>
  obind (str_add "-DRISCV_ABI="
           (options_get options "abi" (PyStr ABI))) (fun a_abi' =>
  obind (str_add "-DRISCV_ELF_GCC_PREFIX="
           (options_get options "gcc_prefix" (PyStr ""))) (fun a_prefix =>
  obind (str_add "-DRISCV_ELF_GCC_BASENAME="
           (options_get options "gcc_name" (PyStr TRIPLE))) (fun a_name =>
  Returns ([a_type; a_tool] ++ a_llvm ++
           [a_arch; a_abi; a_abi'; a_prefix; a_name])))))))).

(** The values a [for] over [v] gives, as [list.extend(v)] takes them: the
    items of a list, the characters of a string. *)
Fixpoint characters (s : string) : list string :=
  match s with
  | EmptyString => []
  | String c rest => String c EmptyString :: characters rest
  end.

Definition iterate (v : PyVal) : Outcome Error (list string) :=
  match v with
  | PyList l => Returns l
  | PyStr s => Returns (characters s)
  | _ => Raises TypeError
  end.

(** The argument list of [open_transport], before it goes to [Popen]. *)
Definition launch_args (options : Options) : Outcome Error (list PyVal) :=
  let etiss_script := options_get options "etiss_script" PyNone in
  obind (iterate (options_get options "etiss_args" (PyList []))) (fun extra =>
  Returns ([etiss_script; PyStr BUILD_TARGET] ++ map PyStr extra ++
           [PyStr ("-i" ++ "etiss.ini")])).

(** [Popen] takes strings only. *)
Fixpoint all_strings (args : list PyVal) : option (list string) :=
  match args with
  | [] => Some []
  | PyStr s :: rest =>
      match all_strings rest with
      | Some l => Some (s :: l)
      | None => None
      end
  | _ :: _ => None
  end.

(** ** The platform: files and processes

    A [pathlib.Path] is the list of its parts; [path / name] adds one. What
    the handler asks of the file system and of the process table is answered
    by a [Platform] over the same host state as the transport. *)

Definition Path : Type := list string.

Definition path_join (p : Path) (name : string) : Path := p ++ [name].

Inductive SysError : Type :=
| SysOs (e : OSError)
| SysCalledProcess (returncode : Z).

Definition sys_error (e : SysError) : Error :=
  match e with
  | SysOs x => Base (OsErr x)
  | SysCalledProcess rc => CalledProcessError rc
  end.

(** What iterating over a file opened for reading gives: lines, up to the
    end of the file or to an error of the read. *)
Inductive Lines : Type :=
| Eof
| Line (text : string) (rest : Lines)
| ReadFails (e : OSError).

Record TransportTimeouts : Type := mkTransportTimeouts {
  session_start_retry_timeout_sec : Z;
  session_start_timeout_sec : Z;
  session_established_timeout_sec : Z
}.

Inductive SysCall : Type :=
| SMkdir (path : Path) (parents : bool) (r : Outcome SysError unit)
| SMakedirs (path : Path) (r : Outcome SysError unit)
| SCopy2 (src dst : Path) (r : Outcome SysError unit)
| SCopyfile (src dst : Path) (r : Outcome SysError unit)
| SCopytree (src dst : Path) (dirs_exist_ok : bool) (r : Outcome SysError unit)
| SIsdir (path : Path) (r : Outcome SysError bool)
| STarOpen (path : Path) (r : Outcome SysError unit)
| STarExtractall (path dest : Path) (r : Outcome SysError unit)
| STarClose (path : Path) (r : Outcome SysError unit)
| SOpenW (path : Path) (r : Outcome SysError unit)
| SOpenR (path : Path) (r : Outcome SysError Lines)
| SWrite (path : Path) (text : string) (r : Outcome SysError unit)
| SClose (path : Path) (r : Outcome SysError unit)
| SCheckCall (cmd : list string) (cwd : Path) (silent : bool)
             (r : Outcome SysError unit)
| SPopen (args : list string) (r : Outcome SysError Popen)
| SGetfl (fd : Fd) (r : Outcome SysError Z)
| SSetfl (fd : Fd) (flags : Z) (r : Outcome SysError unit)
| SAtexitRegister.

Record Platform (H : Host) : Type := mkPlatform {
  PROJECT_DIR : Path;            (* the directory of the script *)
  current_dir : Path;            (* [Path(__file__).parent.absolute()] *)
  script_file : Path;            (* [__file__] *)
  script_name : string;          (* [os.path.basename(__file__)] *)
  NPROC : Z;                     (* [multiprocessing.cpu_count()] *)
  O_NONBLOCK : Z;                (* [os.O_NONBLOCK] *)
  repr_list : list string -> string;  (* how a list of strings prints *)
  unicode_xlen : string -> option Z;  (* [int(s[2:4])], [s] not all ASCII *)
  p_mkdir : Path -> bool -> OS H -> Outcome SysError unit * OS H;
  p_makedirs : Path -> OS H -> Outcome SysError unit * OS H;
  p_copy2 : Path -> Path -> OS H -> Outcome SysError unit * OS H;
  p_copyfile : Path -> Path -> OS H -> Outcome SysError unit * OS H;
  p_copytree : Path -> Path -> bool -> OS H -> Outcome SysError unit * OS H;
  p_isdir : Path -> OS H -> Outcome SysError bool * OS H;
  p_tar_open : Path -> OS H -> Outcome SysError unit * OS H;
  p_tar_extractall : Path -> Path -> OS H -> Outcome SysError unit * OS H;
  p_tar_close : Path -> OS H -> Outcome SysError unit * OS H;
  p_open_w : Path -> OS H -> Outcome SysError unit * OS H;
  p_open_r : Path -> OS H -> Outcome SysError Lines * OS H;
  p_write : Path -> string -> OS H -> Outcome SysError unit * OS H;
  p_close : Path -> OS H -> Outcome SysError unit * OS H;
  p_check_call : list string -> Path -> bool -> OS H ->
                 Outcome SysError unit * OS H;
  p_popen : list string -> OS H -> Outcome SysError Popen * OS H;
  p_getfl : Fd -> OS H -> Outcome SysError Z * OS H;
  p_setfl : Fd -> Z -> OS H -> Outcome SysError unit * OS H
}.

Arguments PROJECT_DIR {H} p.
Arguments current_dir {H} p.
Arguments script_file {H} p.
Arguments script_name {H} p.
Arguments NPROC {H} p.
Arguments O_NONBLOCK {H} p.
Arguments repr_list {H} p.
Arguments unicode_xlen {H} p.
Arguments p_mkdir {H} p.
Arguments p_makedirs {H} p.
Arguments p_copy2 {H} p.
Arguments p_copyfile {H} p.
Arguments p_copytree {H} p.
Arguments p_isdir {H} p.
Arguments p_tar_open {H} p.
Arguments p_tar_extractall {H} p.
Arguments p_tar_close {H} p.
Arguments p_open_w {H} p.
Arguments p_open_r {H} p.
Arguments p_write {H} p.
Arguments p_close {H} p.
Arguments p_check_call {H} p.
Arguments p_popen {H} p.
Arguments p_getfl {H} p.
Arguments p_setfl {H} p.

(** ** The monad of the project methods *)

Section Server.

Variable H : Host.

(** The handler with its transport, the log of the platform calls and the
    callbacks registered with [atexit]. *)
Record Server : Type := mkServer {
  transport : Machine H;
  syslog : list SysCall;
  atexit_hooks : list (M H unit)
}.

Definition P (A : Type) : Type := Server -> Outcome Error A * Server.

Definition pret {A} (a : A) : P A := fun s => (Returns a, s).

Definition pbind {A B} (c : P A) (k : A -> P B) : P B :=
  fun s =>
    match c s with
    | (Returns a, s') => k a s'
    | (Raises e, s') => (Raises e, s')
    | (Blocks, s') => (Blocks, s')
    end.

Definition praise {A} (e : Error) : P A := fun s => (Raises e, s).

(** A computation without effect, such as building a list of arguments. *)
Definition pure {A} (r : Outcome Error A) : P A := fun s => (r, s).

Definition lift_sys {A} (r : Outcome SysError A) : Outcome Error A :=
  match r with
  | Returns a => Returns a
  | Raises e => Raises (sys_error e)
  | Blocks => Blocks
  end.

(** A call to the platform: the host moves, the call is logged. *)
Definition sys {A} (f : OS H -> Outcome SysError A * OS H)
    (entry : Outcome SysError A -> SysCall) : P A :=
  fun s =>
    let m := transport s in
    let (r, o) := f (os m) in
    (lift_sys r,
     mkServer (mkMachine (self m) o (log m)) (syslog s ++ [entry r])
              (atexit_hooks s)).

(** A transport method run from a project method. *)
Definition run_transport {A} (c : M H A) : P A :=
  fun s =>
    let (r, m) := c (transport s) in
    (match r with
     | Returns a => Returns a
     | Raises e => Raises (Base e)
     | Blocks => Blocks
     end, mkServer m (syslog s) (atexit_hooks s)).

Definition set_proc (proc : option Popen) : P unit :=
  fun s =>
    let m := transport s in
    (Returns tt,
     mkServer (mkMachine (mkHandler proc (elfdest (self m)) (outputs (self m)))
                         (os m) (log m))
              (syslog s) (atexit_hooks s)).

(** [atexit.register(hook)] *)
Definition atexit_register (hook : M H unit) : P unit :=
  fun s =>
    (Returns tt,
     mkServer (transport s) (syslog s ++ [SAtexitRegister])
              (atexit_hooks s ++ [hook])).

End Server.

Arguments mkServer {H} transport syslog atexit_hooks.
Arguments transport {H} s.
Arguments syslog {H} s.
Arguments atexit_hooks {H} s.
Arguments pret {H A} a.
Arguments pbind {H A B} c k.
Arguments praise {H A} e.
Arguments pure {H A} r.
Arguments sys {H A} f entry.
Arguments run_transport {H A} c.
Arguments set_proc {H} proc.
Arguments atexit_register {H} hook.

Declare Scope project_scope.
Delimit Scope project_scope with project.
Notation "x <- c ;; k" := (pbind c (fun x => k))
  (at level 61, c at next level, right associativity) : project_scope.
Notation "c ;; k" := (pbind c (fun _ => k))
  (at level 61, right associativity) : project_scope.

Definition decimal (z : Z) : string := NilZero.string_of_int (Z.to_int z).

(** ** [build], [_set_nonblock], [open_transport] *)

Section Project.

Variable H : Host.
Variable F : Platform H.

Local Open Scope project_scope.

Definition check_call (cmd_args : list string) (cwd : Path) (silent : bool)
    : P H unit :=
  sys (p_check_call F cmd_args cwd silent) (SCheckCall cmd_args cwd silent).

Definition build (options : Options) : P H unit :=
  let build_dir := path_join (PROJECT_DIR F) "build" in
  sys (p_mkdir F build_dir false) (SMkdir build_dir false) ;;
  cmake_args <- pure (cmake_args options) ;;
  quiet <- pure (str2bool (options_get options "quiet" PyNone) true) ;;
  let make := ["make"; ("-j" ++ decimal (NPROC F))]%string in
  if truthy_result quiet then
    check_call (["cmake"; ".."]%string ++ cmake_args) build_dir true ;;
    check_call make build_dir true
  else
    check_call (["cmake"; ".."]%string ++ cmake_args) build_dir false ;;
    check_call make build_dir false.

Definition _set_nonblock (fd : Fd) : P H unit :=
  flag <- sys (p_getfl F fd) (SGetfl fd) ;;
  sys (p_setfl F fd (Z.lor flag (O_NONBLOCK F)))
      (SSetfl fd (Z.lor flag (O_NONBLOCK F))) ;;
  new_flag <- sys (p_getfl F fd) (SGetfl fd) ;;
  if (Z.land new_flag (O_NONBLOCK F) =? 0)%Z
  then praise AssertionError
  else pret tt.

Definition open_transport (options : Options) : P H TransportTimeouts :=
  let etiss_script := options_get options "etiss_script" PyNone in
  match etiss_script with
  | PyNone => praise AssertionError
  | _ =>
      (if DBG then
         fun s =>
           sys (p_copyfile F (PROJECT_DIR F ++ ["build"; "main"]%string)
                  [elfdest (self (transport s))])
               (SCopyfile (PROJECT_DIR F ++ ["build"; "main"]%string)
                  [elfdest (self (transport s))]) s
       else pret tt) ;;
      args <- pure (launch_args options) ;;
      proc <- match all_strings args with
              | Some argv => sys (p_popen F argv) (SPopen argv)
              | None => praise TypeError
              end ;;
      set_proc (Some proc) ;;
      _set_nonblock (stdin_fileno proc) ;;
      _set_nonblock (stdout_fileno proc) ;;
      atexit_register close_transport ;;
      pret (mkTransportTimeouts 0%Z 0%Z 0%Z)
  end.

End Project.

Arguments check_call {H} F cmd_args cwd silent.
Arguments build {H} F options.
Arguments _set_nonblock {H} F fd.
Arguments open_transport {H} F options.

(** ** The options [server_info_query] declares *)

Record ProjectOption : Type := mkProjectOption {
  name : string;
  optional : list string;
  required : list string;
  type : string;
  default : PyVal;               (* [None] when no default is given *)
  choices : list string;
  help : string
}.

Definition project_options : list ProjectOption :=
  [ mkProjectOption "verbose" ["build"] [] "bool" (PyBool false) []
      "Run make with verbose output";
    mkProjectOption "quiet" ["build"] [] "bool" (PyBool true) []
      "Supress all compilation messages";
    mkProjectOption "debug" ["build"] [] "bool" (PyBool false) []
      "Build with debugging symbols and -O0";
    mkProjectOption "workspace_size_bytes" ["generate_project"] [] "int"
      (PyInt WORKSPACE_SIZE_BYTES) []
      "Sets the value of TVM_WORKSPACE_SIZE_BYTES.";
    mkProjectOption "arch" ["build"] [] "str" (PyStr ARCH) []
      "Name used ARCH.";
    mkProjectOption "abi" ["build"] [] "str" (PyStr ABI) []
      "Name used ABI.";
    mkProjectOption "cpu_arch" ["generate_project"] [] "str" PyNone []
      "Name used CPU_ARCH.";
    mkProjectOption "toolchain" ["build"] [] "str" (PyStr TOOLCHAIN)
      ["gcc"; "llvm"] "Name used TOOLCHAIN.";
    mkProjectOption "llvm_dir" ["build"] [] "str" PyNone []
      "Path to LLVM install directory";
    mkProjectOption "gcc_prefix" ["build"] [] "str" (PyStr "") []
      "Name used COMPILER.";
    mkProjectOption "gcc_name" ["build"] [] "str" (PyStr TRIPLE) []
      "Name used COMPILER.";
    mkProjectOption "etiss_args" ["open_transport"] [] "str" (PyStr "") []
      "TODO.";
    mkProjectOption "etiss_script" [] ["open_transport"] "str" PyNone []
      "Path to run_helper.sh script."
  ]%string.

(** A key is missing from [options]. *)
Fixpoint missing (options : Options) (key : string) : bool :=
  match options with
  | [] => true
  | (k, _) :: rest => negb (k =? key)%string && missing rest key
  end.

(** ** Reading the platform log *)

(** What [build] settles from its options before it runs anything: the
    arguments for cmake and whether the output is silenced. *)
Definition build_plan (options : Options) : Outcome Error (list string * bool) :=
  obind (cmake_args options) (fun args =>
  obind (str2bool (options_get options "quiet" PyNone) true) (fun quiet =>
  Returns (args, truthy_result quiet))).

(** The calls of a [build], given how each would end. *)
Definition build_calls (dir : Path) (cmake make : list string) (silent : bool)
    (r1 r2 r3 : Outcome SysError unit) : list SysCall :=
  SMkdir dir false r1 ::
  match r1 with
  | Returns _ =>
      SCheckCall cmake dir silent r2 ::
      match r2 with
      | Returns _ => [SCheckCall make dir silent r3]
      | _ => []
      end
  | _ => []
  end.

Definition is_check_call (c : SysCall) : bool :=
  match c with SCheckCall _ _ _ _ => true | _ => false end.

Definition is_popen (c : SysCall) : bool :=
  match c with SPopen _ _ => true | _ => false end.

(** ** [_populate_cmake], [_populate_ini], [generate_project] *)

Definition nl : string := String (ascii_of_nat 10) EmptyString.

Definition MODEL_LIBRARY_FORMAT_RELPATH : string := "model.tar".
Definition CMAKEFILE_FILENAME : string := "CMakeLists.txt".
Definition INI_FILENAME : string := "etiss.ini".
Definition CRT_COPY_ITEMS : list string :=
  ["include"; "CMakeLists.txt"; "src"]%string.

(** The place of the last dot of a name, if it has one. *)
Fixpoint last_dot (s : string) (i : nat) (found : option nat) : option nat :=
  match s with
  | EmptyString => found
  | String c rest =>
      last_dot rest (S i) (if (c =? ".")%char then Some i else found)
  end.

(** [PurePath.stem] of a one-part path: the name without its last suffix; a
    dot at the very start or at the very end starts no suffix. *)
Definition stem (n : string) : string :=
  match last_dot n 0 None with
  | Some i =>
      if (0 <? i)%nat && (i <? String.length n - 1)%nat
      then substring 0 i n else n
  | None => n
  end.

(** White space for [int], of the characters below U+0100: around a number
    [int] drops the tab to the carriage return (9 to 13) and the space, and
    U+0085 and U+00A0, which it reads as spaces. The separators U+001C to
    U+001F are white space for [str.isspace] but not for [int]. *)
Definition is_space (c : ascii) : bool :=
  let n := nat_of_ascii c in
  ((9 <=? n) && (n <=? 13) || (n =? 32) || (n =? 133) || (n =? 160))%nat.

(** The decimal digits below U+0100 are [0] to [9]. *)
Definition is_digit (c : ascii) : bool :=
  let n := nat_of_ascii c in ((48 <=? n) && (n <=? 57))%nat.

Fixpoint lstrip (s : string) : string :=
  match s with
  | String c rest => if is_space c then lstrip rest else s
  | EmptyString => s
  end.

Fixpoint rstrip (s : string) : string :=
  match s with
  | EmptyString => EmptyString
  | String c rest =>
      match rstrip rest with
      | EmptyString => if is_space c then EmptyString else String c EmptyString
      | kept => String c kept
      end
  end.

Fixpoint digits_value (s : string) (acc : Z) : option Z :=
  match s with
  | EmptyString => Some acc
  | String c rest =>
      if is_digit c
      then digits_value rest (10 * acc + Z.of_nat (nat_of_ascii c - 48))%Z
      else None
  end.

(** [int(s)] for the strings that [arch[2:4]] can be, of two characters at
    most: white space around is dropped, one sign may lead, the rest is
    decimal digits, at least one; anything else is a [ValueError]. (Longer
    strings may also hold underscores between digits, which two characters
    cannot.) *)
Definition int_of_short (s : string) : option Z :=
  match lstrip (rstrip s) with
  | EmptyString => None
  | String c rest =>
      if (c =? "+")%char then
        match rest with
        | EmptyString => None
        | _ => digits_value rest 0
        end
      else if (c =? "-")%char then
        match rest with
        | EmptyString => None
        | _ => option_map Z.opp (digits_value rest 0)
        end
      else digits_value (String c rest) 0
  end.

(** [str.isascii]: every character is below U+0080. *)
Fixpoint isascii (s : string) : bool :=
  match s with
  | EmptyString => true
  | String c rest => (nat_of_ascii c <? 128)%nat && isascii rest
  end.

(** [int(arch[2:4])]. For an [arch] of ASCII characters the two characters
    are read here. With other characters in [arch], what a slice counts and
    what [int] takes for white space and decimal digits is a matter of the
    Unicode tables of the interpreter: the answer is the platform's. *)
Definition xlen {H : Host} (F : Platform H) (arch : string) : option Z :=
  if isascii arch then int_of_short (substring 2 2 arch)
  else unicode_xlen F arch.

(** [f"RV{xlen}IMACFD"] with [xlen = int(options.get("arch", ARCH)[2:4])]. *)
Definition default_cpu_arch {H : Host} (F : Platform H) (options : Options)
    : Outcome Error string :=
  match options_get options "arch" (PyStr ARCH) with
  | PyStr arch =>
      match xlen F arch with
      | Some n => Returns ("RV" ++ decimal n ++ "IMACFD")%string
      | None => Raises (Base (OsErr ValueError))
      end
  | _ => Raises TypeError
  end.

Section Files.

Variable H : Host.
Variable F : Platform H.

Local Open Scope project_scope.

(** How a value prints inside an f-string. *)
Definition py_format (v : PyVal) : string :=
  match v with
  | PyNone => "None"%string
  | PyBool true => "True"%string
  | PyBool false => "False"%string
  | PyInt z => decimal z
  | PyStr s => s
  | PyList l => repr_list F l
  end.

(** The body of a [with open(...)] block and the close that ends it: the
    file is closed when the body is left, by its end, by [return] or by an
    exception, and an exception of the close takes the place of the one of
    the body. *)
Definition closing {A} (path : Path) (body : P H A) : P H A :=
  fun s =>
    match body s with
    | (Returns a, s1) => (sys (p_close F path) (SClose path) ;; pret a) s1
    | (Raises e, s1) =>
        match sys (p_close F path) (SClose path) s1 with
        | (Returns _, s2) => (Raises e, s2)
        | (Raises e', s2) => (Raises e', s2)
        | (Blocks, s2) => (Blocks, s2)
        end
    | (Blocks, s1) => (Blocks, s1)
    end.

(** [for line in template_f: f.write(line)] *)
Fixpoint write_lines (dst : Path) (lines : Lines) : P H unit :=
  match lines with
  | Eof => pret tt
  | Line text rest =>
      sys (p_write F dst text) (SWrite dst text) ;;
      write_lines dst rest
  | ReadFails e => praise (Base (OsErr e))
  end.

Definition _populate_cmake (cmakefile_template_path cmakefile_path : Path)
    (memory_size : PyVal) (verbose : option bool) : P H unit :=
  sys (p_open_w F cmakefile_path) (SOpenW cmakefile_path) ;;
  closing cmakefile_path
    (lines <- sys (p_open_r F cmakefile_template_path)
                  (SOpenR cmakefile_template_path) ;;
     closing cmakefile_template_path
       (write_lines cmakefile_path lines ;;
        let text :=
          ("target_compile_definitions(main PUBLIC -DTVM_WORKSPACE_SIZE_BYTES="
           ++ py_format memory_size ++ ")" ++ nl)%string in
        sys (p_write F cmakefile_path text) (SWrite cmakefile_path text) ;;
        if truthy_result verbose then
          let text := ("set(CMAKE_VERBOSE_MAKEFILE TRUE)" ++ nl)%string in
          sys (p_write F cmakefile_path text) (SWrite cmakefile_path text)
        else pret tt)).

(** [cpu_arch in [None, "None"]] *)
Definition no_cpu_arch (cpu_arch : PyVal) : bool :=
  match cpu_arch with
  | PyNone => true
  | PyStr s => (s =? "None")%string
  | _ => false
  end.

Definition _populate_ini (ini_template_path ini_path : Path)
    (cpu_arch : PyVal) : P H unit :=
  sys (p_open_w F ini_path) (SOpenW ini_path) ;;
  closing ini_path
    (lines <- sys (p_open_r F ini_template_path) (SOpenR ini_template_path) ;;
     closing ini_template_path
       (write_lines ini_path lines ;;
        if no_cpu_arch cpu_arch then pret tt
        else
          let text := ("arch.cpu=" ++ py_format cpu_arch ++ nl)%string in
          sys (p_write F ini_path text) (SWrite ini_path text))).

(** The loop over [CRT_COPY_ITEMS]. *)
Fixpoint copy_crt_items (items : list string) (standalone_crt_dir crt_path : Path)
    : P H unit :=
  match items with
  | [] => pret tt
  | item :: rest =>
      let src_path := path_join standalone_crt_dir item in
      let dst_path := path_join crt_path item in
      is_dir <- sys (p_isdir F src_path) (SIsdir src_path) ;;
      (if is_dir : bool
       then sys (p_copytree F src_path dst_path false)
                (SCopytree src_path dst_path false)
       else sys (p_copy2 F src_path dst_path) (SCopy2 src_path dst_path)) ;;
      copy_crt_items rest standalone_crt_dir crt_path
  end.

Definition generate_project (model_library_format_path standalone_crt_dir
    project_dir : Path) (options : Options) : P H unit :=
  sys (p_mkdir F project_dir true) (SMkdir project_dir true) ;;
  let current_dir := current_dir F in
  sys (p_copy2 F (script_file F) (path_join project_dir (script_name F)))
      (SCopy2 (script_file F) (path_join project_dir (script_name F))) ;;
  let project_model_library_format_path :=
    path_join project_dir MODEL_LIBRARY_FORMAT_RELPATH in
  sys (p_copy2 F model_library_format_path project_model_library_format_path)
      (SCopy2 model_library_format_path project_model_library_format_path) ;;
  let extract_path :=
    path_join project_dir (stem MODEL_LIBRARY_FORMAT_RELPATH) in
  sys (p_tar_open F project_model_library_format_path)
      (STarOpen project_model_library_format_path) ;;
  (fun s =>
     match (sys (p_makedirs F extract_path) (SMakedirs extract_path) ;;
            sys (p_tar_extractall F project_model_library_format_path
                   extract_path)
                (STarExtractall project_model_library_format_path
                   extract_path)) s with
     | (Returns a, s1) =>
         sys (p_tar_close F project_model_library_format_path)
             (STarClose project_model_library_format_path) s1
     | (Raises e, s1) =>
         match sys (p_tar_close F project_model_library_format_path)
                   (STarClose project_model_library_format_path) s1 with
         | (Returns _, s2) => (Raises e, s2)
         | (Raises e', s2) => (Raises e', s2)
         | (Blocks, s2) => (Blocks, s2)
         end
     | (Blocks, s1) => (Blocks, s1)
     end) ;;
  let crt_path := path_join project_dir "crt" in
  sys (p_mkdir F crt_path false) (SMkdir crt_path false) ;;
  copy_crt_items CRT_COPY_ITEMS standalone_crt_dir crt_path ;;
  verbose <- pure (str2bool (options_get options "verbose" PyNone) false) ;;
  _populate_cmake
    (path_join current_dir (CMAKEFILE_FILENAME ++ ".template")%string)
    (path_join project_dir CMAKEFILE_FILENAME)
    (options_get options "workspace_size_bytes" (PyInt WORKSPACE_SIZE_BYTES))
    verbose ;;
  let cmake_path := path_join project_dir "cmake" in
  sys (p_mkdir F cmake_path false) (SMkdir cmake_path false) ;;
  sys (p_copytree F (path_join current_dir "cmake") cmake_path true)
      (SCopytree (path_join current_dir "cmake") cmake_path true) ;;
  let crt_config_dir := path_join project_dir "crt_config" in
  sys (p_mkdir F crt_config_dir false) (SMkdir crt_config_dir false) ;;
  sys (p_copy2 F (path_join (path_join current_dir "crt_config") "crt_config.h")
         (path_join crt_config_dir "crt_config.h"))
      (SCopy2 (path_join (path_join current_dir "crt_config") "crt_config.h")
         (path_join crt_config_dir "crt_config.h")) ;;
  let src_dir := path_join project_dir "src" in
  sys (p_mkdir F src_dir false) (SMkdir src_dir false) ;;
  sys (p_copy2 F (path_join (path_join current_dir "src") "main.cc")
         (path_join src_dir "main.cc"))
      (SCopy2 (path_join (path_join current_dir "src") "main.cc")
         (path_join src_dir "main.cc")) ;;
  sys (p_copy2 F (path_join (path_join current_dir "src") "platform.cc")
         (path_join src_dir "platform.cc"))
      (SCopy2 (path_join (path_join current_dir "src") "platform.cc")
         (path_join src_dir "platform.cc")) ;;
  default_cpu_arch <- pure (default_cpu_arch F options) ;;
  _populate_ini
    (path_join current_dir "etiss.ini.template")
    (path_join project_dir INI_FILENAME)
    (options_get options "cpu_arch" (PyStr default_cpu_arch)).

End Files.

Arguments py_format {H} F v.
Arguments closing {H} F {A} path body.
Arguments write_lines {H} F dst lines.
Arguments _populate_cmake {H} F cmakefile_template_path cmakefile_path
  memory_size verbose.
Arguments _populate_ini {H} F ini_template_path ini_path cpu_arch.
Arguments copy_crt_items {H} F items standalone_crt_dir crt_path.
Arguments generate_project {H} F model_library_format_path standalone_crt_dir
  project_dir options.

(** ** A platform to run the project methods on

    The echo child of [Echo], together with a table of file status flags, a
    list of directories and the text files written so far. Launching gives
    the echo child; [F_SETFL] takes effect when [setfl_works] is set; cmake
    exits with [cmake_status]. It is run with options of ASCII text; its
    [int] takes no [arch] with other characters. *)

Module Sim.

Record State : Type := mkState {
  child : Echo.State;
  flags : list (Fd * Z);
  setfl_works : bool;
  dirs : list Path;
  files : list (Path * list string);
  cmake_status : Z
}.

Definition on_child {A} (f : Echo.State -> A * Echo.State) (o : State)
    : A * State :=
  let (a, c) := f (child o) in
  (a, mkState c (flags o) (setfl_works o) (dirs o) (files o) (cmake_status o)).

Definition host : Host :=
  mkHost State
    (on_child Echo.monotonic)
    (fun r w x t => on_child (Echo.select r w x t))
    (fun fd n => on_child (Echo.read fd n))
    (fun fd d => on_child (Echo.write fd d))
    (fun p => on_child (Echo.getpgid p))
    (fun p => on_child (Echo.terminate p))
    (fun p => on_child (Echo.kill p))
    (fun p => on_child (Echo.wait p))
    (fun g sig => on_child (Echo.killpg g sig))
    (fun p c => on_child (Echo.write_file p c)).

Definition path_eqb (p q : Path) : bool :=
  if list_eq_dec string_dec p q then true else false.

Fixpoint flags_of (table : list (Fd * Z)) (fd : Fd) : Z :=
  match table with
  | [] => 2%Z
  | (k, v) :: rest => if (k =? fd)%Z then v else flags_of rest fd
  end.

Fixpoint lines_of (table : list (Path * list string)) (p : Path)
    : option (list string) :=
  match table with
  | [] => None
  | (k, v) :: rest => if path_eqb k p then Some v else lines_of rest p
  end.

Fixpoint to_lines (l : list string) : Lines :=
  match l with
  | [] => Eof
  | x :: rest => Line x (to_lines rest)
  end.

Fixpoint append_line (table : list (Path * list string)) (p : Path)
    (text : string) : list (Path * list string) :=
  match table with
  | [] => []
  | (k, v) :: rest =>
      if path_eqb k p then (k, v ++ [text]) :: rest
      else (k, v) :: append_line rest p text
  end.

Definition ok (o : State) : Outcome SysError unit * State := (Returns tt, o).

Definition mkdir (p : Path) (parents : bool) (o : State)
    : Outcome SysError unit * State :=
  if existsb (path_eqb p) (dirs o)
  then (Raises (SysOs (OtherOSError 17)), o)
  else (Returns tt,
        mkState (child o) (flags o) (setfl_works o) (p :: dirs o) (files o)
                (cmake_status o)).

Definition isdir (p : Path) (o : State) : Outcome SysError bool * State :=
  (Returns (existsb (path_eqb p) (dirs o)), o).

Definition open_w (p : Path) (o : State) : Outcome SysError unit * State :=
  (Returns tt,
   mkState (child o) (flags o) (setfl_works o) (dirs o) ((p, []) :: files o)
           (cmake_status o)).

Definition open_r (p : Path) (o : State) : Outcome SysError Lines * State :=
  match lines_of (files o) p with
  | Some l => (Returns (to_lines l), o)
  | None => (Raises (SysOs (OtherOSError 2)), o)
  end.

Definition write (p : Path) (text : string) (o : State)
    : Outcome SysError unit * State :=
  (Returns tt,
   mkState (child o) (flags o) (setfl_works o) (dirs o)
           (append_line (files o) p text) (cmake_status o)).

Definition check_call (cmd : list string) (cwd : Path) (silent : bool)
    (o : State) : Outcome SysError unit * State :=
  match cmd with
  | cmd0 :: _ =>
      if (cmd0 =? "cmake")%string && negb (cmake_status o =? 0)%Z
      then (Raises (SysCalledProcess (cmake_status o)), o)
      else (Returns tt, o)
  | [] => (Raises (SysOs ValueError), o)
  end.

Definition popen (argv : list string) (o : State)
    : Outcome SysError Popen * State :=
  (Returns Echo.child,
   mkState (Echo.running 4 false) (flags o) (setfl_works o) (dirs o) (files o)
           (cmake_status o)).

Definition getfl (fd : Fd) (o : State) : Outcome SysError Z * State :=
  (Returns (flags_of (flags o) fd), o).

Definition setfl (fd : Fd) (v : Z) (o : State) : Outcome SysError unit * State :=
  if setfl_works o
  then (Returns tt,
        mkState (child o) ((fd, v) :: flags o) (setfl_works o) (dirs o)
                (files o) (cmake_status o))
  else (Returns tt, o).

Definition platform : Platform host :=
  @mkPlatform host ["opt"; "project"]%string ["opt"; "project"]%string
    ["opt"; "project"; "microtvm_api_server.py"]%string
    "microtvm_api_server.py" 8%Z 2048%Z
    (fun l => String.concat ", " l)
    (fun _ => None)
    mkdir (fun p => mkdir p true) (fun _ _ => ok) (fun _ _ => ok)
    (fun _ _ _ => ok) isdir (fun _ => ok) (fun _ _ => ok) (fun _ => ok)
    open_w open_r write (fun _ => ok) check_call popen getfl setfl.

(** Nothing launched, nothing on disk but the templates. *)
Definition fresh (works : bool) (status : Z) : State :=
  mkState (Echo.exited false) [] works []
    [ (["opt"; "project"; "CMakeLists.txt.template"]%string,
       ["project(main)"; "add_executable(main)"]%string);
      (["opt"; "project"; "etiss.ini.template"]%string,
       ["[IntConfigurations]"]%string) ]
    status.

Definition start (o : State) : Server host :=
  mkServer (@mkMachine host Echo.torn_down o []) [] [].

End Sim.

(** ** Reading the log of the file calls *)

Fixpoint texts (lines : Lines) : list string :=
  match lines with
  | Eof => []
  | Line text rest => text :: texts rest
  | ReadFails _ => []
  end.

(** The lines end with the file, not with an error. *)
Fixpoint lines_ok (lines : Lines) : bool :=
  match lines with
  | Eof => true
  | Line _ rest => lines_ok rest
  | ReadFails _ => false
  end.

Definition returned {E A} (r : Outcome E A) : bool :=
  match r with Returns _ => true | _ => false end.

(** A logged call went well: it returned, and a file opened for reading
    could be read to its end. *)
Definition sys_returned (c : SysCall) : bool :=
  match c with
  | SMkdir _ _ r | SMakedirs _ r | SCopy2 _ _ r | SCopyfile _ _ r
  | SCopytree _ _ _ r | STarOpen _ r | STarExtractall _ _ r | STarClose _ r
  | SOpenW _ r | SWrite _ _ r | SClose _ r | SCheckCall _ _ _ r
  | SSetfl _ _ r => returned r
  | SIsdir _ r => returned r
  | SOpenR _ r => match r with Returns lines => lines_ok lines | _ => false end
  | SPopen _ r => returned r
  | SGetfl _ r => returned r
  | SAtexitRegister => true
  end.

Definition same_path (p q : Path) : bool :=
  if list_eq_dec string_dec p q then true else false.

(** The call opens [p] for writing. *)
Definition opens (p : Path) (c : SysCall) : bool :=
  match c with
  | SOpenW q _ => same_path q p
  | _ => false
  end.

(** What was written, in order: the file and the text of each write that
    returned. *)
Fixpoint writes (made : list SysCall) : list (Path * string) :=
  match made with
  | [] => []
  | SWrite p text (Returns _) :: rest => (p, text) :: writes rest
  | _ :: rest => writes rest
  end.



Definition raises {A} (e : Error) (r : Outcome Error A) : Prop := r = Raises e.

(** A way to state what a method does to the log, whatever the platform
    answers: no call of the kind [bad] is made, and the method ends as [ok]
    says unless one of its calls went wrong, in which case it does not
    return. *)
Definition behaves {H : Host} {A} (bad : SysCall -> bool)
    (ok : Outcome Error A -> Prop) (c : P H A) : Prop :=
  forall s,
    exists made,
      syslog (snd (c s)) = syslog s ++ made /\
      existsb bad made = false /\
      (ok (fst (c s)) \/
       (forallb sys_returned made = false /\ returned (fst (c s)) = false)).

Definition is_returned {A} (r : Outcome Error A) : Prop := returned r = true.

(** The method makes no call of the kind [bad], whatever the platform
    answers. *)
Definition avoids {H : Host} {A} (bad : SysCall -> bool) (c : P H A) : Prop :=
  forall s,
    exists made,
      syslog (snd (c s)) = syslog s ++ made /\ existsb bad made = false.

(** The method never returns. *)
Definition fails {H : Host} {A} (c : P H A) : Prop :=
  forall s, returned (fst (c s)) = false.

(** * Properties *)

(** ** Closed sessions *)

(** C3: on a session whose process handle is [None], [read_transport] and
    [write_transport] raise [TransportClosedError] at once: the handler, the
    host and the call log are as before, so no readiness wait, read or write
    was attempted. *)
Theorem closed_session_fails_without_io :
  forall (H : Host) inh (n : Z) (data : bytes) (timeout_sec : option Q)
         (m : Machine H),
    _proc (self m) = None ->
    read_transport n timeout_sec m = (Raises TransportClosedError, m) /\
    write_transport inh data timeout_sec m = (Raises TransportClosedError, m).
Proof.
  intros H inh n data timeout_sec m Hnone.
  unfold read_transport, write_transport, bind, get_self.
  rewrite Hnone. split; reflexivity.
Qed.

Lemma closed_session_fails_without_io_witness :
  let m := Echo.start Echo.torn_down (Echo.running 4 false) in
  read_transport 4%Z (Some 1%Q) m = (Raises TransportClosedError, m) /\
  write_transport None [Byte.x70] (Some 1%Q) m = (Raises TransportClosedError, m).
Proof.
  apply (closed_session_fails_without_io Echo.host None 4%Z [Byte.x70] (Some 1%Q)).
  reflexivity.
Defined.

(** ** The readiness wait *)

Lemma py_max0_passed : forall e now : Q, (e < now)%Q -> py_max0 (e - now) = 0%Q.
Proof.
  intros e now Hlt. unfold py_max0.
  destruct (Qle_bool (e - now) 0) eqn:E; [reflexivity|].
  assert (Hle : (e - now <= 0)%Q) by lra.
  apply Qle_bool_iff in Hle. congruence.
Qed.

Lemma all_empty_iff : forall (a b c : list Fd),
  is_empty a && is_empty b && is_empty c = true <-> (a, b, c) = ([], [], []).
Proof.
  intros [|x a] [|y b] [|z c]; simpl; split; intro E;
    try reflexivity; try discriminate.
Qed.

(** C9: entered with a deadline that has already passed, [_await_ready] hands
    [select] a timeout of [0] and makes that one call; it returns [True] when
    [select] reports anything and raises [IoTimeoutError] only when all three
    lists come back empty. *)
Theorem await_ready_past_deadline_polls_once :
  forall (H : Host) rlist wlist (e now : Q) (m : Machine H) o1 r o2,
    h_monotonic H (os m) = (now, o1) ->
    (e < now)%Q ->
    h_select H rlist wlist (rlist ++ wlist) (Some 0%Q) o1 = (r, o2) ->
    _await_ready rlist wlist None (Some e) m =
      (match r with
       | Returns (a, b, c) =>
           if is_empty a && is_empty b && is_empty c
           then Raises IoTimeoutError else Returns true
       | Raises x => Raises (OsErr x)
       | Blocks => Blocks
       end,
       mkMachine (self m) o2
         (log m ++ [CMonotonic now;
                    CSelect rlist wlist (rlist ++ wlist) (Some 0%Q) r])).
Proof.
  intros H rlist wlist e now m o1 r o2 Hnow Hlt Hsel.
  unfold _await_ready, bind, time_monotonic, select_select, call, ret.
  rewrite Hnow. cbn [self os log].
  rewrite (py_max0_passed e now Hlt), Hsel.
  rewrite <- app_assoc. cbn [app].
  destruct r as [[[a b] c]|x|]; cbn [lift]; try reflexivity.
  destruct (is_empty a && is_empty b && is_empty c); reflexivity.
Qed.

Lemma await_ready_past_deadline_polls_once_witness :
  let o := Echo.mkState 10 true false false [Byte.x70] 4 in
  _await_ready [6%Z] [] None (Some 3%Q) (Echo.start Echo.live o) =
    (Returns true,
     @mkMachine Echo.host Echo.live o
       [CMonotonic 10;
        CSelect [6%Z] [] [6%Z] (Some 0%Q) (Returns ([6%Z], [], []))]).
Proof.
  apply (@await_ready_past_deadline_polls_once Echo.host [6%Z] [] 3%Q 10%Q
           (Echo.start Echo.live (Echo.mkState 10 true false false [Byte.x70] 4))
           (Echo.mkState 10 true false false [Byte.x70] 4)
           (Returns ([6%Z], [], []))
           (Echo.mkState 10 true false false [Byte.x70] 4));
    reflexivity.
Defined.

(** [_await_ready] in one piece: the timeout for [select] first, then the
    one [select] call and the test of its answer. *)
Lemma await_ready_eq :
  forall (H : Host) rlist wlist timeout_sec end_time (m : Machine H),
    _await_ready rlist wlist timeout_sec end_time m =
    let '(tmo, m1) :=
      match timeout_sec, end_time with
      | None, Some e =>
          let (now, o1) := h_monotonic H (os m) in
          (Some (py_max0 (e - now)),
           mkMachine (self m) o1 (log m ++ [CMonotonic now]))
      | _, _ => (timeout_sec, m)
      end in
    let (r, o2) := h_select H rlist wlist (rlist ++ wlist) tmo (os m1) in
    (match r with
     | Returns (a, b, c) =>
         if is_empty a && is_empty b && is_empty c
         then Raises IoTimeoutError else Returns true
     | Raises x => Raises (OsErr x)
     | Blocks => Blocks
     end,
     mkMachine (self m1) o2
       (log m1 ++ [CSelect rlist wlist (rlist ++ wlist) tmo r])).
Proof.
  intros H rlist wlist timeout_sec end_time m.
  unfold _await_ready, bind, time_monotonic, select_select, call, ret, raise.
  destruct timeout_sec as [t|]; [|destruct end_time as [e|]];
    try destruct (h_monotonic H (os m)) as [now o1]; cbn [self os log];
    match goal with
    | |- context [h_select ?H ?a ?b ?c ?d ?o] =>
        destruct (h_select H a b c d o) as [[[[x y] z]|x|] o2]
    end; cbn [lift]; try reflexivity;
    destruct (is_empty x && is_empty y && is_empty z); reflexivity.
Qed.

Lemma select_outcome_timeout_iff :
  forall (r : Outcome OSError Ready),
    match r with
    | Returns (a, b, c) =>
        if is_empty a && is_empty b && is_empty c
        then Raises IoTimeoutError else Returns true
    | Raises x => Raises (OsErr x)
    | Blocks => Blocks
    end = Raises IoTimeoutError <-> r = Returns ([], [], []).
Proof.
  intros [[[a b] c]|x|]; try (split; discriminate).
  destruct (is_empty a && is_empty b && is_empty c) eqn:E.
  - apply all_empty_iff in E. injection E as -> -> ->. split; reflexivity.
  - split; [discriminate|]. intro R. injection R as -> -> ->. discriminate.
Qed.

Lemma echo_select_waits : select_waits Echo.host.
Proof.
  intros rlist wlist xlist o ready o'. cbn [h_select Echo.host].
  unfold Echo.select.
  destruct (negb (is_empty (Echo.pending o)) || negb (Echo.alive o));
    destruct rlist as [|r rlist]; destruct wlist as [|w wlist];
    cbn [is_empty andb]; intro E; try discriminate;
    injection E as <- _; discriminate.
Qed.

Lemma py_max0_time_left :
  forall e now : Q, time_left e now (Some (py_max0 (e - now))).
Proof.
  intros e now. unfold time_left, py_max0.
  destruct (Qle_bool (e - now) 0) eqn:E.
  - apply Qle_bool_iff in E. left. split; [lra|reflexivity].
  - right. split; [|reflexivity].
    destruct (Qlt_le_dec now e) as [Hlt|Hle]; [exact Hlt|].
    assert (Hle' : (e - now <= 0)%Q) by lra.
    apply Qle_bool_iff in Hle'. congruence.
Qed.

(** C6: [_await_ready] makes one [select] call on the read handles, the write
    handles and, for exceptional conditions, the two lists joined. With a
    deadline (and no timeout of its own) it reads the clock once and the
    timeout of that call is the time left until the deadline, [0] once the
    deadline is reached; else the timeout is [timeout_sec] as given. It
    raises [IoTimeoutError] exactly when [select] comes back with all three
    lists empty, and returns [True] exactly when [select] reports a handle.
    A [select] without timeout never comes back empty: without timeout and
    deadline [IoTimeoutError] is not raised, and the wait lasts as long as
    [select] does. *)
Theorem await_ready_timeout_iff :
  forall (H : Host), select_waits H ->
  forall rlist wlist timeout_sec end_time (m : Machine H),
    let res := _await_ready rlist wlist timeout_sec end_time m in
    let now := fst (h_monotonic H (os m)) in
    exists pre o1 tmo r,
      match timeout_sec, end_time with
      | None, Some e =>
          pre = [CMonotonic now] /\ o1 = snd (h_monotonic H (os m)) /\
          time_left e now tmo
      | _, _ => pre = [] /\ o1 = os m /\ tmo = timeout_sec
      end /\
      h_select H rlist wlist (rlist ++ wlist) tmo o1 = (r, os (snd res)) /\
      log (snd res) =
        log m ++ pre ++ [CSelect rlist wlist (rlist ++ wlist) tmo r] /\
      self (snd res) = self m /\
      (fst res = Raises IoTimeoutError <-> r = Returns ([], [], [])) /\
      (fst res = Returns true <->
       exists ready, r = Returns ready /\ ready <> ([], [], [])) /\
      (r = Returns ([], [], []) -> exists d, tmo = Some d) /\
      (tmo = None ->
       fst res <> Raises IoTimeoutError /\ (r = Blocks -> fst res = Blocks)).
Proof.
  intros H Hw rlist wlist timeout_sec end_time m res now.
  assert (Hfin : forall tmo o1 r o2,
             h_select H rlist wlist (rlist ++ wlist) tmo o1 = (r, o2) ->
             r = Returns ([], [], []) -> exists d, tmo = Some d).
  { intros [d|] o1 r o2 Hsel Hr; [eauto|].
    subst r. apply Hw in Hsel. congruence. }
  assert (Hret : forall r : Outcome OSError Ready,
             match r with
             | Returns (a, b, c) =>
                 if is_empty a && is_empty b && is_empty c
                 then Raises IoTimeoutError else Returns true
             | Raises x => Raises (OsErr x)
             | Blocks => Blocks
             end = Returns true <->
             exists ready, r = Returns ready /\ ready <> ([], [], [])).
  { intros [[[a b] c]|x|].
    - destruct (is_empty a && is_empty b && is_empty c) eqn:E.
      + apply all_empty_iff in E. split; [discriminate|].
        intros (ready & Hr & Hne). injection Hr as <-. contradiction.
      + split; [|reflexivity]. intros _. exists (a, b, c).
        split; [reflexivity|]. intro Hall. apply all_empty_iff in Hall.
        congruence.
    - split; [discriminate|]. intros (ready & Hr & _). discriminate.
    - split; [discriminate|]. intros (ready & Hr & _). discriminate. }
  assert (Hend : forall tmo o1 pre,
             match timeout_sec, end_time with
             | None, Some e =>
                 pre = [CMonotonic now] /\ o1 = snd (h_monotonic H (os m)) /\
                 time_left e now tmo
             | _, _ => pre = [] /\ o1 = os m /\ tmo = timeout_sec
             end ->
             res =
               (let (r, o2) := h_select H rlist wlist (rlist ++ wlist) tmo o1 in
                (match r with
                 | Returns (a, b, c) =>
                     if is_empty a && is_empty b && is_empty c
                     then Raises IoTimeoutError else Returns true
                 | Raises x => Raises (OsErr x)
                 | Blocks => Blocks
                 end,
                 mkMachine (self m) o2
                   (log m ++ pre ++
                    [CSelect rlist wlist (rlist ++ wlist) tmo r]))) ->
             exists pre o1 tmo r,
               match timeout_sec, end_time with
               | None, Some e =>
                   pre = [CMonotonic now] /\
                   o1 = snd (h_monotonic H (os m)) /\ time_left e now tmo
               | _, _ => pre = [] /\ o1 = os m /\ tmo = timeout_sec
               end /\
               h_select H rlist wlist (rlist ++ wlist) tmo o1 =
                 (r, os (snd res)) /\
               log (snd res) =
                 log m ++ pre ++ [CSelect rlist wlist (rlist ++ wlist) tmo r] /\
               self (snd res) = self m /\
               (fst res = Raises IoTimeoutError <-> r = Returns ([], [], [])) /\
               (fst res = Returns true <->
                exists ready, r = Returns ready /\ ready <> ([], [], [])) /\
               (r = Returns ([], [], []) -> exists d, tmo = Some d) /\
               (tmo = None ->
                fst res <> Raises IoTimeoutError /\
                (r = Blocks -> fst res = Blocks))).
  { intros tmo o1 pre Hshape Hres.
    destruct (h_select H rlist wlist (rlist ++ wlist) tmo o1) as [r o2] eqn:Hsel.
    exists pre, o1, tmo, r. rewrite Hres. cbn [fst snd self os log].
    split; [exact Hshape|]. split; [exact Hsel|]. split; [reflexivity|].
    split; [reflexivity|]. split; [apply select_outcome_timeout_iff|].
    split; [apply Hret|]. split; [apply (Hfin _ _ _ _ Hsel)|].
    intros ->. split.
    - intro Hto. apply select_outcome_timeout_iff in Hto.
      destruct (Hfin _ _ _ _ Hsel Hto). discriminate.
    - intros ->. reflexivity. }
  destruct timeout_sec as [t|]; [|destruct end_time as [e|]].
  - apply (Hend (Some t) (os m) []); [auto|].
    unfold res. rewrite await_ready_eq. reflexivity.
  - apply (Hend (Some (py_max0 (e - now))) (snd (h_monotonic H (os m)))
             [CMonotonic now]).
    + split; [reflexivity|]. split; [reflexivity|]. apply py_max0_time_left.
    + unfold res, now. rewrite await_ready_eq.
      destruct (h_monotonic H (os m)) as [now' o1']. cbn [fst snd self os log].
      destruct (h_select H rlist wlist (rlist ++ wlist) _ o1') as [r o2].
      rewrite <- app_assoc. reflexivity.
  - apply (Hend None (os m) []); [auto|].
    unfold res. rewrite await_ready_eq. reflexivity.
Qed.

Lemma await_ready_timeout_iff_witness :
  let m := Echo.start Echo.live (Echo.running 4 false) in
  let res := _await_ready [6%Z] [] None (Some 13%Q) m in
  let now := fst (h_monotonic Echo.host (os m)) in
  exists pre o1 tmo r,
    (pre = [CMonotonic now] /\ o1 = snd (h_monotonic Echo.host (os m)) /\
     time_left 13 now tmo) /\
    h_select Echo.host [6%Z] [] ([6%Z] ++ []) tmo o1 = (r, os (snd res)) /\
    log (snd res) = log m ++ pre ++ [CSelect [6%Z] [] ([6%Z] ++ []) tmo r] /\
    self (snd res) = self m /\
    (fst res = Raises IoTimeoutError <-> r = Returns ([], [], [])) /\
    (fst res = Returns true <->
     exists ready, r = Returns ready /\ ready <> ([], [], [])) /\
    (r = Returns ([], [], []) -> exists d, tmo = Some d) /\
    (tmo = None ->
     fst res <> Raises IoTimeoutError /\ (r = Blocks -> fst res = Blocks)).
Proof.
  exact (await_ready_timeout_iff Echo.host echo_select_waits [6%Z] []
           None (Some 13%Q) (Echo.start Echo.live (Echo.running 4 false))).
Defined.

(** The echo child has sent nothing: the wait of three seconds runs out. *)
Example await_ready_times_out :
  _await_ready [6%Z] [] None (Some 13%Q)
    (Echo.start Echo.live (Echo.running 4 false)) =
  (Raises IoTimeoutError,
   @mkMachine Echo.host Echo.live
     (Echo.mkState (10 + py_max0 (13 - 10)) true false false [] 4)
     [CMonotonic 10;
      CSelect [6%Z] [] [6%Z] (Some (py_max0 (13 - 10)))
        (Returns ([], [], []))]).
Proof. vm_compute. reflexivity. Qed.

(** ** Frames: what the deadline and the wait leave alone *)

Lemma deadline_eq :
  forall (H : Host) timeout_sec (m : Machine H),
    deadline timeout_sec m =
    match timeout_sec with
    | None => (Returns None, m)
    | Some t =>
        let (now, o1) := h_monotonic H (os m) in
        (Returns (Some (now + t)%Q),
         mkMachine (self m) o1 (log m ++ [CMonotonic now]))
    end.
Proof.
  intros H [t|] m; [|reflexivity].
  unfold deadline, bind, time_monotonic, ret.
  destruct (h_monotonic H (os m)); reflexivity.
Qed.

Lemma bind_returns_inv :
  forall (H : Host) A B (c : M H A) (k : A -> M H B) m b m',
    bind c k m = (Returns b, m') ->
    exists a m0, c m = (Returns a, m0) /\ k a m0 = (Returns b, m').
Proof.
  intros H A B c k m b m'. unfold bind.
  destruct (c m) as [[a| |] m0]; intro E; try discriminate; eauto.
Qed.

Lemma prelude_frame :
  forall (H : Host) rlist wlist timeout_sec (m m1 : Machine H) v,
    (end_time <- deadline timeout_sec ;;
     _await_ready rlist wlist None end_time) m = (Returns v, m1) ->
    self m1 = self m /\
    exists pre, log m1 = log m ++ pre /\ existsb is_read pre = false.
Proof.
  intros H rlist wlist timeout_sec m m1 v E.
  apply bind_returns_inv in E. destruct E as (e & m0 & Hd & Ha).
  rewrite deadline_eq in Hd. rewrite await_ready_eq in Ha.
  destruct timeout_sec as [t|].
  - destruct (h_monotonic H (os m)) as [now o1].
    injection Hd as <- <-.
    destruct (h_monotonic H _) as [now' o1'] in Ha. cbn [self os log] in Ha.
    destruct (h_select H _ _ _ _ _) as [r o2] in Ha.
    injection Ha as _ <-. cbn [self log]. split; [reflexivity|].
    eexists. rewrite <- !app_assoc. split; reflexivity.
  - injection Hd as <- <-.
    destruct (h_select H _ _ _ _ _) as [r o2] in Ha.
    injection Ha as _ <-. cbn [self log]. split; [reflexivity|].
    eexists. split; reflexivity.
Qed.

(** ** Reading *)

Lemma echo_read_bounded : read_bounded Echo.host.
Proof.
  intros fd n o b o' Hn. cbn [h_read Echo.host]. unfold Echo.read.
  destruct (n <? 0)%Z; [discriminate|].
  destruct (Echo.pending o) as [|x p].
  - destruct (Echo.alive o); intro E; [discriminate|].
    injection E as <- _. cbn [List.length]. lia.
  - intro E. injection E as <- _.
    rewrite length_firstn. lia.
Qed.

(** C8: on a live session and for [n > 0], once the readiness wait has
    returned, [read_transport] makes one [os.read] of up to [n] bytes, the
    only read of the call; when that read gives at least one byte, those bytes
    are returned as they are, nothing else is called, and their number is
    between [1] and [n]. *)
Theorem read_returns_one_chunk :
  forall (H : Host), read_bounded H ->
  forall (n : Z) timeout_sec (m m1 : Machine H) proc x b o2,
    (0 < n)%Z ->
    _proc (self m) = Some proc ->
    (end_time <- deadline timeout_sec ;;
     _await_ready [stdout_fileno proc] [] None end_time) m = (Returns true, m1) ->
    h_read H (stdout_fileno proc) n (os m1) = (Returns (x :: b), o2) ->
    read_transport n timeout_sec m =
      (Returns (x :: b),
       mkMachine (self m) o2
         (log m1 ++ [CRead (stdout_fileno proc) n (Returns (x :: b))])) /\
    (exists pre, log m1 = log m ++ pre /\ existsb is_read pre = false) /\
    (1 <= Z.of_nat (List.length (x :: b)) <= n)%Z.
Proof.
  intros H Hb n timeout_sec m m1 proc x b o2 Hn Hlive Hpre Hread.
  destruct (prelude_frame _ _ _ _ _ _ _ Hpre) as [Hself Hlog].
  split; [|split; [exact Hlog|]].
  - apply bind_returns_inv in Hpre. destruct Hpre as (e & m0 & Hd & Ha).
    unfold read_transport, bind, get_self, try_except_BrokenPipeError.
    rewrite Hlive. cbv beta iota. rewrite Hd. cbv beta iota.
    rewrite Ha. cbv beta iota.
    unfold os_read, call. rewrite Hread.
    cbn [lift ret DBG]. rewrite Hself. reflexivity.
  - split; [cbn [List.length]; lia|].
    apply (Hb _ _ _ _ _ (Z.lt_le_incl _ _ Hn) Hread).
Qed.

Lemma read_returns_one_chunk_witness :
  let o := Echo.mkState 10 true false false [Byte.x70; Byte.x69] 4 in
  let m := Echo.start Echo.live o in
  read_transport 4%Z None m =
    (Returns [Byte.x70; Byte.x69],
     @mkMachine Echo.host Echo.live
       (Echo.mkState 10 true false false [] 4)
       ([CSelect [6%Z] [] [6%Z] None (Returns ([6%Z], [], []))] ++
        [CRead 6%Z 4%Z (Returns [Byte.x70; Byte.x69])])) /\
  (exists pre,
     [CSelect [6%Z] [] [6%Z] None (Returns ([6%Z], [], []))] = [] ++ pre /\
     existsb is_read pre = false) /\
  (1 <= Z.of_nat (List.length [Byte.x70; Byte.x69]) <= 4)%Z.
Proof.
  apply (@read_returns_one_chunk Echo.host echo_read_bounded 4%Z None
           (Echo.start Echo.live
              (Echo.mkState 10 true false false [Byte.x70; Byte.x69] 4))
           (@mkMachine Echo.host Echo.live
              (Echo.mkState 10 true false false [Byte.x70; Byte.x69] 4)
              [CSelect [6%Z] [] [6%Z] None (Returns ([6%Z], [], []))])
           Echo.child Byte.x70 [Byte.x69]
           (Echo.mkState 10 true false false [] 4));
    reflexivity.
Defined.

(** ** Writing nothing *)

(** C10: on a live session [write_transport] with empty data returns, for any
    timeout: the handler is as before and the only calls made are readings of
    the clock (none at all without a timeout), so no readiness wait and no
    write. *)
Theorem write_empty_returns_without_io :
  forall (H : Host) inh timeout_sec (m : Machine H) proc,
    _proc (self m) = Some proc ->
    exists m' made,
      write_transport inh [] timeout_sec m = (Returns tt, m') /\
      self m' = self m /\
      log m' = log m ++ made /\
      existsb is_io made = false /\
      (timeout_sec = None -> m' = m).
Proof.
  intros H inh timeout_sec m proc Hlive.
  unfold write_transport, bind, get_self. rewrite Hlive. cbv beta iota.
  rewrite deadline_eq. destruct timeout_sec as [t|].
  - destruct (h_monotonic H (os m)) as [now o1]. cbn [List.length write_loop ret].
    eexists; eexists. split; [reflexivity|]. cbn [self log].
    repeat split; try reflexivity. discriminate.
  - cbn [List.length write_loop ret]. exists m, [].
    rewrite app_nil_r. repeat split; reflexivity.
Qed.

Lemma write_empty_returns_without_io_witness :
  exists m' made,
    write_transport None [] (Some 0%Q)
      (Echo.start Echo.live (Echo.running 4 false)) = (Returns tt, m') /\
    self m' = Echo.live /\
    log m' = [] ++ made /\
    existsb is_io made = false /\
    (Some 0%Q = None -> m' = Echo.start Echo.live (Echo.running 4 false)).
Proof.
  apply (@write_empty_returns_without_io Echo.host None (Some 0%Q)
           (Echo.start Echo.live (Echo.running 4 false)) Echo.child).
  reflexivity.
Defined.

(** ** Teardown *)

Lemma close_torn_down :
  forall (H : Host) (m : Machine H),
    _proc (self m) = None -> close_transport m = (Returns tt, m).
Proof.
  intros H m Hnone. unfold close_transport, bind, get_self.
  cbn [DBG ret]. rewrite Hnone. reflexivity.
Qed.

Lemma close_live :
  forall (H : Host) (m : Machine H) proc,
    _proc (self m) = Some proc ->
    close_transport m =
    (pgrp <- os_getpgid H (pid proc) ;;
     set_self (mkHandler None (elfdest (self m)) (outputs (self m))) ;;
     proc_terminate H proc ;;
     proc_kill H proc ;;
     proc_wait H proc ;;
     os_killpg H pgrp SIGKILL) m.
Proof.
  intros H m proc Hlive. unfold close_transport. unfold bind at 1 2.
  unfold get_self. cbn [DBG ret]. unfold bind at 1. cbv beta iota.
  rewrite Hlive. reflexivity.
Qed.

Ltac step_call f :=
  match goal with
  | |- context [f ?K ?a ?st] => destruct (f K a st) as [[?v|?e|] ?o]
  | |- context [f ?K ?a ?b ?st] => destruct (f K a b st) as [[?v|?e|] ?o]
  end; cbn [lift self os log].

(** Once [os.getpgid] has returned, the handle is cleared, however the rest
    of the teardown ends. *)
Lemma close_clears_after_getpgid :
  forall (H : Host) (m : Machine H) proc pgrp o1,
    _proc (self m) = Some proc ->
    h_getpgid H (pid proc) (os m) = (Returns pgrp, o1) ->
    _proc (self (snd (close_transport m))) = None.
Proof.
  intros H m proc pgrp o1 Hlive Hpg. rewrite (close_live H m proc Hlive).
  unfold bind, os_getpgid, proc_terminate, proc_kill, proc_wait, os_killpg,
    call, set_self.
  rewrite Hpg. cbn [lift self os log].
  step_call h_terminate; try reflexivity.
  step_call h_kill; try reflexivity.
  step_call h_wait; try reflexivity.
  step_call h_killpg; reflexivity.
Qed.

Lemma close_returns_clears :
  forall (H : Host) (m m' : Machine H),
    close_transport m = (Returns tt, m') -> _proc (self m') = None.
Proof.
  intros H m m' E. destruct (_proc (self m)) as [proc|] eqn:Hp.
  - destruct (h_getpgid H (pid proc) (os m)) as [[pgrp|e|] o1] eqn:Hpg.
    + pose proof (close_clears_after_getpgid H m proc pgrp o1 Hp Hpg) as Hc.
      rewrite E in Hc. exact Hc.
    + rewrite (close_live H m proc Hp) in E.
      unfold bind, os_getpgid, call in E. rewrite Hpg in E. discriminate.
    + rewrite (close_live H m proc Hp) in E.
      unfold bind, os_getpgid, call in E. rewrite Hpg in E. discriminate.
  - rewrite (close_torn_down H m Hp) in E. injection E as <-. exact Hp.
Qed.

(** C2, as the code has it: [close_transport] has no handler. On a torn-down
    session it makes no call and returns. On a live session its calls are
    [os.getpgid] on the pid of the child, [terminate], [kill] and [wait] on
    the child and [os.killpg] with [SIGKILL] on the group id, in this order
    and each one only when the one before it returned; the call returns
    exactly when all five were made and returned, and the first one that
    raises ends it with that very error. *)
Theorem close_transport_propagates :
  forall (H : Host) (m : Machine H),
    let res := close_transport m in
    match _proc (self m) with
    | None => res = (Returns tt, m)
    | Some proc =>
        let (r1, o1) := h_getpgid H (pid proc) (os m) in
        let (r2, o2) := h_terminate H proc o1 in
        let (r3, o3) := h_kill H proc o2 in
        let (r4, o4) := h_wait H proc o3 in
        let pgrp := match r1 with Returns g => g | _ => 0%Z end in
        let (r5, o5) := h_killpg H pgrp SIGKILL o4 in
        let made := teardown_calls proc r1 r2 r3 r4 r5 in
        log (snd res) = log m ++ made /\
        fst res = verdict made /\
        (fst res = Returns tt <->
         exists code,
           made = [CGetpgid (pid proc) (Returns pgrp);
                   CTerminate proc (Returns tt);
                   CKill proc (Returns tt);
                   CWait proc (Returns code);
                   CKillpg pgrp SIGKILL (Returns tt)]) /\
        (forall e, fst res = Raises e ->
           exists x, e = OsErr x /\
             (r1 = Raises x \/
              exists g, r1 = Returns g /\
                (r2 = Raises x \/
                 r2 = Returns tt /\
                   (r3 = Raises x \/
                    r3 = Returns tt /\
                      (r4 = Raises x \/
                       exists code, r4 = Returns code /\ r5 = Raises x)))))
    end.
Proof.
  intros H m res. unfold res. destruct (_proc (self m)) as [proc|] eqn:Hp.
  - rewrite (close_live H m proc Hp).
    unfold bind, os_getpgid, proc_terminate, proc_kill, proc_wait, os_killpg,
      call, set_self.
    destruct (h_getpgid H (pid proc) (os m)) as [[g|e1|] o1];
      cbn [lift self os log];
      destruct (h_terminate H proc o1) as [[[]|e2|] o2]; cbn [lift self os log];
      destruct (h_kill H proc o2) as [[[]|e3|] o3]; cbn [lift self os log];
      destruct (h_wait H proc o3) as [[code|e4|] o4]; cbn [lift self os log];
      match goal with
      | |- context [h_killpg H ?g SIGKILL o4] =>
          destruct (h_killpg H g SIGKILL o4) as [[[]|e5|] o5]
      end;
      cbn [lift self os log fst snd teardown_calls verdict ended forget];
      rewrite <- ?app_assoc; cbn [app];
      (split; [reflexivity|]); (split; [reflexivity|]);
      (split;
       [split;
        [intro E; try discriminate E; eexists; reflexivity
        |intros (c & E); try discriminate E; reflexivity]
       |intros e E; try discriminate E; injection E as <-;
        eexists; (split; [reflexivity|]); eauto 12]).
  - exact (close_torn_down H m Hp).
Qed.

(** The child has exited, nothing else is left in its group: after
    [proc.wait()] the group is gone and [os.killpg] raises. *)
Lemma close_transport_raises_group_gone :
  close_transport (Echo.start Echo.live (Echo.exited false)) =
    (Raises (OsErr ProcessLookupError),
     @mkMachine Echo.host Echo.torn_down
       (Echo.mkState 10 false true false [] 4)
       [CGetpgid 4242%Z (Returns 4242%Z);
        CTerminate Echo.child (Returns tt);
        CKill Echo.child (Returns tt);
        CWait Echo.child (Returns (-9)%Z);
        CKillpg 4242%Z SIGKILL (Raises ProcessLookupError)]).
Proof. reflexivity. Qed.

Lemma close_transport_propagates_witness :
  let m := Echo.start Echo.live (Echo.running 4 true) in
  let res := close_transport m in
  let made := teardown_calls Echo.child (Returns 4242%Z) (Returns tt)
                (Returns tt) (Returns (-9)%Z) (Returns tt) in
  log (snd res) = log m ++ made /\
  fst res = verdict made /\
  (fst res = Returns tt <->
   exists code,
     made = [CGetpgid 4242%Z (Returns 4242%Z);
             CTerminate Echo.child (Returns tt);
             CKill Echo.child (Returns tt);
             CWait Echo.child (Returns code);
             CKillpg 4242%Z SIGKILL (Returns tt)]) /\
  (forall e, fst res = Raises e ->
     exists x, e = OsErr x /\
       (@Returns OSError Z 4242%Z = Raises x \/
        exists g, @Returns OSError Z 4242%Z = Returns g /\
          (@Returns OSError unit tt = Raises x \/
           @Returns OSError unit tt = Returns tt /\
             (@Returns OSError unit tt = Raises x \/
              @Returns OSError unit tt = Returns tt /\
                (@Returns OSError Z (-9)%Z = Raises x \/
                 exists code, @Returns OSError Z (-9)%Z = Returns code /\
                              @Returns OSError unit tt = Raises x))))).
Proof.
  exact (close_transport_propagates Echo.host
           (Echo.start Echo.live (Echo.running 4 true))).
Defined.

(** C7: on a torn-down session [close_transport] returns at once and leaves
    handler, host and call log as they are. A call that returns leaves the
    handle [None], so the call after it is such a return: no call is made, no
    signal sent. The handle is cleared as soon as [os.getpgid] has returned,
    which it does for a child that has not been waited for; the handler
    waits for its child only in [close_transport], after the handle is
    cleared. So with [os.getpgid] answering for the child of the session,
    the handle is [None] at the end of the call however it ends, and the call
    after it does nothing. *)
Theorem close_transport_idempotent :
  forall (H : Host) (m : Machine H),
    let first := close_transport m in
    let m1 := snd first in
    (_proc (self m) = None -> first = (Returns tt, m)) /\
    (fst first = Returns tt ->
     _proc (self m1) = None /\ close_transport m1 = (Returns tt, m1)) /\
    ((forall proc, _proc (self m) = Some proc ->
        exists pgrp o1, h_getpgid H (pid proc) (os m) = (Returns pgrp, o1)) ->
     _proc (self m1) = None /\ close_transport m1 = (Returns tt, m1)).
Proof.
  intros H m first m1. split; [apply close_torn_down|]. split.
  - intro Hret.
    assert (Hnone : _proc (self m1) = None).
    { apply (close_returns_clears H m m1). unfold m1, first in *.
      destruct (close_transport m) as [r m']. cbn [fst snd] in *.
      rewrite Hret. reflexivity. }
    split; [exact Hnone|]. apply close_torn_down. exact Hnone.
  - intro Hpg.
    assert (Hnone : _proc (self m1) = None).
    { unfold m1, first. destruct (_proc (self m)) as [proc|] eqn:Hp.
      - destruct (Hpg proc eq_refl) as (pgrp & o1 & E).
        exact (close_clears_after_getpgid H m proc pgrp o1 Hp E).
      - rewrite (close_torn_down H m Hp). exact Hp. }
    split; [exact Hnone|]. apply close_torn_down. exact Hnone.
Qed.

(** The child still runs, with others in its group: the first call tears it
    down and returns, the second does nothing. *)
Lemma close_transport_idempotent_witness :
  let m := Echo.start Echo.live (Echo.running 4 true) in
  let first := close_transport m in
  let m1 := snd first in
  first =
    (Returns tt,
     @mkMachine Echo.host Echo.torn_down
       (Echo.mkState 10 false true false [] 4)
       [CGetpgid 4242%Z (Returns 4242%Z);
        CTerminate Echo.child (Returns tt);
        CKill Echo.child (Returns tt);
        CWait Echo.child (Returns (-9)%Z);
        CKillpg 4242%Z SIGKILL (Returns tt)]) /\
  _proc (self m1) = None /\ close_transport m1 = (Returns tt, m1).
Proof.
  split; [reflexivity|].
  apply (close_transport_idempotent Echo.host
           (Echo.start Echo.live (Echo.running 4 true))).
  intros proc E. injection E as <-.
  exists 4242%Z, (Echo.running 4 true). reflexivity.
Defined.

(** The child has exited alone in its group: the first call ends in the
    error of [os.killpg], with the handle cleared; the second does nothing. *)
Example close_transport_twice_after_error :
  let m := Echo.start Echo.live (Echo.exited false) in
  let m1 := snd (close_transport m) in
  fst (close_transport m) = Raises (OsErr ProcessLookupError) /\
  _proc (self m1) = None /\ close_transport m1 = (Returns tt, m1).
Proof. repeat split. Qed.

(** What the condition on [os.getpgid] is for. Were the pid of the child
    gone while the handle is still set, which takes a wait for the child from
    outside the handler, [os.getpgid] would raise before the handle is
    cleared. *)
Lemma close_transport_keeps_handle_getpgid_raises :
  close_transport (Echo.start Echo.live Echo.vanished) =
    (Raises (OsErr ProcessLookupError),
     @mkMachine Echo.host Echo.live Echo.vanished
       [CGetpgid 4242%Z (Raises ProcessLookupError)]) /\
  _proc (self (snd (close_transport (Echo.start Echo.live Echo.vanished))))
    <> None.
Proof. split; [reflexivity|discriminate]. Qed.

(** ** Reading from a closed peer *)

(** C4, as the code has it: on a live session, when the one read gives no
    bytes or raises [BrokenPipeError], [read_transport] runs
    [close_transport] there and then. If the teardown returns, the handle is
    [None] and the call raises [TransportClosedError]; if the teardown raises
    or blocks, so does the call. *)
Theorem read_peer_closed_runs_teardown :
  forall (H : Host) (n : Z) timeout_sec (m m1 : Machine H) proc r o2,
    _proc (self m) = Some proc ->
    (end_time <- deadline timeout_sec ;;
     _await_ready [stdout_fileno proc] [] None end_time) m = (Returns true, m1) ->
    h_read H (stdout_fileno proc) n (os m1) = (r, o2) ->
    r = Returns [] \/ r = Raises BrokenPipeError ->
    let m2 := mkMachine (self m) o2
                (log m1 ++ [CRead (stdout_fileno proc) n r]) in
    let td := close_transport m2 in
    read_transport n timeout_sec m =
      (match fst td with
       | Returns _ => Raises TransportClosedError
       | Raises e => Raises e
       | Blocks => Blocks
       end, snd td) /\
    (fst td = Returns tt -> _proc (self (snd td)) = None).
Proof.
  intros H n timeout_sec m m1 proc r o2 Hlive Hpre Hread Hr m2 td.
  destruct (prelude_frame _ _ _ _ _ _ _ Hpre) as [Hself _].
  split.
  - apply bind_returns_inv in Hpre. destruct Hpre as (e & m0 & Hd & Ha).
    unfold read_transport. unfold bind at 1. unfold get_self.
    rewrite Hlive. cbv beta iota. unfold bind at 1. rewrite Hd.
    cbv beta iota. unfold bind at 1.
    unfold try_except_BrokenPipeError. unfold bind at 1. rewrite Ha.
    cbv beta iota. unfold bind at 1. unfold os_read, call. rewrite Hread.
    rewrite Hself. fold m2.
    assert (Hend : (close_transport ;; raise TransportClosedError) m2 =
                   (match fst td with
                    | Returns _ => Raises TransportClosedError
                    | Raises e => Raises e
                    | Blocks => Blocks
                    end, snd td) :> Outcome Exn bytes * Machine H).
    { unfold bind, raise, td.
      destruct (close_transport m2) as [[[]|x|] m3]; reflexivity. }
    destruct Hr as [-> | ->]; cbn [lift ret]; exact Hend.
  - intro E. apply (close_returns_clears H m2 (snd td)).
    unfold td in *. destruct (close_transport m2) as [res m3].
    cbn [fst snd] in *. rewrite E. reflexivity.
Qed.

Lemma read_peer_closed_runs_teardown_witness :
  let m := Echo.start Echo.live (Echo.exited true) in
  let m2 := @mkMachine Echo.host Echo.live (Echo.exited true)
              ([CSelect [6%Z] [] [6%Z] None (Returns ([6%Z], [], []))] ++
               [CRead 6%Z 4%Z (Returns [])]) in
  let td := close_transport m2 in
  read_transport 4%Z None m =
    (match fst td with
     | Returns _ => Raises TransportClosedError
     | Raises e => Raises e
     | Blocks => Blocks
     end, snd td) /\
  (fst td = Returns tt -> _proc (self (snd td)) = None).
Proof.
  apply (@read_peer_closed_runs_teardown Echo.host 4%Z None
           (Echo.start Echo.live (Echo.exited true))
           (@mkMachine Echo.host Echo.live (Echo.exited true)
              [CSelect [6%Z] [] [6%Z] None (Returns ([6%Z], [], []))])
           Echo.child (Returns []) (Echo.exited true));
    try reflexivity.
  left. reflexivity.
Defined.

(** The child has exited alone in its group: the read gives no bytes, the
    teardown raises from [os.killpg], and that error, not
    [TransportClosedError], leaves [read_transport]. *)
Lemma read_peer_closed_raises_lookup_error :
  read_transport 4%Z None (Echo.start Echo.live (Echo.exited false)) =
    (Raises (OsErr ProcessLookupError),
     @mkMachine Echo.host Echo.torn_down
       (Echo.mkState 10 false true false [] 4)
       [CSelect [6%Z] [] [6%Z] None (Returns ([6%Z], [], []));
        CRead 6%Z 4%Z (Returns []);
        CGetpgid 4242%Z (Returns 4242%Z);
        CTerminate Echo.child (Returns tt);
        CKill Echo.child (Returns tt);
        CWait Echo.child (Returns (-9)%Z);
        CKillpg 4242%Z SIGKILL (Raises ProcessLookupError)]) /\
  fst (read_transport 4%Z None (Echo.start Echo.live (Echo.exited false)))
    <> Raises TransportClosedError.
Proof. split; [reflexivity|discriminate]. Qed.

(** ** Writing to a closed peer *)

(** One pass of the loop whose write is refused hands over to
    [self.disconnect_transport()]. *)
Lemma write_loop_refused :
  forall (H : Host) inh fuel fd end_time x d (m m1 : Machine H) r o2,
    _await_ready [] [fd] None end_time m = (Returns true, m1) ->
    h_write H fd (x :: d) (os m1) = (r, o2) ->
    r = Returns O \/ r = Raises BrokenPipeError ->
    write_loop inh (S fuel) fd end_time (x :: d) m =
      (disconnect_transport inh ;; raise TransportClosedError)
        (mkMachine (self m1) o2 (log m1 ++ [CWrite fd (x :: d) r])).
Proof.
  intros H inh fuel fd end_time x d m m1 r o2 Ha Hw Hr.
  cbn [write_loop]. unfold bind at 1. rewrite Ha. cbv beta iota.
  unfold bind at 1. unfold try_except_BrokenPipeError, os_write, call.
  rewrite Hw. destruct Hr as [-> | ->]; reflexivity.
Qed.

(** C1, on the code: on a live session, when the wait has returned and the
    write is refused (no byte taken, or [BrokenPipeError]), [write_transport]
    looks up [disconnect_transport]; with no such attribute on the handler the
    call ends in [AttributeError], the handle stays in place and nothing of
    [close_transport] is run. *)
Theorem write_refused_raises_attribute_error :
  forall (H : Host) timeout_sec x d (m m1 : Machine H) proc r o2,
    _proc (self m) = Some proc ->
    (end_time <- deadline timeout_sec ;;
     _await_ready [] [stdin_fileno proc] None end_time) m = (Returns true, m1) ->
    h_write H (stdin_fileno proc) (x :: d) (os m1) = (r, o2) ->
    r = Returns O \/ r = Raises BrokenPipeError ->
    write_transport None (x :: d) timeout_sec m =
      (Raises (AttributeError "disconnect_transport"),
       mkMachine (self m) o2
         (log m1 ++ [CWrite (stdin_fileno proc) (x :: d) r])).
Proof.
  intros H timeout_sec x d m m1 proc r o2 Hlive Hpre Hw Hr.
  destruct (prelude_frame _ _ _ _ _ _ _ Hpre) as [Hself _].
  apply bind_returns_inv in Hpre. destruct Hpre as (e & m0 & Hd & Ha).
  unfold write_transport. unfold bind at 1. unfold get_self.
  rewrite Hlive. cbv beta iota. unfold bind at 1. rewrite Hd.
  cbv beta iota. cbn [List.length].
  rewrite (write_loop_refused H None (List.length d) (stdin_fileno proc) e
             x d m0 m1 r o2 Ha Hw Hr).
  rewrite Hself. reflexivity.
Qed.

Lemma write_refused_raises_attribute_error_witness :
  write_transport None [Byte.x70] None (Echo.start Echo.live (Echo.exited false)) =
    (Raises (AttributeError "disconnect_transport"),
     @mkMachine Echo.host Echo.live (Echo.exited false)
       ([CSelect [] [5%Z] [5%Z] None (Returns ([], [5%Z], []))] ++
        [CWrite 5%Z [Byte.x70] (Raises BrokenPipeError)])).
Proof.
  apply (@write_refused_raises_attribute_error Echo.host None Byte.x70 []
           (Echo.start Echo.live (Echo.exited false))
           (@mkMachine Echo.host Echo.live (Echo.exited false)
              [CSelect [] [5%Z] [5%Z] None (Returns ([], [5%Z], []))])
           Echo.child (Raises BrokenPipeError) (Echo.exited false));
    try reflexivity.
  right. reflexivity.
Defined.

(** ** Writing in pieces *)

Lemma OSError_is_broken_pipe :
  forall e : OSError, e = BrokenPipeError \/ e <> BrokenPipeError.
Proof. intros []; (left; reflexivity) || (right; discriminate). Qed.

Lemma accepted_app :
  forall l1 l2, accepted (l1 ++ l2) = accepted l1 ++ accepted l2.
Proof.
  induction l1 as [|c l1 IH]; intro l2; [reflexivity|].
  destruct c; cbn [app accepted]; try apply IH.
  destruct r; try apply IH.
  rewrite IH. apply app_assoc.
Qed.

(** One readiness wait of the write loop: its calls open a pass of
    [write_run], and what the wait ends in is read off the answer of
    [select]. *)
Lemma await_ready_pass :
  forall (H : Host) fd end_time (m : Machine H),
    exists pre r o2,
      _await_ready [] [fd] None end_time m =
        (match r with
         | Returns (a, b, c) =>
             if is_empty a && is_empty b && is_empty c
             then Raises IoTimeoutError else Returns true
         | Raises x => Raises (OsErr x)
         | Blocks => Blocks
         end, mkMachine (self m) o2 (log m ++ pre)) /\
      accepted pre = [] /\
      forall data rest,
        data <> [] ->
        after_select fd data r rest (write_run fd end_time) ->
        write_run fd end_time data (pre ++ rest).
Proof.
  intros H fd end_time m. rewrite await_ready_eq.
  destruct end_time as [e|].
  - destruct (h_monotonic H (os m)) as [now o1]. cbn [self os log].
    destruct (h_select H [] [fd] ([] ++ [fd]) _ o1) as [r o2].
    exists [CMonotonic now;
            CSelect [] [fd] ([] ++ [fd]) (Some (py_max0 (e - now))) r], r, o2.
    rewrite <- app_assoc. split; [reflexivity|]. split; [reflexivity|].
    intros data rest Hne Hafter. cbn [app write_run].
    split; [exact Hne|]. split.
    + exists e. split; [reflexivity|apply py_max0_time_left].
    + repeat (split; [reflexivity|]). exact Hafter.
  - destruct (h_select H [] [fd] ([] ++ [fd]) None (os m)) as [r o2].
    exists [CSelect [] [fd] ([] ++ [fd]) None r], r, o2.
    split; [reflexivity|]. split; [reflexivity|].
    intros data rest Hne Hafter. cbn [app write_run].
    split; [exact Hne|]. repeat (split; [reflexivity|]). exact Hafter.
Qed.

Lemma await_ready_returns_true :
  forall (H : Host) rlist wlist timeout_sec end_time (m m1 : Machine H) v,
    _await_ready rlist wlist timeout_sec end_time m = (Returns v, m1) ->
    v = true.
Proof.
  intros H rlist wlist timeout_sec end_time m m1 v. rewrite await_ready_eq.
  destruct (match timeout_sec with Some _ => _ | None => _ end) as [tmo m0].
  destruct (h_select H rlist wlist (rlist ++ wlist) tmo (os m0))
    as [[[[a b] c]|x|] o2]; try discriminate.
  destruct (is_empty a && is_empty b && is_empty c); [discriminate|].
  intro E. injection E as <- _. reflexivity.
Qed.

(** The loop, pass by pass: its calls are those of [write_run]; it ends
    inside the loop or hands over to [self.disconnect_transport()]; it
    returns exactly when the writes took the whole of [data]. *)
Lemma write_loop_run :
  forall (H : Host) inh fd end_time fuel data (m : Machine H),
    (List.length data <= fuel)%nat ->
    let res := write_loop inh fuel fd end_time data m in
    exists made,
      write_run fd end_time data made /\
      (log (snd res) = log m ++ made \/
       exists m2, log m2 = log m ++ made /\
                  res = (disconnect_transport inh ;;
                         raise TransportClosedError) m2) /\
      (fst res = Returns tt <-> accepted made = data) /\
      (fst res = Returns tt -> log (snd res) = log m ++ made).
Proof.
  intros H inh fd end_time fuel.
  induction fuel as [|fuel IH]; intros data m Hlen res.
  - destruct data as [|x d]; [|cbn [List.length] in Hlen; lia].
    exists []. unfold res. cbn [write_loop ret fst snd write_run accepted].
    rewrite app_nil_r. repeat split; auto.
  - destruct data as [|x d].
    + exists []. unfold res. cbn [write_loop ret fst snd write_run accepted].
      rewrite app_nil_r. repeat split; auto.
    + destruct (await_ready_pass H fd end_time m)
        as (pre & r & o2 & Ha & Hacc & Hrun).
      set (m1 := mkMachine (self m) o2 (log m ++ pre)) in *.
      assert (Hstop : forall (out : Outcome Exn unit),
                 out <> Returns tt -> res = (out, m1) ->
                 after_select fd (x :: d) r [] (write_run fd end_time) ->
                 exists made,
                   write_run fd end_time (x :: d) made /\
                   (log (snd res) = log m ++ made \/
                    exists m2, log m2 = log m ++ made /\
                               res = (disconnect_transport inh ;;
                                      raise TransportClosedError) m2) /\
                   (fst res = Returns tt <-> accepted made = x :: d) /\
                   (fst res = Returns tt -> log (snd res) = log m ++ made)).
      { intros out Hout -> Hafter. exists pre. cbn [fst snd].
        split; [rewrite <- (app_nil_r pre); apply Hrun;
                [discriminate|exact Hafter]|].
        split; [left; reflexivity|].
        split; [|intro E; contradiction].
        rewrite Hacc. split; [intro E; contradiction|discriminate]. }
      destruct r as [[[a b] c]|e|].
      * destruct (is_empty a && is_empty b && is_empty c) eqn:Hempty.
        -- apply (Hstop (Raises IoTimeoutError)); [discriminate| |].
           ++ unfold res. cbn [write_loop]. unfold bind at 1. rewrite Ha.
              reflexivity.
           ++ cbn [after_select]. rewrite Hempty. reflexivity.
        -- destruct (h_write H fd (x :: d) (os m1)) as [rw o3] eqn:Hw.
           set (m2 := mkMachine (self m1) o3
                        (log m1 ++ [CWrite fd (x :: d) rw])).
           assert (Hlog2 : log m2 = log m ++ pre ++ [CWrite fd (x :: d) rw])
             by (unfold m2, m1; cbn [log]; rewrite <- app_assoc; reflexivity).
           assert (Hlast : match rw with Returns (S _) => False | _ => True end ->
                     write_run fd end_time (x :: d)
                       (pre ++ [CWrite fd (x :: d) rw]) /\
                     accepted (pre ++ [CWrite fd (x :: d) rw]) <> x :: d).
           { intro Hr. split.
             - apply Hrun; [discriminate|]. cbn [after_select].
               rewrite Hempty. split; [reflexivity|]. split; [reflexivity|].
               destruct rw as [[|k]|e|]; try reflexivity; contradiction.
             - rewrite accepted_app, Hacc.
               destruct rw as [[|k]|e|]; cbn [app accepted firstn];
                 try discriminate; contradiction. }
           assert (Hres :
                     match rw with
                     | Returns O | Raises BrokenPipeError =>
                         res = (disconnect_transport inh ;;
                                raise TransportClosedError) m2
                     | Returns (S k) =>
                         res = write_loop inh fuel fd end_time
                                 (skipn (S k) (x :: d)) m2
                     | Raises e => res = (Raises (OsErr e), m2)
                     | Blocks => res = (Blocks, m2)
                     end).
           { destruct rw as [[|k]|[]|];
               unfold res; cbn [write_loop]; unfold bind at 1; rewrite Ha;
               cbv beta iota; unfold bind at 1;
               unfold try_except_BrokenPipeError, os_write, call;
               fold m1; rewrite Hw; reflexivity. }
           assert (Hrefused :
                     res = (disconnect_transport inh ;;
                            raise TransportClosedError) m2 ->
                     match rw with Returns (S _) => False | _ => True end ->
                     exists made,
                       write_run fd end_time (x :: d) made /\
                       (log (snd res) = log m ++ made \/
                        exists m2, log m2 = log m ++ made /\
                                   res = (disconnect_transport inh ;;
                                          raise TransportClosedError) m2) /\
                       (fst res = Returns tt <-> accepted made = x :: d) /\
                       (fst res = Returns tt ->
                        log (snd res) = log m ++ made)).
           { intros Hdis Hr. destruct (Hlast Hr) as [Hwr Hne].
             assert (Hnot : fst res <> Returns tt).
             { rewrite Hdis. unfold bind, raise.
               destruct (disconnect_transport inh m2) as [[u|e|] m3];
                 cbn [fst]; discriminate. }
             exists (pre ++ [CWrite fd (x :: d) rw]).
             split; [exact Hwr|].
             split; [right; exists m2; split; [exact Hlog2|exact Hdis]|].
             split; [split; intro E; contradiction|].
             intro E. contradiction. }
           assert (Hended : forall out : Outcome Exn unit,
                     out <> Returns tt -> res = (out, m2) ->
                     match rw with Returns (S _) => False | _ => True end ->
                     exists made,
                       write_run fd end_time (x :: d) made /\
                       (log (snd res) = log m ++ made \/
                        exists m2, log m2 = log m ++ made /\
                                   res = (disconnect_transport inh ;;
                                          raise TransportClosedError) m2) /\
                       (fst res = Returns tt <-> accepted made = x :: d) /\
                       (fst res = Returns tt ->
                        log (snd res) = log m ++ made)).
           { intros out Hout Hout' Hr. destruct (Hlast Hr) as [Hwr Hne].
             exists (pre ++ [CWrite fd (x :: d) rw]). rewrite Hout'.
             cbn [fst snd].
             split; [exact Hwr|]. split; [left; exact Hlog2|].
             split; [split; intro E; contradiction|].
             intro E. contradiction. }
           destruct rw as [[|k]|e|].
           ++ apply Hrefused; [exact Hres|exact I].
           ++ assert (Hlen' : (List.length (skipn (S k) (x :: d)) <= fuel)%nat)
                by (rewrite length_skipn; cbn [List.length] in *; lia).
              destruct (IH (skipn (S k) (x :: d)) m2 Hlen')
                as (made & Hmade & Hend & Hiff & Hret).
              cbv zeta in Hend, Hiff, Hret.
              rewrite <- Hres in Hend, Hiff, Hret.
              exists (pre ++ CWrite fd (x :: d) (Returns (S k)) :: made).
              assert (Hl : log m2 ++ made =
                           log m ++ pre ++
                           CWrite fd (x :: d) (Returns (S k)) :: made).
              { rewrite Hlog2. rewrite <- !app_assoc. reflexivity. }
              split.
              { apply Hrun; [discriminate|]. cbn [after_select].
                rewrite Hempty. split; [reflexivity|].
                split; [reflexivity|exact Hmade]. }
              split.
              { destruct Hend as [Hend | (m3 & Hm3 & Hend)].
                - left. rewrite Hend. exact Hl.
                - right. exists m3. split; [|exact Hend].
                  rewrite Hm3. exact Hl. }
              split.
              { rewrite Hiff, accepted_app, Hacc. cbn [app accepted].
                split.
                - intros ->. apply firstn_skipn.
                - intro E.
                  rewrite <- (firstn_skipn (S k) (x :: d)) in E at 2.
                  apply app_inv_head in E. exact E. }
              intro E. rewrite (Hret E). exact Hl.
           ++ destruct (OSError_is_broken_pipe e) as [-> | Hne].
              ** apply Hrefused; [exact Hres|exact I].
              ** apply (Hended (Raises (OsErr e))); [discriminate| |exact I].
                 destruct e; try exact Hres; congruence.
           ++ apply (Hended Blocks); [discriminate|exact Hres|exact I].
      * apply (Hstop (Raises (OsErr e))); [discriminate| |reflexivity].
        unfold res. cbn [write_loop]. unfold bind at 1. rewrite Ha. reflexivity.
      * apply (Hstop Blocks); [discriminate| |reflexivity].
        unfold res. cbn [write_loop]. unfold bind at 1. rewrite Ha. reflexivity.
Qed.

(** The bound on the passes is never reached: any fuel from [length data] on
    gives the same run. *)
Lemma write_loop_fuel :
  forall (H : Host) inh fd end_time fuel1 fuel2 data (m : Machine H),
    (List.length data <= fuel1)%nat ->
    (List.length data <= fuel2)%nat ->
    write_loop inh fuel1 fd end_time data m =
    write_loop inh fuel2 fd end_time data m.
Proof.
  intros H inh fd end_time fuel1.
  induction fuel1 as [|fuel1 IH]; intros fuel2 data m H1 H2;
    destruct data as [|x d]; destruct fuel2 as [|fuel2];
    try reflexivity; cbn [List.length] in H1, H2; try lia.
  cbn [write_loop]. unfold bind.
  destruct (_await_ready [] [fd] None end_time m) as [[v|e|] m1];
    try reflexivity.
  destruct (try_except_BrokenPipeError (os_write H fd (x :: d)) (ret O) m1)
    as [[[|k]|e|] m2]; try reflexivity.
  apply IH; rewrite length_skipn; cbn [List.length]; lia.
Qed.

(** C5: [write_transport] fixes its deadline once, from the clock read at the
    start of the call and the timeout (no deadline without a timeout). Its
    calls after that are the passes of the loop: each pass waits for the
    stdin of the child to become writable, with the time left until that one
    deadline as timeout, and then hands the bytes not yet taken to one
    [os.write] on the stdin of the child. The call returns exactly when
    these writes together took [data], all of it and in order. *)
Theorem write_transport_single_deadline :
  forall (H : Host) inh data timeout_sec (m : Machine H) proc,
    _proc (self m) = Some proc ->
    let res := write_transport inh data timeout_sec m in
    let now0 := fst (h_monotonic H (os m)) in
    let end_time := match timeout_sec with
                    | None => None
                    | Some t => Some (now0 + t)%Q
                    end in
    let start := match timeout_sec with
                 | None => []
                 | Some _ => [CMonotonic now0]
                 end in
    exists made,
      write_run (stdin_fileno proc) end_time data made /\
      (log (snd res) = log m ++ start ++ made \/
       exists m2, log m2 = log m ++ start ++ made /\
                  res = (disconnect_transport inh ;;
                         raise TransportClosedError) m2) /\
      (fst res = Returns tt <-> accepted made = data) /\
      (fst res = Returns tt -> log (snd res) = log m ++ start ++ made).
Proof.
  intros H inh data timeout_sec m proc Hlive res now0 end_time start.
  assert (Hres : exists m0,
             log m0 = log m ++ start /\
             res = write_loop inh (List.length data) (stdin_fileno proc)
                     end_time data m0).
  { unfold res, write_transport. unfold bind at 1. unfold get_self.
    rewrite Hlive. cbv beta iota. unfold bind at 1. rewrite deadline_eq.
    unfold end_time, start, now0. destruct timeout_sec as [t|].
    - destruct (h_monotonic H (os m)) as [now o1]. cbn [fst].
      eexists. split; [|reflexivity]. reflexivity.
    - exists m. rewrite app_nil_r. split; reflexivity. }
  destruct Hres as (m0 & Hlog0 & Hres).
  destruct (write_loop_run H inh (stdin_fileno proc) end_time
              (List.length data) data m0 (le_n _))
    as (made & Hrun & Hend & Hiff & Hret).
  cbv zeta in Hend, Hiff, Hret. rewrite <- Hres in Hend, Hiff, Hret.
  rewrite Hlog0, <- app_assoc in Hend, Hret.
  exists made. split; [exact Hrun|]. split; [exact Hend|].
  split; [exact Hiff|exact Hret].
Qed.

Lemma write_transport_single_deadline_witness :
  let data := [Byte.x70; Byte.x69; Byte.x6e; Byte.x67] in
  let m := Echo.start Echo.live (Echo.running 3 false) in
  let res := write_transport None data (Some 5%Q) m in
  let now0 := fst (h_monotonic Echo.host (os m)) in
  let end_time := Some (now0 + 5)%Q in
  let start := [CMonotonic now0] in
  exists made,
    write_run 5%Z end_time data made /\
    (log (snd res) = log m ++ start ++ made \/
     exists m2, log m2 = log m ++ start ++ made /\
                res = (disconnect_transport None ;;
                       raise TransportClosedError) m2) /\
    (fst res = Returns tt <-> accepted made = data) /\
    (fst res = Returns tt -> log (snd res) = log m ++ start ++ made).
Proof.
  apply (@write_transport_single_deadline Echo.host None
           [Byte.x70; Byte.x69; Byte.x6e; Byte.x67] (Some 5%Q)
           (Echo.start Echo.live (Echo.running 3 false)) Echo.child).
  reflexivity.
Defined.

(** The echo child takes three bytes at a time: [b"ping"] goes out in two
    writes under one deadline and comes back whole. *)
Example echo_ping :
  (write_transport None [Byte.x70; Byte.x69; Byte.x6e; Byte.x67] (Some 5%Q) ;;
   read_transport 4%Z (Some 5%Q))
    (Echo.start Echo.live (Echo.running 3 false)) =
  (Returns [Byte.x70; Byte.x69; Byte.x6e; Byte.x67],
   @mkMachine Echo.host Echo.live (Echo.running 3 false)
     [CMonotonic 10; CMonotonic 10;
      CSelect [] [5%Z] [5%Z] (Some (py_max0 (10 + 5 - 10)))
        (Returns ([], [5%Z], []));
      CWrite 5%Z [Byte.x70; Byte.x69; Byte.x6e; Byte.x67] (Returns 3%nat);
      CMonotonic 10;
      CSelect [] [5%Z] [5%Z] (Some (py_max0 (10 + 5 - 10)))
        (Returns ([], [5%Z], []));
      CWrite 5%Z [Byte.x67] (Returns 1%nat);
      CMonotonic 10; CMonotonic 10;
      CSelect [6%Z] [] [6%Z] (Some (py_max0 (10 + 5 - 10)))
        (Returns ([6%Z], [], []));
      CRead 6%Z 4%Z (Returns [Byte.x70; Byte.x69; Byte.x6e; Byte.x67])]).
Proof. vm_compute. reflexivity. Qed.

(** * Further properties of the transport *)

(** ** What a failed wait leaves behind *)

Lemma wait_frame :
  forall (H : Host) rlist wlist timeout_sec (m : Machine H),
    let res := (end_time <- deadline timeout_sec ;;
                _await_ready rlist wlist None end_time) m in
    self (snd res) = self m /\
    exists pre, log (snd res) = log m ++ pre /\ forallb is_wait pre = true.
Proof.
  intros H rlist wlist timeout_sec m res. unfold res, bind.
  rewrite deadline_eq. destruct timeout_sec as [t|].
  - destruct (h_monotonic H (os m)) as [now o1]. rewrite await_ready_eq.
    destruct (h_monotonic H _) as [now' o1']. cbn [self os log].
    destruct (h_select H _ _ _ _ _) as [[[[a b] c]|x|] o2];
      try destruct (is_empty a && is_empty b && is_empty c);
      cbn [snd self log]; (split; [reflexivity|]);
      eexists; rewrite <- !app_assoc; split; reflexivity.
  - rewrite await_ready_eq.
    destruct (h_select H _ _ _ _ _) as [[[[a b] c]|x|] o2];
      try destruct (is_empty a && is_empty b && is_empty c);
      cbn [snd self log]; (split; [reflexivity|]);
      eexists; split; reflexivity.
Qed.

(** X1: when the readiness wait of [read_transport] times out, the call ends
    in [IoTimeoutError] and nothing else happens: the handle stays, no read
    and no teardown is made. *)
Theorem read_timeout_leaves_session :
  forall (H : Host) (n : Z) timeout_sec (m m1 : Machine H) proc,
    _proc (self m) = Some proc ->
    (end_time <- deadline timeout_sec ;;
     _await_ready [stdout_fileno proc] [] None end_time) m =
      (Raises IoTimeoutError, m1) ->
    read_transport n timeout_sec m = (Raises IoTimeoutError, m1) /\
    self m1 = self m /\
    exists pre, log m1 = log m ++ pre /\ forallb is_wait pre = true.
Proof.
  intros H n timeout_sec m m1 proc Hlive Hpre.
  pose proof (wait_frame H [stdout_fileno proc] [] timeout_sec m) as Hf.
  cbv zeta in Hf. rewrite Hpre in Hf. cbn [snd] in Hf.
  split; [|exact Hf].
  unfold read_transport. unfold bind at 1. unfold get_self.
  rewrite Hlive. cbv beta iota.
  unfold bind in Hpre. unfold bind at 1.
  rewrite deadline_eq in Hpre |- *.
  destruct timeout_sec as [t|];
    [destruct (h_monotonic H (os m)) as [now o1]|];
    unfold bind at 1; unfold try_except_BrokenPipeError; unfold bind at 1;
    rewrite Hpre; reflexivity.
Qed.

Lemma read_timeout_leaves_session_witness :
  let m := Echo.start Echo.live (Echo.running 4 false) in
  let m1 := @mkMachine Echo.host Echo.live
              (Echo.mkState (10 + 1) true false false [] 4)
              [CMonotonic 10; CMonotonic 10;
               CSelect [6%Z] [] [6%Z] (Some (py_max0 (10 + 1 - 10)))
                 (Returns ([], [], []))] in
  read_transport 4%Z (Some 1%Q) m = (Raises IoTimeoutError, m1) /\
  self m1 = self m /\
  exists pre, log m1 = log m ++ pre /\ forallb is_wait pre = true.
Proof.
  apply (@read_timeout_leaves_session Echo.host 4%Z (Some 1%Q)
           (Echo.start Echo.live (Echo.running 4 false))
           (@mkMachine Echo.host Echo.live
              (Echo.mkState (10 + 1) true false false [] 4)
              [CMonotonic 10; CMonotonic 10;
               CSelect [6%Z] [] [6%Z] (Some (py_max0 (10 + 1 - 10)))
                 (Returns ([], [], []))])
           Echo.child); reflexivity.
Defined.

(** [read_transport] on a live session, by the way its wait and its read
    end. *)
Lemma read_transport_live :
  forall (H : Host) (n : Z) timeout_sec (m : Machine H) proc,
    _proc (self m) = Some proc ->
    read_transport n timeout_sec m =
    let fd := stdout_fileno proc in
    let (w, m1) := (end_time <- deadline timeout_sec ;;
                    _await_ready [fd] [] None end_time) m in
    match w with
    | Returns _ =>
        let (r, o2) := h_read H fd n (os m1) in
        let m2 := mkMachine (self m1) o2 (log m1 ++ [CRead fd n r]) in
        match r with
        | Returns (x :: b) => (Returns (x :: b), m2)
        | Returns [] | Raises BrokenPipeError =>
            (close_transport ;; raise TransportClosedError) m2
        | Raises e => (Raises (OsErr e), m2)
        | Blocks => (Blocks, m2)
        end
    | Raises (OsErr BrokenPipeError) =>
        (close_transport ;; raise TransportClosedError) m1
    | Raises e => (Raises e, m1)
    | Blocks => (Blocks, m1)
    end.
Proof.
  intros H n timeout_sec m proc Hlive.
  unfold read_transport, bind, get_self, try_except_BrokenPipeError,
    os_read, call.
  rewrite Hlive. cbv beta iota zeta. rewrite deadline_eq.
  destruct timeout_sec as [t|];
    [destruct (h_monotonic H (os m)) as [now o1]|];
    match goal with
    | |- context [_await_ready ?r ?w ?t ?e ?m0] =>
        destruct (_await_ready r w t e m0) as [[v|[[]| | |]|] m1]
    end; try reflexivity;
    destruct (h_read H (stdout_fileno proc) n (os m1)) as [[[|x b]|[]|] o2];
    reflexivity.
Qed.

(** X2: an error of [os.read] other than [BrokenPipeError] leaves
    [read_transport] as it is; the session is not torn down and the handle
    stays. *)
Theorem read_error_propagates :
  forall (H : Host) (n : Z) timeout_sec (m m1 : Machine H) proc v e o2,
    _proc (self m) = Some proc ->
    (end_time <- deadline timeout_sec ;;
     _await_ready [stdout_fileno proc] [] None end_time) m = (Returns v, m1) ->
    h_read H (stdout_fileno proc) n (os m1) = (Raises e, o2) ->
    e <> BrokenPipeError ->
    read_transport n timeout_sec m =
      (Raises (OsErr e),
       mkMachine (self m) o2
         (log m1 ++ [CRead (stdout_fileno proc) n (Raises e)])).
Proof.
  intros H n timeout_sec m m1 proc v e o2 Hlive Hpre Hread Hne.
  rewrite (read_transport_live H n timeout_sec m proc Hlive). cbv zeta.
  destruct (prelude_frame _ _ _ _ _ _ _ Hpre) as [Hself _].
  rewrite Hpre, Hread, Hself. destruct e; try reflexivity. congruence.
Qed.

Lemma read_error_propagates_witness :
  read_transport (-1)%Z None
    (Echo.start Echo.live (Echo.mkState 10 true false false [Byte.x70] 4)) =
    (Raises (OsErr (OtherOSError 22)),
     @mkMachine Echo.host Echo.live
       (Echo.mkState 10 true false false [Byte.x70] 4)
       ([CSelect [6%Z] [] [6%Z] None (Returns ([6%Z], [], []))] ++
        [CRead 6%Z (-1)%Z (Raises (OtherOSError 22))])).
Proof.
  apply (@read_error_propagates Echo.host (-1)%Z None
           (Echo.start Echo.live (Echo.mkState 10 true false false [Byte.x70] 4))
           (@mkMachine Echo.host Echo.live
              (Echo.mkState 10 true false false [Byte.x70] 4)
              [CSelect [6%Z] [] [6%Z] None (Returns ([6%Z], [], []))])
           Echo.child true (OtherOSError 22)
           (Echo.mkState 10 true false false [Byte.x70] 4));
    try reflexivity.
  discriminate.
Defined.

(** ** What the write loop sends *)

Lemma await_ready_frame :
  forall (H : Host) rlist wlist end_time (m : Machine H),
    let res := _await_ready rlist wlist None end_time m in
    self (snd res) = self m /\
    exists pre, log (snd res) = log m ++ pre /\ forallb is_wait pre = true.
Proof.
  intros H rlist wlist end_time m res. unfold res. rewrite await_ready_eq.
  destruct end_time as [e|];
    [destruct (h_monotonic H (os m)) as [now o1]; cbn [self os log]|];
    destruct (h_select H _ _ _ _ _) as [r o2]; cbn [snd self log];
    (split; [reflexivity|]); eexists; rewrite <- ?app_assoc;
    split; reflexivity.
Qed.

Lemma sends_after_waits :
  forall fd data pre made,
    forallb is_wait pre = true -> sends fd data made ->
    sends fd data (pre ++ made).
Proof.
  intros fd data pre made. induction pre as [|c pre IH]; intros Hw Hs.
  - exact Hs.
  - cbn [forallb] in Hw. apply andb_prop in Hw. destruct Hw as [Hc Hw].
    destruct c; try discriminate; cbn [app sends]; apply IH; assumption.
Qed.

(** The loop up to the point where it ends or hands over to
    [self.disconnect_transport()]: the handler is untouched and the writes are
    those of [sends]. *)
Lemma write_loop_sends :
  forall (H : Host) inh fd end_time fuel data (m : Machine H),
    (List.length data <= fuel)%nat ->
    let res := write_loop inh fuel fd end_time data m in
    exists made m2,
      log m2 = log m ++ made /\
      self m2 = self m /\
      sends fd data made /\
      (res = (fst res, m2) \/
       res = (disconnect_transport inh ;; raise TransportClosedError) m2).
Proof.
  intros H inh fd end_time fuel.
  induction fuel as [|fuel IH]; intros data m Hlen res.
  - destruct data as [|x d]; [|cbn [List.length] in Hlen; lia].
    exists [], m. rewrite app_nil_r. unfold res. cbn. auto.
  - destruct data as [|x d].
    + exists [], m. rewrite app_nil_r. unfold res. cbn. auto.
    + destruct (await_ready_frame H [] [fd] end_time m)
        as (Hself & pre & Hpre & Hwait). cbv zeta in Hself, Hpre.
      destruct (_await_ready [] [fd] None end_time m) as [ra m1] eqn:Ha.
      cbn [snd] in Hself, Hpre.
      destruct ra as [v|e|].
      * assert (v = true) by (eapply await_ready_returns_true; exact Ha).
        subst v.
        destruct (h_write H fd (x :: d) (os m1)) as [rw o2] eqn:Hw.
        set (m2 := mkMachine (self m1) o2 (log m1 ++ [CWrite fd (x :: d) rw])).
        assert (Hlog2 : log m2 = log m ++ pre ++ [CWrite fd (x :: d) rw])
          by (unfold m2; cbn [log]; rewrite Hpre, app_assoc; reflexivity).
        assert (Hlast : match rw with Returns (S _) => False | _ => True end ->
                        sends fd (x :: d) (pre ++ [CWrite fd (x :: d) rw])).
        { intro Hr. apply sends_after_waits; [exact Hwait|].
          cbn [sends]. split; [reflexivity|]. split; [reflexivity|].
          split; [discriminate|].
          destruct rw as [[|k]|e|]; try reflexivity; try contradiction. }
        assert (Hres :
                  match rw with
                  | Returns O | Raises BrokenPipeError =>
                      res = (disconnect_transport inh ;;
                             raise TransportClosedError) m2
                  | Returns (S k) =>
                      res = write_loop inh fuel fd end_time
                              (skipn (S k) (x :: d)) m2
                  | Raises e => res = (Raises (OsErr e), m2)
                  | Blocks => res = (Blocks, m2)
                  end).
        { destruct rw as [[|k]|[]|];
            unfold res; cbn [write_loop]; unfold bind at 1; rewrite Ha;
            cbv beta iota; unfold bind at 1;
            unfold try_except_BrokenPipeError, os_write, call; rewrite Hw;
            reflexivity. }
        destruct rw as [[|k]|e|].
        -- exists (pre ++ [CWrite fd (x :: d) (Returns O)]), m2.
           split; [exact Hlog2|]. split; [exact Hself|].
           split; [apply Hlast; exact I|]. right. exact Hres.
        -- assert (Hlen' : (List.length (skipn (S k) (x :: d)) <= fuel)%nat)
             by (rewrite length_skipn; cbn [List.length] in *; lia).
           destruct (IH (skipn (S k) (x :: d)) m2 Hlen')
             as (made & m3 & Hlog3 & Hself3 & Hs3 & Hend).
           cbv zeta in Hend. rewrite <- Hres in Hend.
           exists (pre ++ CWrite fd (x :: d) (Returns (S k)) :: made), m3.
           split; [rewrite Hlog3, Hlog2, <- !app_assoc; reflexivity|].
           split; [rewrite Hself3; exact Hself|].
           split; [|exact Hend].
           apply sends_after_waits; [exact Hwait|].
           cbn [sends]. split; [reflexivity|]. split; [reflexivity|].
           split; [discriminate|]. exact Hs3.
        -- exists (pre ++ [CWrite fd (x :: d) (Raises e)]), m2.
           split; [exact Hlog2|]. split; [exact Hself|].
           split; [apply Hlast; exact I|].
           destruct e; try (left; rewrite Hres; reflexivity).
           right. exact Hres.
        -- exists (pre ++ [CWrite fd (x :: d) Blocks]), m2.
           split; [exact Hlog2|]. split; [exact Hself|].
           split; [apply Hlast; exact I|].
           left. rewrite Hres. reflexivity.
      * assert (Hres : res = (Raises e, m1))
          by (unfold res; cbn [write_loop]; unfold bind at 1; rewrite Ha;
              reflexivity).
        exists pre, m1. split; [exact Hpre|]. split; [exact Hself|].
        split; [rewrite <- (app_nil_r pre);
                apply sends_after_waits; [exact Hwait|exact I]|].
        left. rewrite Hres. reflexivity.
      * assert (Hres : res = (Blocks, m1))
          by (unfold res; cbn [write_loop]; unfold bind at 1; rewrite Ha;
              reflexivity).
        exists pre, m1. split; [exact Hpre|]. split; [exact Hself|].
        split; [rewrite <- (app_nil_r pre);
                apply sends_after_waits; [exact Hwait|exact I]|].
        left. rewrite Hres. reflexivity.
Qed.

Lemma write_transport_run :
  forall (H : Host) inh data timeout_sec (m : Machine H) proc,
    _proc (self m) = Some proc ->
    let res := write_transport inh data timeout_sec m in
    exists start made m2,
      forallb is_wait start = true /\
      log m2 = log m ++ start ++ made /\
      self m2 = self m /\
      sends (stdin_fileno proc) data made /\
      (res = (fst res, m2) \/
       res = (disconnect_transport inh ;; raise TransportClosedError) m2).
Proof.
  intros H inh data timeout_sec m proc Hlive res.
  assert (Hres : exists start m0,
             forallb is_wait start = true /\
             log m0 = log m ++ start /\ self m0 = self m /\
             exists end_time,
               res = write_loop inh (List.length data) (stdin_fileno proc)
                       end_time data m0).
  { unfold res, write_transport. unfold bind at 1. unfold get_self.
    rewrite Hlive. cbv beta iota. unfold bind at 1. rewrite deadline_eq.
    destruct timeout_sec as [t|].
    - destruct (h_monotonic H (os m)) as [now o1].
      exists [CMonotonic now],
        (mkMachine (self m) o1 (log m ++ [CMonotonic now])).
      split; [|split; [|split; [|eexists; reflexivity]]]; reflexivity.
    - exists [], m. rewrite app_nil_r.
      split; [|split; [|split; [|eexists; reflexivity]]]; reflexivity. }
  destruct Hres as (start & m0 & Hst & Hlog0 & Hself0 & end_time & Hres).
  destruct (write_loop_sends H inh (stdin_fileno proc) end_time
              (List.length data) data m0 (le_n _))
    as (made & m2 & Hlog2 & Hself2 & Hs & Hend).
  cbv zeta in Hend. rewrite <- Hres in Hend.
  exists start, made, m2.
  split; [exact Hst|]. split; [rewrite Hlog2, Hlog0, app_assoc; reflexivity|].
  split; [rewrite Hself2; exact Hself0|]. split; [exact Hs|exact Hend].
Qed.

Lemma sends_prefix :
  forall fd made data,
    sends fd data made -> exists rest, data = accepted made ++ rest.
Proof.
  intros fd made. induction made as [|c made IH]; intros data Hs.
  - exists data. reflexivity.
  - destruct c; cbn [sends accepted] in *; try (apply IH; exact Hs).
    destruct Hs as (_ & -> & _ & Hs).
    destruct r as [[|k]|e|]; try (subst made; exists data; reflexivity).
    destruct (IH _ Hs) as (rest & Hrest). exists rest.
    rewrite <- app_assoc, <- Hrest. symmetry. apply firstn_skipn.
Qed.

Lemma sends_count :
  forall fd made data,
    sends fd data made ->
    (List.length (filter is_write made) <= List.length data)%nat.
Proof.
  intros fd made. induction made as [|c made IH]; intros data Hs.
  - cbn. lia.
  - destruct c; cbn [sends filter is_write] in *; try (apply IH; exact Hs).
    destruct Hs as (_ & -> & Hne & Hs).
    destruct data as [|x d]; [congruence|].
    destruct r as [[|k]|e|]; try (subst made; cbn; lia).
    apply IH in Hs. rewrite length_skipn in Hs. cbn [List.length] in *. lia.
Qed.

(** X3: up to the point where it ends or calls
    [self.disconnect_transport()], [write_transport] leaves the handler as it
    is, and each [os.write] it makes is on the child's stdin with exactly the
    bytes no earlier write took; it never writes with nothing left to send and
    makes no further write after one that took nothing or raised. *)
Theorem write_sends_unsent_bytes :
  forall (H : Host) inh data timeout_sec (m : Machine H) proc,
    _proc (self m) = Some proc ->
    let res := write_transport inh data timeout_sec m in
    exists start made m2,
      forallb is_wait start = true /\
      log m2 = log m ++ start ++ made /\
      self m2 = self m /\
      sends (stdin_fileno proc) data made /\
      (res = (fst res, m2) \/
       res = (disconnect_transport inh ;; raise TransportClosedError) m2).
Proof. exact write_transport_run. Qed.

Lemma write_sends_unsent_bytes_witness :
  let data := [Byte.x70; Byte.x69; Byte.x6e; Byte.x67] in
  let m := Echo.start Echo.live (Echo.running 3 false) in
  let res := write_transport None data (Some 5%Q) m in
  exists start made m2,
    forallb is_wait start = true /\
    log m2 = log m ++ start ++ made /\
    self m2 = self m /\
    sends 5%Z data made /\
    (res = (fst res, m2) \/
     res = (disconnect_transport None ;; raise TransportClosedError) m2).
Proof.
  apply (@write_sends_unsent_bytes Echo.host None
           [Byte.x70; Byte.x69; Byte.x6e; Byte.x67] (Some 5%Q)
           (Echo.start Echo.live (Echo.running 3 false)) Echo.child).
  reflexivity.
Defined.

(** X4: however [write_transport] ends (return, timeout, error, closed peer),
    the bytes its writes took are a prefix of [data], and it makes at most
    [len(data)] writes. *)
Theorem write_delivers_prefix :
  forall (H : Host) inh data timeout_sec (m : Machine H) proc,
    _proc (self m) = Some proc ->
    let res := write_transport inh data timeout_sec m in
    exists start made m2,
      forallb is_wait start = true /\
      log m2 = log m ++ start ++ made /\
      (res = (fst res, m2) \/
       res = (disconnect_transport inh ;; raise TransportClosedError) m2) /\
      (exists rest, data = accepted made ++ rest) /\
      (List.length (filter is_write made) <= List.length data)%nat.
Proof.
  intros H inh data timeout_sec m proc Hlive res.
  destruct (write_transport_run H inh data timeout_sec m proc Hlive)
    as (start & made & m2 & Hst & Hlog & _ & Hs & Hend).
  exists start, made, m2.
  split; [exact Hst|]. split; [exact Hlog|]. split; [exact Hend|].
  split; [exact (sends_prefix _ _ _ Hs)|exact (sends_count _ _ _ Hs)].
Qed.

Lemma write_delivers_prefix_witness :
  let data := [Byte.x70; Byte.x69; Byte.x6e; Byte.x67] in
  let m := Echo.start Echo.live (Echo.exited false) in
  let res := write_transport None data None m in
  exists start made m2,
    forallb is_wait start = true /\
    log m2 = log m ++ start ++ made /\
    (res = (fst res, m2) \/
     res = (disconnect_transport None ;; raise TransportClosedError) m2) /\
    (exists rest, data = accepted made ++ rest) /\
    (List.length (filter is_write made) <= List.length data)%nat.
Proof.
  apply (@write_delivers_prefix Echo.host None
           [Byte.x70; Byte.x69; Byte.x6e; Byte.x67] None
           (Echo.start Echo.live (Echo.exited false)) Echo.child).
  reflexivity.
Defined.

(** ** The order of a teardown *)

(** X5: on a live session [close_transport] asks for the group id of the
    child first, then calls [terminate], [kill] and [wait] on the child, then
    [os.killpg] with [SIGKILL] on the group id it got at the start; each call
    is made only when the one before it returned. The handle is cleared as
    soon as the group id is there, before any signal is sent. *)
Theorem close_transport_order :
  forall (H : Host) (m : Machine H) proc,
    _proc (self m) = Some proc ->
    let (r1, o1) := h_getpgid H (pid proc) (os m) in
    let (r2, o2) := h_terminate H proc o1 in
    let (r3, o3) := h_kill H proc o2 in
    let (r4, o4) := h_wait H proc o3 in
    let pgrp := match r1 with Returns g => g | _ => 0%Z end in
    let (r5, o5) := h_killpg H pgrp SIGKILL o4 in
    log (snd (close_transport m)) =
      log m ++ teardown_calls proc r1 r2 r3 r4 r5 /\
    _proc (self (snd (close_transport m))) =
      match r1 with Returns _ => None | _ => Some proc end.
Proof.
  intros H m proc Hlive. rewrite (close_live H m proc Hlive).
  unfold bind, os_getpgid, proc_terminate, proc_kill, proc_wait, os_killpg,
    call, set_self.
  destruct (h_getpgid H (pid proc) (os m)) as [[g|e1|] o1];
    cbn [lift self os log];
    destruct (h_terminate H proc o1) as [[u2|e2|] o2]; cbn [lift self os log];
    destruct (h_kill H proc o2) as [[u3|e3|] o3]; cbn [lift self os log];
    destruct (h_wait H proc o3) as [[u4|e4|] o4]; cbn [lift self os log];
    match goal with
    | |- context [h_killpg H ?g SIGKILL o4] =>
        destruct (h_killpg H g SIGKILL o4) as [[u5|e5|] o5]
    end; cbn [lift self os log snd teardown_calls];
    rewrite <- ?app_assoc; cbn [app]; split; try reflexivity; exact Hlive.
Qed.

Lemma close_transport_order_witness :
  let m := Echo.start Echo.live (Echo.running 4 true) in
  log (snd (close_transport m)) =
    log m ++ teardown_calls Echo.child (Returns 4242%Z) (Returns tt)
               (Returns tt) (Returns (-9)%Z) (Returns tt) /\
  _proc (self (snd (close_transport m))) = None.
Proof.
  apply (@close_transport_order Echo.host
           (Echo.start Echo.live (Echo.running 4 true)) Echo.child).
  reflexivity.
Defined.

(** ** The timeout a deadline gives *)

(** X6: with a deadline, [_await_ready] reads the clock once and hands
    [select] the time left until the deadline, which is never negative: [0]
    from the deadline on. *)
Theorem await_ready_deadline_timeout :
  forall (H : Host) rlist wlist (e : Q) (m : Machine H),
    exists now tmo r,
      log (snd (_await_ready rlist wlist None (Some e) m)) =
        log m ++ [CMonotonic now;
                  CSelect rlist wlist (rlist ++ wlist) (Some tmo) r] /\
      now = fst (h_monotonic H (os m)) /\
      (0 <= tmo)%Q /\
      ((now < e)%Q -> tmo = (e - now)%Q) /\
      ((e <= now)%Q -> tmo = 0%Q).
Proof.
  intros H rlist wlist e m. rewrite await_ready_eq.
  destruct (h_monotonic H (os m)) as [now o1]. cbn [self os log fst].
  destruct (h_select H rlist wlist (rlist ++ wlist) _ o1) as [r o2].
  exists now, (py_max0 (e - now)), r. cbn [snd log].
  rewrite <- app_assoc. split; [reflexivity|]. split; [reflexivity|].
  unfold py_max0. destruct (Qle_bool (e - now) 0) eqn:E.
  - apply Qle_bool_iff in E. repeat split; try reflexivity; try lra.
  - assert (Hgt : ~ (e - now <= 0)%Q)
      by (intro Hle; apply Qle_bool_iff in Hle; congruence).
    repeat split; try reflexivity; try lra.
Qed.

(** ** After the peer has closed *)

Lemma torn_down_rejects :
  forall (H : Host) inh (n : Z) (data : bytes) timeout_sec (m : Machine H),
    _proc (self m) = None ->
    read_transport n timeout_sec m = (Raises TransportClosedError, m) /\
    write_transport inh data timeout_sec m = (Raises TransportClosedError, m).
Proof.
  intros H inh n data timeout_sec m Hnone.
  unfold read_transport, write_transport, bind, get_self.
  rewrite Hnone. split; reflexivity.
Qed.

Lemma teardown_then_raise_machine :
  forall (H : Host) A (e : Exn) (m : Machine H),
    snd ((close_transport ;; @raise H A e) m) = snd (close_transport m).
Proof.
  intros H A e m. unfold bind, raise.
  destruct (close_transport m) as [[u|x|] m']; reflexivity.
Qed.

(** X7: once a read has found the peer closed (no bytes, or
    [BrokenPipeError]) and the teardown it runs has got its group id from
    [os.getpgid], the session is closed for good: whatever that teardown ended
    in, every later [read_transport] and [write_transport] raises
    [TransportClosedError] at once, with no call made. *)
Theorem closed_peer_is_terminal :
  forall (H : Host) inh (n : Z) timeout_sec (m m1 : Machine H) proc v r o2
         pgrp o3,
    _proc (self m) = Some proc ->
    (end_time <- deadline timeout_sec ;;
     _await_ready [stdout_fileno proc] [] None end_time) m = (Returns v, m1) ->
    h_read H (stdout_fileno proc) n (os m1) = (r, o2) ->
    r = Returns [] \/ r = Raises BrokenPipeError ->
    h_getpgid H (pid proc) o2 = (Returns pgrp, o3) ->
    let m' := snd (read_transport n timeout_sec m) in
    forall n' data timeout_sec',
      read_transport n' timeout_sec' m' = (Raises TransportClosedError, m') /\
      write_transport inh data timeout_sec' m' =
        (Raises TransportClosedError, m').
Proof.
  intros H inh n timeout_sec m m1 proc v r o2 pgrp o3
         Hlive Hpre Hread Hr Hpg m' n' data timeout_sec'.
  apply torn_down_rejects. unfold m'.
  rewrite (read_transport_live H n timeout_sec m proc Hlive). cbv zeta.
  destruct (prelude_frame _ _ _ _ _ _ _ Hpre) as [Hself _].
  rewrite Hpre, Hread.
  assert (Hclosed :
            _proc (self (snd ((close_transport ;;
                               @raise H bytes TransportClosedError)
                                (mkMachine (self m1) o2
                                   (log m1 ++
                                    [CRead (stdout_fileno proc) n r]))))) =
            None).
  { rewrite teardown_then_raise_machine.
    apply (close_clears_after_getpgid H _ proc pgrp o3).
    - cbn [self]. rewrite Hself. exact Hlive.
    - exact Hpg. }
  destruct Hr as [-> | ->]; exact Hclosed.
Qed.

Lemma closed_peer_is_terminal_witness :
  let m := Echo.start Echo.live (Echo.exited false) in
  let m' := snd (read_transport 4%Z None m) in
  read_transport 1%Z None m' = (Raises TransportClosedError, m') /\
  write_transport None [Byte.x70] None m' = (Raises TransportClosedError, m').
Proof.
  refine (@closed_peer_is_terminal Echo.host None 4%Z None
            (Echo.start Echo.live (Echo.exited false))
            (@mkMachine Echo.host Echo.live (Echo.exited false)
               [CSelect [6%Z] [] [6%Z] None (Returns ([6%Z], [], []))])
            Echo.child true (Returns []) (Echo.exited false)
            4242%Z (Echo.exited false) _ _ _ _ _ 1%Z [Byte.x70] None);
    try reflexivity.
  left. reflexivity.
Defined.

(** * Properties of the project methods *)

(** ** [build] *)

Lemma build_eq :
  forall (H : Host) (F : Platform H) options (s : Server H),
    build F options s =
    let m := transport s in
    let dir := path_join (PROJECT_DIR F) "build" in
    let (r1, o1) := p_mkdir F dir false (os m) in
    let s1 := mkServer (mkMachine (self m) o1 (log m))
                (syslog s ++ [SMkdir dir false r1]) (atexit_hooks s) in
    match r1 with
    | Returns _ =>
        match build_plan options with
        | Returns (args, silent) =>
            (check_call F (["cmake"; ".."]%string ++ args) dir silent ;;
             check_call F ["make"; ("-j" ++ decimal (NPROC F))]%string
               dir silent)%project s1
        | Raises e => (Raises e, s1)
        | Blocks => (Blocks, s1)
        end
    | Raises e => (Raises (sys_error e), s1)
    | Blocks => (Blocks, s1)
    end.
Proof.
  intros H F options s. unfold build, build_plan. cbv zeta.
  unfold pbind at 1. unfold sys at 1.
  destruct (p_mkdir F (path_join (PROJECT_DIR F) "build") false
              (os (transport s))) as [[u|e|] o1]; cbn [lift_sys];
    try reflexivity.
  unfold pbind at 1. unfold pure at 1.
  destruct (cmake_args options) as [args|e|]; cbn [obind]; try reflexivity.
  unfold pbind at 1. unfold pure at 1.
  destruct (str2bool (options_get options "quiet" PyNone) true)
    as [[[|]|]|e|]; cbn [obind truthy_result]; reflexivity.
Qed.

Lemma two_check_calls :
  forall (H : Host) (F : Platform H) cmake make dir silent (s : Server H),
    (check_call F cmake dir silent ;; check_call F make dir silent)%project s =
    let m := transport s in
    let (r2, o2) := p_check_call F cmake dir silent (os m) in
    let s2 := mkServer (mkMachine (self m) o2 (log m))
                (syslog s ++ [SCheckCall cmake dir silent r2])
                (atexit_hooks s) in
    match r2 with
    | Returns _ =>
        let (r3, o3) := p_check_call F make dir silent o2 in
        (lift_sys r3,
         mkServer (mkMachine (self m) o3 (log m))
           (syslog s ++ [SCheckCall cmake dir silent r2;
                         SCheckCall make dir silent r3])
           (atexit_hooks s))
    | Raises e => (Raises (sys_error e), s2)
    | Blocks => (Blocks, s2)
    end.
Proof.
  intros H F cmake make dir silent s. unfold pbind, check_call, sys.
  cbv zeta.
  destruct (p_check_call F cmake dir silent (os (transport s)))
    as [[u|e|] o2]; cbn [lift_sys transport self os log syslog atexit_hooks];
    try reflexivity.
  destruct (p_check_call F make dir silent o2) as [r3 o3].
  rewrite <- app_assoc. reflexivity.
Qed.

(** X8: [build] makes the build directory, then runs cmake, then make, both
    in that directory and both silenced or both not; make is run only when
    cmake returned, and nothing is run when the directory could not be made.
    The call returns exactly when all three do. *)
Theorem build_runs_cmake_then_make :
  forall (H : Host) (F : Platform H) options (s : Server H) args silent,
    build_plan options = Returns (args, silent) ->
    let dir := path_join (PROJECT_DIR F) "build" in
    let cmake := ["cmake"; ".."]%string ++ args in
    let make := ["make"; ("-j" ++ decimal (NPROC F))]%string in
    let (r1, o1) := p_mkdir F dir false (os (transport s)) in
    let (r2, o2) := p_check_call F cmake dir silent o1 in
    let (r3, o3) := p_check_call F make dir silent o2 in
    syslog (snd (build F options s)) =
      syslog s ++ build_calls dir cmake make silent r1 r2 r3 /\
    (fst (build F options s) = Returns tt <->
     r1 = Returns tt /\ r2 = Returns tt /\ r3 = Returns tt).
Proof.
  intros H F options s args silent Hplan. cbv zeta.
  rewrite build_eq. cbv zeta. rewrite Hplan.
  destruct (p_mkdir F (path_join (PROJECT_DIR F) "build") false
              (os (transport s))) as [[[]|e1|] o1].
  - rewrite two_check_calls. cbv zeta. cbn [transport os self log syslog].
    destruct (p_check_call F _ _ silent o1) as [[[]|e2|] o2].
    + destruct (p_check_call F _ _ silent o2) as [[[]|e3|] o3];
        cbn [fst snd syslog build_calls lift_sys]; rewrite <- app_assoc;
        (split; [reflexivity|]);
        split; try discriminate; try (intros (_ & _ & E); discriminate).
      all: intros; auto.
    + destruct (p_check_call F _ _ silent o2) as [r3 o3].
      cbn [fst snd syslog build_calls]. rewrite <- app_assoc.
      split; [reflexivity|].
      split; [discriminate|intros (_ & E & _); discriminate].
    + destruct (p_check_call F _ _ silent o2) as [r3 o3].
      cbn [fst snd syslog build_calls]. rewrite <- app_assoc.
      split; [reflexivity|].
      split; [discriminate|intros (_ & E & _); discriminate].
  - destruct (p_check_call F _ _ silent o1) as [r2 o2].
    destruct (p_check_call F _ _ silent o2) as [r3 o3].
    cbn [fst snd syslog build_calls]. split; [reflexivity|].
    split; [discriminate|intros (E & _); discriminate].
  - destruct (p_check_call F _ _ silent o1) as [r2 o2].
    destruct (p_check_call F _ _ silent o2) as [r3 o3].
    cbn [fst snd syslog build_calls]. split; [reflexivity|].
    split; [discriminate|intros (E & _); discriminate].
Qed.

Lemma build_runs_cmake_then_make_witness :
  let options := [("quiet", PyBool true)]%string in
  let s := Sim.start (Sim.fresh true 0) in
  let dir := ["opt"; "project"; "build"]%string in
  let args := ["-DCMAKE_BUILD_TYPE=Release"; "-DTOOLCHAIN=gcc";
               "-DRISCV_ARCH=rv32gc"; "-DRISCV_ABI=ilp32d";
               "-DRISCV_ABI=ilp32d"; "-DRISCV_ELF_GCC_PREFIX=";
               "-DRISCV_ELF_GCC_BASENAME=riscv32-unknown-elf"]%string in
  syslog (snd (build Sim.platform options s)) =
    syslog s ++ build_calls dir (["cmake"; ".."]%string ++ args)
                  ["make"; "-j8"]%string true
                  (Returns tt) (Returns tt) (Returns tt) /\
  (fst (build Sim.platform options s) = Returns tt <->
   @Returns SysError unit tt = Returns tt /\
   @Returns SysError unit tt = Returns tt /\
   @Returns SysError unit tt = Returns tt).
Proof.
  exact (@build_runs_cmake_then_make Sim.host Sim.platform
           [("quiet", PyBool true)]%string (Sim.start (Sim.fresh true 0))
           ["-DCMAKE_BUILD_TYPE=Release"; "-DTOOLCHAIN=gcc";
            "-DRISCV_ARCH=rv32gc"; "-DRISCV_ABI=ilp32d";
            "-DRISCV_ABI=ilp32d"; "-DRISCV_ELF_GCC_PREFIX=";
            "-DRISCV_ELF_GCC_BASENAME=riscv32-unknown-elf"]%string
           true eq_refl).
Defined.

(** X9: an option [build] cannot use (a value that is not a string where a
    string is added, a word [str2bool] does not know for [quiet]) makes it
    raise only after the build directory has been made, and before anything
    is run. *)
Theorem build_bad_option_after_mkdir :
  forall (H : Host) (F : Platform H) options (s : Server H) e o1,
    build_plan options = Raises e ->
    p_mkdir F (path_join (PROJECT_DIR F) "build") false (os (transport s)) =
      (Returns tt, o1) ->
    build F options s =
      (Raises e,
       mkServer (mkMachine (self (transport s)) o1 (log (transport s)))
         (syslog s ++
          [SMkdir (path_join (PROJECT_DIR F) "build") false (Returns tt)])
         (atexit_hooks s)).
Proof.
  intros H F options s e o1 Hplan Hmk.
  rewrite build_eq. cbv zeta. rewrite Hmk, Hplan. reflexivity.
Qed.

Lemma build_bad_option_after_mkdir_witness :
  build Sim.platform [("toolchain", PyInt 3)]%string
    (Sim.start (Sim.fresh true 0)) =
    (Raises TypeError,
     mkServer
       (@mkMachine Sim.host Echo.torn_down
          (Sim.mkState (Echo.exited false) [] true
             [["opt"; "project"; "build"]%string]
             (Sim.files (Sim.fresh true 0)) 0) [])
       ([] ++ [SMkdir ["opt"; "project"; "build"]%string false (Returns tt)])
       []).
Proof.
  exact (@build_bad_option_after_mkdir Sim.host Sim.platform
           [("toolchain", PyInt 3)]%string (Sim.start (Sim.fresh true 0))
           TypeError
           (Sim.mkState (Echo.exited false) [] true
              [["opt"; "project"; "build"]%string]
              (Sim.files (Sim.fresh true 0)) 0)
           eq_refl eq_refl).
Defined.

Lemma missing_get :
  forall options key, missing options key = true ->
  forall d, options_get options key d = d.
Proof.
  induction options as [|[k v] rest IH]; intros key Hm d; [reflexivity|].
  cbn [missing options_get] in *. apply andb_prop in Hm. destruct Hm as [Hk Hm].
  destruct (k =? key)%string; [discriminate|]. apply IH. exact Hm.
Qed.

(** The calls of a [build] and what they have of its plan. *)
Lemma build_log :
  forall (H : Host) (F : Platform H) options (s : Server H),
    exists made,
      syslog (snd (build F options s)) = syslog s ++ made /\
      forall cmd cwd silent r,
        In (SCheckCall cmd cwd silent r) made ->
        exists args, build_plan options = Returns (args, silent).
Proof.
  intros H F options s. rewrite build_eq. cbv zeta.
  destruct (p_mkdir F _ false (os (transport s))) as [[u|e|] o1];
    try (eexists; split; [reflexivity|];
         intros cmd cwd silent r [E|[]]; discriminate).
  destruct (build_plan options) as [[args silent]|e|];
    try (eexists; split; [reflexivity|];
         intros cmd cwd silent r [E|[]]; discriminate).
  rewrite two_check_calls. cbv zeta. cbn [transport os self log syslog].
  destruct (p_check_call F _ _ silent o1) as [[u2|e2|] o2];
    [destruct (p_check_call F _ _ silent o2) as [r3 o3]|..];
    cbn [snd syslog]; rewrite <- app_assoc; cbn [app];
    (eexists; split; [reflexivity|]);
    intros cmd cwd sl r Hin; cbn [In] in Hin;
    repeat (destruct Hin as [Hin|Hin]; try discriminate;
            try (injection Hin as _ _ <- _; exists args; reflexivity));
    contradiction.
Qed.

(** X10: with no [quiet] among the options, [build] runs cmake and make with
    their output left on, although the option is declared with the default
    [True]; given as [True], both are silenced. *)
Theorem build_quiet_missing_is_loud :
  forall (H : Host) (F : Platform H) options (s : Server H),
    missing options "quiet" = true ->
    (forall o, In o project_options -> name o = "quiet"%string ->
               default o = PyBool true) /\
    (exists made,
       syslog (snd (build F options s)) = syslog s ++ made /\
       forall cmd cwd silent r,
         In (SCheckCall cmd cwd silent r) made -> silent = false) /\
    (exists made,
       syslog (snd (build F (("quiet"%string, PyBool true) :: options) s)) =
         syslog s ++ made /\
       forall cmd cwd silent r,
         In (SCheckCall cmd cwd silent r) made -> silent = true).
Proof.
  intros H F options s Hmiss. split; [|split].
  - intros o Hin Hname. cbn [project_options In] in Hin.
    repeat (destruct Hin as [<-|Hin]; [try discriminate; reflexivity|]).
    contradiction.
  - destruct (build_log H F options s) as (made & Hlog & Hcalls).
    exists made. split; [exact Hlog|].
    intros cmd cwd silent r Hin. destruct (Hcalls _ _ _ _ Hin) as (args & Hplan).
    unfold build_plan in Hplan. rewrite (missing_get _ _ Hmiss) in Hplan.
    destruct (cmake_args options); cbn [obind str2bool truthy_result] in Hplan;
      congruence.
  - destruct (build_log H F (("quiet"%string, PyBool true) :: options) s)
      as (made & Hlog & Hcalls).
    exists made. split; [exact Hlog|].
    intros cmd cwd silent r Hin. destruct (Hcalls _ _ _ _ Hin) as (args & Hplan).
    unfold build_plan in Hplan.
    change (options_get (("quiet"%string, PyBool true) :: options) "quiet" PyNone)
      with (PyBool true) in Hplan.
    destruct (cmake_args _); cbn [obind str2bool truthy_result] in Hplan;
      congruence.
Qed.

Lemma build_quiet_missing_is_loud_witness :
  let s := Sim.start (Sim.fresh true 0) in
  (forall o, In o project_options -> name o = "quiet"%string ->
             default o = PyBool true) /\
  (exists made,
     syslog (snd (build Sim.platform [] s)) = syslog s ++ made /\
     forall cmd cwd silent r,
       In (SCheckCall cmd cwd silent r) made -> silent = false) /\
  (exists made,
     syslog (snd (build Sim.platform [("quiet"%string, PyBool true)] s)) =
       syslog s ++ made /\
     forall cmd cwd silent r,
       In (SCheckCall cmd cwd silent r) made -> silent = true).
Proof.
  exact (@build_quiet_missing_is_loud Sim.host Sim.platform []
           (Sim.start (Sim.fresh true 0)) eq_refl).
Defined.

(** X11: leaving out an option that [server_info_query] declares is the
    same as giving it with its declared default, for all three methods that
    read options and with three exceptions: [quiet] in [build] (left out, the
    output is not silenced), and [verbose] and [cpu_arch] in
    [generate_project] (left out, [verbose] is an error and [cpu_arch] is
    derived from [arch]). Apart from these each method makes the same calls
    and ends the same way. *)
Theorem declared_defaults_honoured :
  forall (H : Host) (F : Platform H) o options,
    In o project_options ->
    missing options (name o) = true ->
    let given := (name o, default o) :: options in
    (name o <> "quiet"%string ->
     forall s, build F given s = build F options s) /\
    (forall s, open_transport F given s = open_transport F options s) /\
    (name o <> "verbose"%string -> name o <> "cpu_arch"%string ->
     forall model_library_format_path standalone_crt_dir project_dir s,
       generate_project F model_library_format_path standalone_crt_dir
         project_dir given s =
       generate_project F model_library_format_path standalone_crt_dir
         project_dir options s).
Proof.
  intros H F o options Hin Hmiss given. subst given.
  cbn [project_options In] in Hin.
  repeat (destruct Hin as [<-|Hin];
          [cbn [name default] in *;
           (split; [|split]);
           [intros Hq s; try congruence; rewrite !build_eq;
            unfold build_plan, cmake_args;
            cbn [options_get String.eqb Ascii.eqb Bool.eqb];
            rewrite ?(missing_get _ _ Hmiss); reflexivity
           |intro s; unfold open_transport, launch_args;
            cbn [options_get String.eqb Ascii.eqb Bool.eqb];
            rewrite ?(missing_get _ _ Hmiss); reflexivity
           |intros Hv Hc mlf crt proj s; try congruence;
            unfold generate_project, default_cpu_arch;
            cbn [options_get String.eqb Ascii.eqb Bool.eqb];
            rewrite ?(missing_get _ _ Hmiss); reflexivity]|]).
  contradiction.
Qed.

Lemma declared_defaults_honoured_witness :
  let options := [("verbose", PyBool false); ("debug", PyBool true)]%string in
  let given := ("arch"%string, PyStr ARCH) :: options in
  (forall s, build Sim.platform given s = build Sim.platform options s) /\
  (forall s, open_transport Sim.platform given s =
             open_transport Sim.platform options s) /\
  (forall model_library_format_path standalone_crt_dir project_dir s,
     generate_project Sim.platform model_library_format_path
       standalone_crt_dir project_dir given s =
     generate_project Sim.platform model_library_format_path
       standalone_crt_dir project_dir options s).
Proof.
  assert (Hin : In (mkProjectOption "arch" ["build"] [] "str" (PyStr ARCH) []
                      "Name used ARCH.")%string project_options)
    by (cbn; do 4 right; left; reflexivity).
  destruct (@declared_defaults_honoured Sim.host Sim.platform _
              [("verbose", PyBool false); ("debug", PyBool true)]%string
              Hin eq_refl) as (Hb & Ho & Hg).
  split; [apply Hb; discriminate|].
  split; [exact Ho|]. apply Hg; discriminate.
Defined.

(** ** [_set_nonblock] and [open_transport] *)

Lemma set_nonblock_eq :
  forall (H : Host) (F : Platform H) fd (s : Server H),
    _set_nonblock F fd s =
    let m := transport s in
    let nb := O_NONBLOCK F in
    let (r1, o1) := p_getfl F fd (os m) in
    match r1 with
    | Returns flag =>
        let v := Z.lor flag nb in
        let (r2, o2) := p_setfl F fd v o1 in
        match r2 with
        | Returns _ =>
            let (r3, o3) := p_getfl F fd o2 in
            (match r3 with
             | Returns new_flag =>
                 if (Z.land new_flag nb =? 0)%Z
                 then Raises AssertionError else Returns tt
             | Raises e => Raises (sys_error e)
             | Blocks => Blocks
             end,
             mkServer (mkMachine (self m) o3 (log m))
               (syslog s ++ [SGetfl fd r1; SSetfl fd v r2; SGetfl fd r3])
               (atexit_hooks s))
        | Raises e =>
            (Raises (sys_error e),
             mkServer (mkMachine (self m) o2 (log m))
               (syslog s ++ [SGetfl fd r1; SSetfl fd v r2]) (atexit_hooks s))
        | Blocks =>
            (Blocks,
             mkServer (mkMachine (self m) o2 (log m))
               (syslog s ++ [SGetfl fd r1; SSetfl fd v r2]) (atexit_hooks s))
        end
    | Raises e =>
        (Raises (sys_error e),
         mkServer (mkMachine (self m) o1 (log m))
           (syslog s ++ [SGetfl fd r1]) (atexit_hooks s))
    | Blocks =>
        (Blocks,
         mkServer (mkMachine (self m) o1 (log m))
           (syslog s ++ [SGetfl fd r1]) (atexit_hooks s))
    end.
Proof.
  intros H F fd s. unfold _set_nonblock, pbind, sys, praise, pret. cbv zeta.
  destruct (p_getfl F fd (os (transport s))) as [[flag|e1|] o1];
    cbn [lift_sys transport self os log syslog atexit_hooks];
    try reflexivity.
  destruct (p_setfl F fd _ o1) as [[u|e2|] o2];
    cbn [lift_sys transport self os log syslog atexit_hooks];
    rewrite <- ?app_assoc; try reflexivity.
  destruct (p_getfl F fd o2) as [[nf|e3|] o3];
    cbn [lift_sys transport self os log syslog atexit_hooks];
    rewrite <- ?app_assoc; try reflexivity.
  destruct (Z.land nf (O_NONBLOCK F) =? 0)%Z; reflexivity.
Qed.

Lemma lor_keeps_bits : forall a b : Z, Z.land (Z.lor a b) a = a.
Proof.
  intros a b. apply Z.bits_inj'. intros i Hi.
  rewrite Z.land_spec, Z.lor_spec.
  destruct (Z.testbit a i), (Z.testbit b i); reflexivity.
Qed.

Lemma lor_sets_bits : forall a b : Z, Z.land (Z.lor a b) b = b.
Proof.
  intros a b. apply Z.bits_inj'. intros i Hi.
  rewrite Z.land_spec, Z.lor_spec.
  destruct (Z.testbit a i), (Z.testbit b i); reflexivity.
Qed.

(** X12: [_set_nonblock] hands [F_SETFL] the flags it has just read with
    [O_NONBLOCK] added, so that no flag that was set is cleared, and it
    returns only when the flags read back afterwards have the bit; if they
    do not, it ends in [AssertionError]. *)
Theorem set_nonblock_adds_flag :
  forall (H : Host) (F : Platform H) fd (s : Server H) flag o1,
    p_getfl F fd (os (transport s)) = (Returns flag, o1) ->
    let v := Z.lor flag (O_NONBLOCK F) in
    let (r2, o2) := p_setfl F fd v o1 in
    let (r3, o3) := p_getfl F fd o2 in
    let res := _set_nonblock F fd s in
    (exists rest,
       syslog (snd res) =
         syslog s ++ SGetfl fd (Returns flag) :: SSetfl fd v r2 :: rest) /\
    Z.land v flag = flag /\
    Z.land v (O_NONBLOCK F) = O_NONBLOCK F /\
    (fst res = Returns tt <->
     r2 = Returns tt /\
     exists new_flag, r3 = Returns new_flag /\
                      Z.land new_flag (O_NONBLOCK F) <> 0%Z) /\
    (r2 = Returns tt ->
     (exists new_flag, r3 = Returns new_flag /\
                       Z.land new_flag (O_NONBLOCK F) = 0%Z) ->
     fst res = Raises AssertionError).
Proof.
  intros H F fd s flag o1 Hget. cbv zeta.
  rewrite set_nonblock_eq. cbv zeta. rewrite Hget.
  destruct (p_setfl F fd _ o1) as [[[]|e2|] o2].
  - destruct (p_getfl F fd o2) as [[nf|e3|] o3]; cbn [fst snd syslog];
      (split; [eexists; reflexivity|]);
      (split; [apply lor_keeps_bits|]);
      (split; [apply lor_sets_bits|]).
    + destruct (Z.eqb_spec (Z.land nf (O_NONBLOCK F)) 0) as [E|E].
      * split.
        -- split; [discriminate|].
           intros (_ & nf' & Hnf & Hne). injection Hnf as <-. contradiction.
        -- reflexivity.
      * split.
        -- split; [intros _; split; [reflexivity|exists nf; auto]|reflexivity].
        -- intros _ (nf' & Hnf & Hz). injection Hnf as <-. contradiction.
    + split.
      * split; [discriminate|intros (_ & nf' & Hnf & _); discriminate].
      * intros _ (nf' & Hnf & _). discriminate.
    + split.
      * split; [discriminate|intros (_ & nf' & Hnf & _); discriminate].
      * intros _ (nf' & Hnf & _). discriminate.
  - destruct (p_getfl F fd o2) as [r3 o3]. cbn [fst snd syslog].
    split; [eexists; reflexivity|].
    split; [apply lor_keeps_bits|]. split; [apply lor_sets_bits|].
    split; [split; [discriminate|intros (E & _); discriminate]|].
    intros E. discriminate.
  - destruct (p_getfl F fd o2) as [r3 o3]. cbn [fst snd syslog].
    split; [eexists; reflexivity|].
    split; [apply lor_keeps_bits|]. split; [apply lor_sets_bits|].
    split; [split; [discriminate|intros (E & _); discriminate]|].
    intros E. discriminate.
Qed.

Lemma set_nonblock_adds_flag_witness :
  let s := Sim.start (Sim.fresh false 0) in
  let res := _set_nonblock Sim.platform 5%Z s in
  (exists rest,
     syslog (snd res) =
       syslog s ++ SGetfl 5%Z (Returns 2%Z) ::
                   SSetfl 5%Z (Z.lor 2 2048) (Returns tt) :: rest) /\
  Z.land (Z.lor 2 2048) 2 = 2%Z /\
  Z.land (Z.lor 2 2048) 2048 = 2048%Z /\
  (fst res = Returns tt <->
   @Returns SysError unit tt = Returns tt /\
   exists new_flag, @Returns SysError Z 2%Z = Returns new_flag /\
                    Z.land new_flag 2048 <> 0%Z) /\
  (@Returns SysError unit tt = Returns tt ->
   (exists new_flag, @Returns SysError Z 2%Z = Returns new_flag /\
                     Z.land new_flag 2048 = 0%Z) ->
   fst res = Raises AssertionError).
Proof.
  exact (@set_nonblock_adds_flag Sim.host Sim.platform 5%Z
           (Sim.start (Sim.fresh false 0)) 2%Z (Sim.fresh false 0) eq_refl).
Defined.

Lemma set_nonblock_frame :
  forall (H : Host) (F : Platform H) fd (s : Server H),
    let res := _set_nonblock F fd s in
    self (transport (snd res)) = self (transport s) /\
    log (transport (snd res)) = log (transport s) /\
    atexit_hooks (snd res) = atexit_hooks s /\
    exists made, syslog (snd res) = syslog s ++ made /\
                 existsb is_popen made = false.
Proof.
  intros H F fd s res. unfold res. rewrite set_nonblock_eq. cbv zeta.
  destruct (p_getfl F fd (os (transport s))) as [[flag|e1|] o1];
    [destruct (p_setfl F fd _ o1) as [[u|e2|] o2];
     [destruct (p_getfl F fd o2) as [r3 o3]|..]|..];
    cbn [snd transport self log atexit_hooks syslog];
    repeat split; eexists; split; reflexivity.
Qed.

(** [open_transport] from the launch on. *)
Lemma open_tail :
  forall (H : Host) (F : Platform H) proc (s : Server H),
    let res := (set_proc (Some proc) ;;
                _set_nonblock F (stdin_fileno proc) ;;
                _set_nonblock F (stdout_fileno proc) ;;
                atexit_register close_transport ;;
                pret (mkTransportTimeouts 0 0 0))%project s in
    _proc (self (transport (snd res))) = Some proc /\
    log (transport (snd res)) = log (transport s) /\
    (exists made, syslog (snd res) = syslog s ++ made /\
                  existsb is_popen made = false) /\
    atexit_hooks (snd res) =
      match fst res with
      | Returns _ => atexit_hooks s ++ [close_transport]
      | _ => atexit_hooks s
      end /\
    (forall t, fst res = Returns t -> t = mkTransportTimeouts 0 0 0).
Proof.
  intros H F proc s res. pattern res.
  match goal with |- ?P res => set (Q := P) end.
  unfold res; clear res. unfold pbind at 1. unfold set_proc.
  set (s0 := mkServer _ (syslog s) (atexit_hooks s)).
  assert (H0 : _proc (self (transport s0)) = Some proc /\
               log (transport s0) = log (transport s) /\
               syslog s0 = syslog s /\ atexit_hooks s0 = atexit_hooks s)
    by (repeat split).
  destruct H0 as (Hp0 & Hl0 & Hs0 & Hh0). clearbody s0.
  unfold pbind at 1.
  destruct (set_nonblock_frame H F (stdin_fileno proc) s0)
    as (Hp1 & Hl1 & Hh1 & made1 & Hs1 & Hn1). cbv zeta in *.
  destruct (_set_nonblock F (stdin_fileno proc) s0) as [r1 s1].
  cbn [snd] in *.
  assert (Hstop1 : _proc (self (transport s1)) = Some proc /\
                   log (transport s1) = log (transport s) /\
                   (exists made, syslog s1 = syslog s ++ made /\
                                 existsb is_popen made = false) /\
                   atexit_hooks s1 = atexit_hooks s).
  { rewrite Hp1, Hl1, Hh1, Hs1, Hs0. repeat split; try assumption.
    exists made1. split; [reflexivity|exact Hn1]. }
  destruct r1 as [u1|e1|];
    try (destruct Hstop1 as (? & ? & ? & ?); subst Q; cbn [fst snd];
         repeat split; try assumption; discriminate).
  unfold pbind at 1.
  destruct (set_nonblock_frame H F (stdout_fileno proc) s1)
    as (Hp2 & Hl2 & Hh2 & made2 & Hs2 & Hn2). cbv zeta in *.
  destruct (_set_nonblock F (stdout_fileno proc) s1) as [r2 s2].
  cbn [snd] in *.
  destruct Hstop1 as (Hp & Hl & (made & Hs & Hn) & Hh).
  assert (Hstop2 : _proc (self (transport s2)) = Some proc /\
                   log (transport s2) = log (transport s) /\
                   (exists made, syslog s2 = syslog s ++ made /\
                                 existsb is_popen made = false) /\
                   atexit_hooks s2 = atexit_hooks s).
  { rewrite Hp2, Hl2, Hh2, Hs2, Hs. repeat split; try assumption.
    exists (made ++ made2). rewrite app_assoc. split; [reflexivity|].
    rewrite existsb_app, Hn, Hn2. reflexivity. }
  destruct r2 as [u2|e2|];
    try (destruct Hstop2 as (? & ? & ? & ?); subst Q; cbn [fst snd];
         repeat split; try assumption; discriminate).
  destruct Hstop2 as (Hp' & Hl' & (made' & Hs' & Hn') & Hh').
  subst Q.
  cbv beta iota zeta delta [pbind atexit_register pret fst snd].
  cbn [transport syslog atexit_hooks].
  split; [exact Hp'|]. split; [exact Hl'|]. split.
  - exists (made' ++ [SAtexitRegister]). rewrite Hs', app_assoc.
    split; [reflexivity|]. rewrite existsb_app, Hn'. reflexivity.
  - split; [rewrite Hh'; reflexivity|].
    intros t E. injection E as <-. reflexivity.
Qed.

Lemma open_transport_eq :
  forall (H : Host) (F : Platform H) options (s : Server H),
    open_transport F options s =
    match options_get options "etiss_script" PyNone with
    | PyNone => (Raises AssertionError, s)
    | _ =>
        match launch_args options with
        | Returns args =>
            match all_strings args with
            | Some argv =>
                let m := transport s in
                let (r, o1) := p_popen F argv (os m) in
                let s1 := mkServer (mkMachine (self m) o1 (log m))
                            (syslog s ++ [SPopen argv r]) (atexit_hooks s) in
                match r with
                | Returns proc =>
                    (set_proc (Some proc) ;;
                     _set_nonblock F (stdin_fileno proc) ;;
                     _set_nonblock F (stdout_fileno proc) ;;
                     atexit_register close_transport ;;
                     pret (mkTransportTimeouts 0 0 0))%project s1
                | Raises e => (Raises (sys_error e), s1)
                | Blocks => (Blocks, s1)
                end
            | None => (Raises TypeError, s)
            end
        | Raises e => (Raises e, s)
        | Blocks => (Blocks, s)
        end
    end.
Proof.
  intros H F options s. unfold open_transport.
  assert (Hrest :
    ((if DBG then
        fun s0 : Server H =>
          sys (p_copyfile F (PROJECT_DIR F ++ ["build"; "main"]%string)
                 [elfdest (self (transport s0))])
              (SCopyfile (PROJECT_DIR F ++ ["build"; "main"]%string)
                 [elfdest (self (transport s0))]) s0
      else pret tt) ;;
     args <- pure (launch_args options) ;;
     proc <- match all_strings args with
             | Some argv => sys (p_popen F argv) (SPopen argv)
             | None => praise TypeError
             end ;;
     set_proc (Some proc) ;;
     _set_nonblock F (stdin_fileno proc) ;;
     _set_nonblock F (stdout_fileno proc) ;;
     atexit_register close_transport ;;
     pret (mkTransportTimeouts 0 0 0))%project s =
    match launch_args options with
    | Returns args =>
        match all_strings args with
        | Some argv =>
            let m := transport s in
            let (r, o1) := p_popen F argv (os m) in
            let s1 := mkServer (mkMachine (self m) o1 (log m))
                        (syslog s ++ [SPopen argv r]) (atexit_hooks s) in
            match r with
            | Returns proc =>
                (set_proc (Some proc) ;;
                 _set_nonblock F (stdin_fileno proc) ;;
                 _set_nonblock F (stdout_fileno proc) ;;
                 atexit_register close_transport ;;
                 pret (mkTransportTimeouts 0 0 0))%project s1
            | Raises e => (Raises (sys_error e), s1)
            | Blocks => (Blocks, s1)
            end
        | None => (Raises TypeError, s)
        end
    | Raises e => (Raises e, s)
    | Blocks => (Blocks, s)
    end).
  { cbn [DBG]. unfold pbind at 1. unfold pret at 1.
    unfold pbind at 1. unfold pure at 1.
    destruct (launch_args options) as [args|e|]; try reflexivity.
    unfold pbind at 1.
    destruct (all_strings args) as [argv|]; [|reflexivity].
    unfold sys at 1. cbv zeta.
    destruct (p_popen F argv (os (transport s))) as [[proc|e|] o1];
      reflexivity. }
  destruct (options_get options "etiss_script" PyNone);
    try exact Hrest. reflexivity.
Qed.

Lemma all_strings_app_strs :
  forall l tail,
    all_strings (map PyStr l ++ tail) =
    match all_strings tail with
    | Some t => Some (l ++ t)
    | None => None
    end.
Proof.
  induction l as [|x l IH]; intro tail; cbn [map app all_strings].
  - destruct (all_strings tail); reflexivity.
  - rewrite IH. destruct (all_strings tail); reflexivity.
Qed.

Lemma no_popen_not_in :
  forall made argv r,
    existsb is_popen made = false -> ~ In (SPopen argv r) made.
Proof.
  induction made as [|c made IH]; intros argv r Hn Hin; [exact Hin|].
  cbn [existsb] in Hn. apply orb_false_elim in Hn. destruct Hn as [Hc Hn].
  destruct Hin as [-> | Hin]; [discriminate|]. exact (IH _ _ Hn Hin).
Qed.

Lemma no_popen_filter :
  forall made, existsb is_popen made = false -> filter is_popen made = [].
Proof.
  induction made as [|c made IH]; intro Hn; [reflexivity|].
  cbn [existsb] in Hn. apply orb_false_elim in Hn. destruct Hn as [Hc Hn].
  cbn [filter]. rewrite Hc. exact (IH Hn).
Qed.

(** What the launch arguments are when they are all strings. *)
Lemma launch_argv :
  forall options args argv,
    launch_args options = Returns args ->
    all_strings args = Some argv ->
    exists script extra,
      options_get options "etiss_script" PyNone = PyStr script /\
      iterate (options_get options "etiss_args" (PyList [])) = Returns extra /\
      argv = script :: BUILD_TARGET :: extra ++ ["-ietiss.ini"%string].
Proof.
  intros options args argv Hl Ha. unfold launch_args in Hl.
  destruct (iterate (options_get options "etiss_args" (PyList [])))
    as [extra|e|]; cbn [obind] in Hl; try discriminate.
  injection Hl as <-. cbn [app all_strings] in Ha.
  destruct (options_get options "etiss_script" PyNone) as [| | |script|];
    try discriminate.
  rewrite all_strings_app_strs in Ha. cbn [all_strings] in Ha.
  injection Ha as <-. exists script, extra. repeat split.
Qed.

(** X13: [open_transport] launches nothing unless [etiss_script] is a
    string: left out or [None] it ends in [AssertionError], any other value
    in [TypeError], and the server is exactly as before. *)
Theorem open_transport_needs_script :
  forall (H : Host) (F : Platform H) options (s : Server H),
    (forall script,
       options_get options "etiss_script" PyNone <> PyStr script) ->
    open_transport F options s =
      (Raises match options_get options "etiss_script" PyNone with
              | PyNone => AssertionError
              | _ => TypeError
              end, s).
Proof.
  intros H F options s Hns. rewrite open_transport_eq.
  destruct (options_get options "etiss_script" PyNone) as [| | |script|] eqn:E;
    try reflexivity; try (exfalso; exact (Hns script eq_refl));
    destruct (launch_args options) as [args|e|] eqn:Hl;
    try (unfold launch_args in Hl;
         destruct (iterate _) as [extra|e'|] eqn:Hi; cbn [obind] in Hl;
         try discriminate;
         destruct (options_get options "etiss_args" (PyList []));
         cbn [iterate] in Hi; congruence);
    destruct (all_strings args) as [argv|] eqn:Ha; try reflexivity;
    destruct (launch_argv options args argv Hl Ha) as (script & _ & Hs & _);
    congruence.
Qed.

Lemma open_transport_needs_script_witness :
  open_transport Sim.platform [("etiss_args", PyStr "-v")]%string
    (Sim.start (Sim.fresh true 0)) =
    (Raises AssertionError, Sim.start (Sim.fresh true 0)).
Proof.
  refine (@open_transport_needs_script Sim.host Sim.platform
            [("etiss_args", PyStr "-v")]%string
            (Sim.start (Sim.fresh true 0)) _).
  intros script. discriminate.
Defined.

(** X14: [open_transport] launches at most one process, and its arguments
    are the script, ["build/main"], the extra arguments and
    ["-ietiss.ini"], in that order. Extra arguments given as one string
    are taken apart: every character is an argument of its own. *)
Theorem open_transport_argv :
  forall (H : Host) (F : Platform H) options (s : Server H),
    exists made,
      syslog (snd (open_transport F options s)) = syslog s ++ made /\
      (List.length (filter is_popen made) <= 1)%nat /\
      forall argv r,
        In (SPopen argv r) made ->
        exists script extra,
          options_get options "etiss_script" PyNone = PyStr script /\
          iterate (options_get options "etiss_args" (PyList [])) =
            Returns extra /\
          argv = script :: BUILD_TARGET :: extra ++ ["-ietiss.ini"%string] /\
          (forall e,
             options_get options "etiss_args" (PyList []) = PyStr e ->
             extra = characters e).
Proof.
  intros H F options s. rewrite open_transport_eq.
  assert (Hnone : forall (r : Outcome Error TransportTimeouts),
    exists made,
      syslog (snd (r, s)) = syslog s ++ made /\
      (List.length (filter is_popen made) <= 1)%nat /\
      forall argv r0,
        In (SPopen argv r0) made ->
        exists script extra,
          options_get options "etiss_script" PyNone = PyStr script /\
          iterate (options_get options "etiss_args" (PyList [])) =
            Returns extra /\
          argv = script :: BUILD_TARGET :: extra ++ ["-ietiss.ini"%string] /\
          (forall e,
             options_get options "etiss_args" (PyList []) = PyStr e ->
             extra = characters e)).
  { intro r. exists []. cbn [snd]. rewrite app_nil_r.
    split; [reflexivity|]. split; [cbn; lia|]. intros argv r0 []. }
  destruct (options_get options "etiss_script" PyNone) eqn:Escript;
    try apply Hnone;
    (destruct (launch_args options) as [args|e|] eqn:Hl; try apply Hnone;
     destruct (all_strings args) as [argv|] eqn:Ha; try apply Hnone;
     cbv zeta;
     destruct (p_popen F argv (os (transport s))) as [r o1];
     destruct (launch_argv options args argv Hl Ha)
       as (script & extra & Hs & Hi & Hargv);
     try (rewrite Escript in Hs; discriminate Hs);
     assert (Hhead : forall argv' r',
               SPopen argv r = SPopen argv' r' ->
               exists script extra,
                 options_get options "etiss_script" PyNone = PyStr script /\
                 iterate (options_get options "etiss_args" (PyList [])) =
                   Returns extra /\
                 argv' = script :: BUILD_TARGET :: extra ++
                         ["-ietiss.ini"%string] /\
                 (forall e,
                    options_get options "etiss_args" (PyList []) = PyStr e ->
                    extra = characters e))
       by (intros argv' r' E; injection E as <- _;
           exists script, extra; split; [exact Hs|]; split; [exact Hi|];
           split; [exact Hargv|];
           intros e He; rewrite He in Hi; cbn [iterate] in Hi; congruence);
     rewrite Escript in Hhead;
     (destruct r as [proc|e|];
     [ match goal with
       | |- context [(set_proc (Some proc) ;; ?k)%project ?s1] =>
           destruct (open_tail H F proc s1)
             as (_ & _ & (made & Hmade & Hn) & _)
       end;
       cbv zeta in Hmade; rewrite Hmade; cbn [syslog];
       exists (SPopen argv (Returns proc) :: made);
       rewrite <- app_assoc; split; [reflexivity|];
       split; [cbn [filter is_popen]; rewrite (no_popen_filter _ Hn);
               cbn; lia|];
       intros argv' r' [E|Hin];
       [exact (Hhead _ _ E)|exfalso; exact (no_popen_not_in _ _ _ Hn Hin)]
     | exists [SPopen argv (Raises e)]; cbn [snd syslog];
       split; [reflexivity|]; split; [cbn; lia|];
       intros argv' r' [E|[]]; exact (Hhead _ _ E)
     | exists [SPopen argv Blocks]; cbn [snd syslog];
       split; [reflexivity|]; split; [cbn; lia|];
       intros argv' r' [E|[]]; exact (Hhead _ _ E) ])).
Qed.

(** X15: [open_transport] never undoes a launch. Once [Popen] has returned,
    the handle holds the new child however the call goes on, also when the
    pipes cannot be made non-blocking and the call ends in an error; no
    method of the transport is run, so nothing stops the child. The exit
    callback is registered only when the call returns, and then the timeouts
    returned are all [0]. Without a launch the handler is as before. *)
Theorem open_transport_keeps_launch :
  forall (H : Host) (F : Platform H) options (s : Server H),
    let res := open_transport F options s in
    log (transport (snd res)) = log (transport s) /\
    atexit_hooks (snd res) =
      match fst res with
      | Returns _ => atexit_hooks s ++ [close_transport]
      | _ => atexit_hooks s
      end /\
    (forall t, fst res = Returns t -> t = mkTransportTimeouts 0 0 0) /\
    exists made,
      syslog (snd res) = syslog s ++ made /\
      (forall argv proc,
         In (SPopen argv (Returns proc)) made ->
         _proc (self (transport (snd res))) = Some proc) /\
      ((forall argv proc, ~ In (SPopen argv (Returns proc)) made) ->
       self (transport (snd res)) = self (transport s)).
Proof.
  intros H F options s res. pattern res.
  match goal with |- ?P res => set (Q := P) end.
  unfold res; clear res. rewrite open_transport_eq.
  assert (Hnone : forall (r : Outcome Error TransportTimeouts),
            (forall t, r <> Returns t) -> Q (r, s)).
  { intros r Hr. subst Q. cbn [fst snd].
    split; [reflexivity|].
    split; [destruct r as [t| |]; [destruct (Hr t eq_refl)| |]; reflexivity|].
    split; [intros t E; destruct (Hr t E)|].
    exists []. rewrite app_nil_r. split; [reflexivity|].
    split; [intros argv proc []|reflexivity]. }
  destruct (options_get options "etiss_script" PyNone);
    try (apply Hnone; discriminate);
    (destruct (launch_args options) as [args|e|];
     try (apply Hnone; discriminate);
     destruct (all_strings args) as [argv|];
     try (apply Hnone; discriminate);
     cbv zeta;
     destruct (p_popen F argv (os (transport s))) as [[proc|e|] o1];
     [ match goal with
       | |- Q ((set_proc (Some proc) ;; ?k)%project ?s1) =>
           destruct (open_tail H F proc s1)
             as (Hp & Hl & (made & Hmade & Hn) & Hh & Ht);
           cbv zeta in Hp, Hl, Hmade, Hh, Ht;
           destruct ((set_proc (Some proc) ;; k)%project s1) as [r s2]
       end;
       subst Q; cbn [fst snd transport syslog atexit_hooks log] in *;
       split; [exact Hl|]; split; [exact Hh|]; split; [exact Ht|];
       exists (SPopen argv (Returns proc) :: made);
       rewrite Hmade, <- app_assoc; split; [reflexivity|];
       split;
       [ intros argv' proc' [E|Hin];
         [injection E as _ <-; exact Hp
         |exfalso; exact (no_popen_not_in _ _ _ Hn Hin)]
       | intro Hno; exfalso; exact (Hno argv proc (or_introl eq_refl)) ]
     | subst Q; cbn [fst snd transport syslog atexit_hooks log self];
       split; [reflexivity|]; split; [reflexivity|];
       split; [discriminate|];
       exists [SPopen argv (Raises e)]; split; [reflexivity|];
       split; [intros argv' proc' [E|[]]; discriminate|reflexivity]
     | subst Q; cbn [fst snd transport syslog atexit_hooks log self];
       split; [reflexivity|]; split; [reflexivity|];
       split; [discriminate|];
       exists [SPopen argv Blocks]; split; [reflexivity|];
       split; [intros argv' proc' [E|[]]; discriminate|reflexivity] ]).
Qed.

(** The pipes of the child cannot be made non-blocking: the call ends in
    [AssertionError] with the child launched, the handle set and no exit
    callback. *)
Example open_transport_nonblock_fails :
  let res := open_transport Sim.platform
               [("etiss_script", PyStr "/run.sh")]%string
               (Sim.start (Sim.fresh false 0)) in
  fst res = Raises AssertionError /\
  _proc (self (transport (snd res))) = Some Echo.child /\
  atexit_hooks (snd res) = [] /\
  syslog (snd res) =
    [SPopen ["/run.sh"; "build/main"; "-ietiss.ini"]%string
       (Returns Echo.child);
     SGetfl 5%Z (Returns 2%Z); SSetfl 5%Z 2050%Z (Returns tt);
     SGetfl 5%Z (Returns 2%Z)].
Proof. vm_compute. repeat split. Qed.

(** * Properties of the project generation *)

(** ** Rules for reading a method call by call *)

Section Rules.

Variable H : Host.
Variable F : Platform H.
Variable bad : SysCall -> bool.

Lemma avoids_pret : forall A (a : A), avoids bad (@pret H A a).
Proof.
  intros A a s. exists []. rewrite app_nil_r. split; reflexivity.
Qed.

Lemma avoids_pure : forall A (r : Outcome Error A), avoids bad (@pure H A r).
Proof.
  intros A r s. exists []. rewrite app_nil_r. split; reflexivity.
Qed.

Lemma avoids_praise : forall A (e : Error), avoids bad (@praise H A e).
Proof.
  intros A e s. exists []. rewrite app_nil_r. split; reflexivity.
Qed.

Lemma avoids_sys :
  forall A (f : OS H -> Outcome SysError A * OS H) entry,
    (forall r, bad (entry r) = false) -> avoids bad (sys f entry).
Proof.
  intros A f entry Hbad s. unfold sys. cbv zeta.
  destruct (f (os (transport s))) as [r o]. exists [entry r].
  cbn [snd syslog existsb]. rewrite Hbad. split; reflexivity.
Qed.

Lemma avoids_pbind :
  forall A B (c : P H A) (k : A -> P H B),
    avoids bad c -> (forall a, avoids bad (k a)) -> avoids bad (pbind c k).
Proof.
  intros A B c k Hc Hk s. unfold pbind.
  destruct (Hc s) as (made & Hlog & Hn).
  destruct (c s) as [[a|e|] s1]; cbn [snd] in Hlog;
    try (exists made; split; assumption).
  destruct (Hk a s1) as (made' & Hlog' & Hn').
  exists (made ++ made'). rewrite Hlog', Hlog, app_assoc.
  split; [reflexivity|]. rewrite existsb_app, Hn, Hn'. reflexivity.
Qed.

Lemma avoids_closing :
  forall A path (body : P H A),
    avoids bad body -> (forall r, bad (SClose path r) = false) ->
    avoids bad (closing F path body).
Proof.
  intros A path body Hb Hbad s. unfold closing.
  destruct (Hb s) as (made & Hlog & Hn).
  destruct (body s) as [[a|e|] s1]; cbn [snd] in Hlog.
  - destruct (avoids_pbind _ _ _ _
                (avoids_sys _ (p_close F path) (SClose path) Hbad)
                (fun _ => avoids_pret _ a) s1) as (made' & Hlog' & Hn').
    exists (made ++ made'). rewrite Hlog', Hlog, app_assoc.
    split; [reflexivity|]. rewrite existsb_app, Hn, Hn'. reflexivity.
  - destruct (avoids_sys _ (p_close F path) (SClose path) Hbad s1)
      as (made' & Hlog' & Hn').
    exists (made ++ made').
    destruct (sys (p_close F path) (SClose path) s1) as [[u|e'|] s2];
      cbn [snd] in *; rewrite Hlog', Hlog, app_assoc;
      (split; [reflexivity|]); rewrite existsb_app, Hn, Hn'; reflexivity.
  - exists made. split; assumption.
Qed.

Lemma avoids_write_lines :
  forall dst lines,
    (forall text r, bad (SWrite dst text r) = false) ->
    avoids bad (write_lines F dst lines).
Proof.
  intros dst lines Hbad. induction lines as [|text rest IH|e];
    cbn [write_lines].
  - apply avoids_pret.
  - apply avoids_pbind; [apply avoids_sys; intro r; apply Hbad|].
    intros _. exact IH.
  - apply avoids_praise.
Qed.

Lemma fails_pbind_l :
  forall A B (c : P H A) (k : A -> P H B), fails c -> fails (pbind c k).
Proof.
  intros A B c k Hc s. unfold pbind. specialize (Hc s).
  destruct (c s) as [[a|e|] s1]; cbn [fst returned] in *;
    [discriminate|reflexivity|reflexivity].
Qed.

Lemma fails_pbind_r :
  forall A B (c : P H A) (k : A -> P H B),
    (forall a, fails (k a)) -> fails (pbind c k).
Proof.
  intros A B c k Hk s. unfold pbind.
  destruct (c s) as [[a|e|] s1]; cbn [fst returned];
    [apply Hk|reflexivity|reflexivity].
Qed.

Lemma fails_pure :
  forall A (r : Outcome Error A), returned r = false -> fails (@pure H A r).
Proof. intros A r Hr s. exact Hr. Qed.

Lemma behaves_sys :
  forall A (f : OS H -> Outcome SysError A * OS H) entry,
    (forall r, bad (entry r) = false) ->
    (forall r, returned r = false -> sys_returned (entry r) = false) ->
    behaves bad is_returned (sys f entry).
Proof.
  intros A f entry Hbad Hfail s. unfold sys. cbv zeta.
  destruct (f (os (transport s))) as [r o]. exists [entry r].
  cbn [fst snd syslog existsb forallb]. rewrite Hbad.
  split; [reflexivity|]. split; [reflexivity|].
  destruct r as [a|e|]; [left; reflexivity|right|right];
    rewrite Hfail by reflexivity; split; reflexivity.
Qed.

Lemma behaves_pbind :
  forall A B (ok : Outcome Error B -> Prop) (c : P H A) (k : A -> P H B),
    behaves bad is_returned c -> (forall a, behaves bad ok (k a)) ->
    behaves bad ok (pbind c k).
Proof.
  intros A B ok c k Hc Hk s. unfold pbind.
  destruct (Hc s) as (made & Hlog & Hn & Hend).
  destruct (c s) as [[a|e|] s1]; cbn [fst snd] in *.
  - destruct (Hk a s1) as (made' & Hlog' & Hn' & Hend').
    exists (made ++ made'). rewrite Hlog', Hlog, app_assoc.
    split; [reflexivity|].
    split; [rewrite existsb_app, Hn, Hn'; reflexivity|].
    destruct Hend' as [Hok|[Hf Hr]]; [left; exact Hok|right].
    split; [|exact Hr]. rewrite forallb_app, Hf. apply andb_false_r.
  - exists made. split; [exact Hlog|]. split; [exact Hn|]. right.
    destruct Hend as [Hok|[Hf _]]; [discriminate Hok|].
    split; [exact Hf|reflexivity].
  - exists made. split; [exact Hlog|]. split; [exact Hn|]. right.
    destruct Hend as [Hok|[Hf _]]; [discriminate Hok|].
    split; [exact Hf|reflexivity].
Qed.

Lemma behaves_pret :
  forall A (a : A), behaves bad is_returned (@pret H A a).
Proof.
  intros A a s. exists []. rewrite app_nil_r.
  split; [reflexivity|]. split; [reflexivity|]. left. reflexivity.
Qed.

(** A computation that raises ends the method there. *)
Lemma behaves_raise :
  forall A B (e : Error) (k : A -> P H B),
    behaves bad (raises e) (pbind (pure (Raises e)) k).
Proof.
  intros A B e k s. exists []. rewrite app_nil_r.
  split; [reflexivity|]. split; [reflexivity|]. left. reflexivity.
Qed.

End Rules.

(** ** [generate_project] *)

Section Generate.

Variable H : Host.
Variable F : Platform H.

Local Open Scope project_scope.

Lemma same_path_join_ne :
  forall (p : Path) (n1 n2 : string),
    n1 <> n2 -> same_path (path_join p n1) (path_join p n2) = false.
Proof.
  intros p n1 n2 Hne. unfold same_path, path_join.
  destruct (list_eq_dec string_dec (p ++ [n1]) (p ++ [n2])) as [E|E];
    [|reflexivity].
  apply app_inv_head in E. congruence.
Qed.

(** The [with tarfile.TarFile(...)] block and the like: a body and the call
    that ends it. *)
Lemma behaves_finally :
  forall bad A (body : P H A) (f : OS H -> Outcome SysError unit * OS H) entry,
    behaves bad is_returned body ->
    (forall r, bad (entry r) = false) ->
    (forall r, returned r = false -> sys_returned (entry r) = false) ->
    behaves bad is_returned
      (fun s =>
         match body s with
         | (Returns a, s1) => sys f entry s1
         | (Raises e, s1) =>
             match sys f entry s1 with
             | (Returns _, s2) => (Raises e, s2)
             | (Raises e', s2) => (Raises e', s2)
             | (Blocks, s2) => (Blocks, s2)
             end
         | (Blocks, s1) => (Blocks, s1)
         end).
Proof.
  intros bad A body f entry Hb Hbad Hfail s.
  destruct (Hb s) as (made & Hlog & Hn & Hend).
  destruct (body s) as [[a|e|] s1]; cbn [fst snd] in *.
  - destruct (behaves_sys H bad _ f entry Hbad Hfail s1)
      as (made' & Hlog' & Hn' & Hend').
    exists (made ++ made'). rewrite Hlog', Hlog, app_assoc.
    split; [reflexivity|].
    split; [rewrite existsb_app, Hn, Hn'; reflexivity|].
    destruct Hend' as [Hok|[Hf Hr]]; [left; exact Hok|right].
    split; [|exact Hr]. rewrite forallb_app, Hf. apply andb_false_r.
  - destruct (behaves_sys H bad _ f entry Hbad Hfail s1)
      as (made' & Hlog' & Hn' & _).
    exists (made ++ made').
    destruct Hend as [Hok|[Hf _]]; [discriminate Hok|].
    destruct (sys f entry s1) as [[u|e'|] s2]; cbn [fst snd] in *;
      rewrite Hlog', Hlog, app_assoc;
      (split; [reflexivity|]);
      (split; [rewrite existsb_app, Hn, Hn'; reflexivity|]);
      right; (split; [rewrite forallb_app, Hf; reflexivity|reflexivity]).
  - exists made. split; [exact Hlog|]. split; [exact Hn|]. right.
    destruct Hend as [Hok|[Hf _]]; [discriminate Hok|].
    split; [exact Hf|reflexivity].
Qed.

Ltac plain_call :=
  apply behaves_sys; [intro; reflexivity|intros r Hr; exact Hr].

Lemma behaves_copy_crt_items :
  forall p items standalone_crt_dir crt_path,
    behaves (opens p) is_returned
      (copy_crt_items F items standalone_crt_dir crt_path).
Proof.
  intros p items standalone_crt_dir crt_path.
  induction items as [|item rest IH]; cbn [copy_crt_items].
  - apply behaves_pret.
  - apply behaves_pbind; [plain_call|]. intros is_dir.
    apply behaves_pbind; [destruct is_dir; plain_call|]. intros _. exact IH.
Qed.

(** What [generate_project] does before it looks at [verbose]. *)
Lemma generate_project_until_verbose :
  forall p model_library_format_path standalone_crt_dir project_dir options e,
    str2bool (options_get options "verbose" PyNone) false = Raises e ->
    behaves (opens p) (raises e)
      (generate_project F model_library_format_path standalone_crt_dir
         project_dir options).
Proof.
  intros p mlf crt proj options e Hv. unfold generate_project. cbv zeta.
  apply behaves_pbind; [plain_call|]. intros _.
  apply behaves_pbind; [plain_call|]. intros _.
  apply behaves_pbind; [plain_call|]. intros _.
  apply behaves_pbind; [plain_call|]. intros _.
  apply behaves_pbind.
  { apply behaves_finally;
      [|intro; reflexivity|intros r Hr; exact Hr].
    apply behaves_pbind; [plain_call|]. intros _. plain_call. }
  intros _.
  apply behaves_pbind; [plain_call|]. intros _.
  apply behaves_pbind; [apply behaves_copy_crt_items|]. intros _.
  rewrite Hv. apply behaves_raise.
Qed.

End Generate.

(** X16: without [verbose] among its options [generate_project] cannot
    succeed, although the option is declared with a default: it never
    returns and never opens the [CMakeLists.txt] of the project for writing;
    when all the copying before that point went well, it ends in
    [AssertionError]. *)
Theorem generate_project_needs_verbose :
  forall (H : Host) (F : Platform H) model_library_format_path
         standalone_crt_dir project_dir options (s : Server H),
    missing options "verbose" = true ->
    let res := generate_project F model_library_format_path
                 standalone_crt_dir project_dir options s in
    exists made,
      syslog (snd res) = syslog s ++ made /\
      existsb (opens (path_join project_dir CMAKEFILE_FILENAME)) made = false /\
      returned (fst res) = false /\
      (forallb sys_returned made = true -> fst res = Raises AssertionError).
Proof.
  intros H F mlf crt proj options s Hmiss res.
  assert (Hv : str2bool (options_get options "verbose" PyNone) false =
               Raises AssertionError)
    by (rewrite (missing_get _ _ Hmiss); reflexivity).
  destruct (generate_project_until_verbose H F
              (path_join proj CMAKEFILE_FILENAME) mlf crt proj options
              AssertionError Hv s) as (made & Hlog & Hn & Hend).
  fold res in Hlog, Hend. exists made.
  split; [exact Hlog|]. split; [exact Hn|].
  destruct Hend as [Hok|[Hf Hr]].
  - unfold raises in Hok. rewrite Hok. split; [reflexivity|]. reflexivity.
  - split; [exact Hr|]. intro Hall. congruence.
Qed.

Lemma generate_project_needs_verbose_witness :
  let s := Sim.start (Sim.fresh true 0) in
  let res := generate_project Sim.platform ["tmp"; "model.tar"]%string
               ["tvm"; "crt"]%string ["tmp"; "proj"]%string
               [("arch", PyStr "rv32gc")]%string s in
  exists made,
    syslog (snd res) = syslog s ++ made /\
    existsb (opens (path_join ["tmp"; "proj"]%string CMAKEFILE_FILENAME)) made
      = false /\
    returned (fst res) = false /\
    (forallb sys_returned made = true -> fst res = Raises AssertionError).
Proof.
  exact (@generate_project_needs_verbose Sim.host Sim.platform
           ["tmp"; "model.tar"]%string ["tvm"; "crt"]%string
           ["tmp"; "proj"]%string [("arch", PyStr "rv32gc")]%string
           (Sim.start (Sim.fresh true 0)) eq_refl).
Defined.

Section GenerateIni.

Variable H : Host.
Variable F : Platform H.

Local Open Scope project_scope.

Lemma behaves_avoids :
  forall bad A (ok : Outcome Error A -> Prop) (c : P H A),
    behaves bad ok c -> avoids bad c.
Proof.
  intros bad A ok c Hc s. destruct (Hc s) as (made & Hlog & Hn & _).
  exists made. split; assumption.
Qed.

(** A computation that does not return ends the method there. *)
Lemma avoids_stop :
  forall bad A B (r : Outcome Error A) (k : A -> P H B),
    returned r = false -> avoids bad (pbind (pure r) k).
Proof.
  intros bad A B r k Hr s. exists []. rewrite app_nil_r.
  unfold pbind, pure. destruct r; [discriminate| |]; split; reflexivity.
Qed.

Lemma avoids_populate_cmake :
  forall p template dst memory_size verbose,
    same_path dst p = false ->
    avoids (opens p) (_populate_cmake F template dst memory_size verbose).
Proof.
  intros p template dst memory_size verbose Hne. unfold _populate_cmake.
  apply avoids_pbind; [apply avoids_sys; intro r; exact Hne|]. intros _.
  apply avoids_closing; [|intro; reflexivity].
  apply avoids_pbind; [apply avoids_sys; intro; reflexivity|]. intros lines.
  apply avoids_closing; [|intro; reflexivity].
  apply avoids_pbind; [apply avoids_write_lines; intros; reflexivity|].
  intros _. cbv zeta.
  apply avoids_pbind; [apply avoids_sys; intro; reflexivity|]. intros _.
  destruct (truthy_result verbose);
    [apply avoids_sys; intro; reflexivity|apply avoids_pret].
Qed.

Lemma generate_project_until_arch :
  forall model_library_format_path standalone_crt_dir project_dir options,
    returned (default_cpu_arch F options) = false ->
    avoids (opens (path_join project_dir INI_FILENAME))
      (generate_project F model_library_format_path standalone_crt_dir
         project_dir options) /\
    fails (generate_project F model_library_format_path standalone_crt_dir
             project_dir options).
Proof.
  intros mlf crt proj options Harch. unfold generate_project. cbv zeta.
  split.
  - apply avoids_pbind; [apply avoids_sys; intro; reflexivity|]. intros _.
    apply avoids_pbind; [apply avoids_sys; intro; reflexivity|]. intros _.
    apply avoids_pbind; [apply avoids_sys; intro; reflexivity|]. intros _.
    apply avoids_pbind; [apply avoids_sys; intro; reflexivity|]. intros _.
    apply avoids_pbind.
    { apply (behaves_avoids _ _ is_returned).
      apply behaves_finally;
        [|intro; reflexivity|intros r Hr; exact Hr].
      apply behaves_pbind;
        [apply behaves_sys; [intro; reflexivity|intros r Hr; exact Hr]|].
      intros _. apply behaves_sys; [intro; reflexivity|intros r Hr; exact Hr]. }
    intros _.
    apply avoids_pbind; [apply avoids_sys; intro; reflexivity|]. intros _.
    apply avoids_pbind;
      [apply (behaves_avoids _ _ is_returned); apply behaves_copy_crt_items|].
    intros _.
    apply avoids_pbind; [apply avoids_pure|]. intros verbose.
    apply avoids_pbind.
    { apply avoids_populate_cmake. apply same_path_join_ne. discriminate. }
    intros _.
    apply avoids_pbind; [apply avoids_sys; intro; reflexivity|]. intros _.
    apply avoids_pbind; [apply avoids_sys; intro; reflexivity|]. intros _.
    apply avoids_pbind; [apply avoids_sys; intro; reflexivity|]. intros _.
    apply avoids_pbind; [apply avoids_sys; intro; reflexivity|]. intros _.
    apply avoids_pbind; [apply avoids_sys; intro; reflexivity|]. intros _.
    apply avoids_pbind; [apply avoids_sys; intro; reflexivity|]. intros _.
    apply avoids_pbind; [apply avoids_sys; intro; reflexivity|]. intros _.
    apply avoids_stop. exact Harch.
  - do 16 (apply fails_pbind_r; intro).
    apply fails_pbind_l. apply fails_pure. exact Harch.
Qed.

End GenerateIni.

(** What [int] makes of two characters: digits with white space or one sign
    before them; the separator U+001C is no white space for it, U+00A0 is. *)
Example int_of_short_reads :
  int_of_short "32" = Some 32%Z /\
  int_of_short " 3" = Some 3%Z /\
  int_of_short "3 " = Some 3%Z /\
  int_of_short "+3" = Some 3%Z /\
  int_of_short "-3" = Some (-3)%Z /\
  int_of_short (String (ascii_of_nat 160) "3") = Some 3%Z /\
  int_of_short (String (ascii_of_nat 28) "3") = None /\
  int_of_short (String (ascii_of_nat 31) "3") = None /\
  int_of_short "3_" = None /\
  int_of_short "gc" = None /\
  int_of_short "" = None.
Proof. repeat split. Qed.

(** X17: [generate_project] reads a number out of the third and fourth
    character of [arch] even when [cpu_arch] is given. When [int] does not
    take these two characters for a number, or when [arch] is no string at
    all, the call cannot succeed: it never returns and never opens the
    [etiss.ini] of the project for writing. Of ASCII characters [int]
    takes decimal digits, with white space or one sign before them or white
    space after them, and nothing else ([xlen], [int_of_short]). *)
Theorem generate_project_needs_arch :
  forall (H : Host) (F : Platform H) model_library_format_path
         standalone_crt_dir project_dir options (s : Server H),
    match options_get options "arch" (PyStr ARCH) with
    | PyStr arch => xlen F arch = None
    | _ => True
    end ->
    let res := generate_project F model_library_format_path
                 standalone_crt_dir project_dir options s in
    returned (fst res) = false /\
    exists made,
      syslog (snd res) = syslog s ++ made /\
      existsb (opens (path_join project_dir INI_FILENAME)) made = false.
Proof.
  intros H F mlf crt proj options s Hx res.
  assert (Harch : returned (default_cpu_arch F options) = false).
  { unfold default_cpu_arch.
    destruct (options_get options "arch" (PyStr ARCH)); try reflexivity.
    rewrite Hx. reflexivity. }
  destruct (generate_project_until_arch H F mlf crt proj options Harch)
    as [Ha Hf].
  split; [exact (Hf s)|exact (Ha s)].
Qed.

Lemma generate_project_needs_arch_witness :
  let s := Sim.start (Sim.fresh true 0) in
  let res := generate_project Sim.platform ["tmp"; "model.tar"]%string
               ["tvm"; "crt"]%string ["tmp"; "proj"]%string
               [("verbose", PyBool false); ("arch", PyStr "riscv");
                ("cpu_arch", PyStr "RV32IMACFDXCoreV")]%string s in
  returned (fst res) = false /\
  exists made,
    syslog (snd res) = syslog s ++ made /\
    existsb (opens (path_join ["tmp"; "proj"]%string INI_FILENAME)) made = false.
Proof.
  refine (@generate_project_needs_arch Sim.host Sim.platform
            ["tmp"; "model.tar"]%string ["tvm"; "crt"]%string
            ["tmp"; "proj"]%string
            [("verbose", PyBool false); ("arch", PyStr "riscv");
             ("cpu_arch", PyStr "RV32IMACFDXCoreV")]%string
            (Sim.start (Sim.fresh true 0)) _).
  reflexivity.
Defined.

(** ** [_populate_cmake] and [_populate_ini] *)

Section Populate.

Variable H : Host.
Variable F : Platform H.

Local Open Scope project_scope.

Lemma pbind_returns_inv :
  forall A B (c : P H A) (k : A -> P H B) s b s',
    pbind c k s = (Returns b, s') ->
    exists a s0, c s = (Returns a, s0) /\ k a s0 = (Returns b, s').
Proof.
  intros A B c k s b s'. unfold pbind.
  destruct (c s) as [[a|e|] s0]; intro E; try discriminate; eauto.
Qed.

Lemma sys_returns_inv :
  forall A (f : OS H -> Outcome SysError A * OS H) entry s a s',
    sys f entry s = (Returns a, s') ->
    syslog s' = syslog s ++ [entry (Returns a)].
Proof.
  intros A f entry s a s'. unfold sys. cbv zeta.
  destruct (f (os (transport s))) as [[x|e|] o]; cbn [lift_sys];
    intro E; try discriminate.
  injection E as <- <-. reflexivity.
Qed.

Lemma closing_returns_inv :
  forall A path (body : P H A) s a s',
    closing F path body s = (Returns a, s') ->
    exists s1, body s = (Returns a, s1) /\
               syslog s' = syslog s1 ++ [SClose path (Returns tt)].
Proof.
  intros A path body s a s'. unfold closing.
  destruct (body s) as [[x|e|] s1].
  - intro E. apply pbind_returns_inv in E.
    destruct E as ([] & s2 & Hc & Hr). unfold pret in Hr.
    injection Hr as <- <-. exists s1. split; [reflexivity|].
    exact (sys_returns_inv _ _ _ _ _ _ Hc).
  - destruct (sys (p_close F path) (SClose path) s1) as [[u|e'|] s2];
      discriminate.
  - discriminate.
Qed.

Lemma write_lines_returns :
  forall dst lines s s',
    write_lines F dst lines s = (Returns tt, s') ->
    lines_ok lines = true /\
    syslog s' =
      syslog s ++ map (fun t => SWrite dst t (Returns tt)) (texts lines).
Proof.
  intros dst lines. induction lines as [|text rest IH|e]; intros s s' E;
    cbn [write_lines lines_ok texts map] in *.
  - injection E as <-. rewrite app_nil_r. split; reflexivity.
  - apply pbind_returns_inv in E. destruct E as ([] & s0 & Hw & Hrest).
    apply sys_returns_inv in Hw. destruct (IH _ _ Hrest) as [Hok Hlog].
    split; [exact Hok|]. rewrite Hlog, Hw, <- app_assoc. reflexivity.
  - discriminate.
Qed.

(** The two nested [with] blocks both methods are made of, around what they
    write after the lines of the template. *)
Lemma populate_returns :
  forall template dst (tail : P H unit) s s',
    (sys (p_open_w F dst) (SOpenW dst) ;;
     closing F dst
       (lines <- sys (p_open_r F template) (SOpenR template) ;;
        closing F template (write_lines F dst lines ;; tail))) s =
      (Returns tt, s') ->
    exists lines s1 s2,
      lines_ok lines = true /\
      syslog s1 =
        syslog s ++ [SOpenW dst (Returns tt); SOpenR template (Returns lines)]
                 ++ map (fun t => SWrite dst t (Returns tt)) (texts lines) /\
      tail s1 = (Returns tt, s2) /\
      syslog s' =
        syslog s2 ++ [SClose template (Returns tt); SClose dst (Returns tt)].
Proof.
  intros template dst tail s s' E.
  apply pbind_returns_inv in E. destruct E as ([] & s0 & Hw & E).
  apply sys_returns_inv in Hw.
  apply closing_returns_inv in E. destruct E as (s3 & E & Hc2).
  apply pbind_returns_inv in E. destruct E as (lines & s4 & Hr & E).
  apply sys_returns_inv in Hr.
  apply closing_returns_inv in E. destruct E as (s5 & E & Hc1).
  apply pbind_returns_inv in E. destruct E as ([] & s1 & Hl & Ht).
  apply write_lines_returns in Hl. destruct Hl as [Hok Hl].
  exists lines, s1, s5. split; [exact Hok|]. split; [|split; [exact Ht|]].
  - rewrite Hl, Hr, Hw, <- !app_assoc. reflexivity.
  - rewrite Hc2, Hc1, <- app_assoc. reflexivity.
Qed.

End Populate.

(** X18: when [_populate_cmake] returns, it has opened the CMake file for
    writing and the template for reading, written to the CMake file the
    lines of the template in their order, then the line that defines
    [TVM_WORKSPACE_SIZE_BYTES] as [memory_size], then the line for verbose
    makefiles exactly when [verbose] is set, and closed the template and the
    CMake file; it has made no other call. *)
Theorem populate_cmake_text :
  forall (H : Host) (F : Platform H) template dst memory_size verbose
         (s : Server H),
    let res := _populate_cmake F template dst memory_size verbose s in
    fst res = Returns tt ->
    exists lines,
      lines_ok lines = true /\
      syslog (snd res) =
        syslog s ++
        [SOpenW dst (Returns tt); SOpenR template (Returns lines)] ++
        map (fun t => SWrite dst t (Returns tt))
          (texts lines ++
           [("target_compile_definitions(main PUBLIC -DTVM_WORKSPACE_SIZE_BYTES="
             ++ py_format F memory_size ++ ")" ++ nl)%string] ++
           (if truthy_result verbose
            then [("set(CMAKE_VERBOSE_MAKEFILE TRUE)" ++ nl)%string]
            else [])) ++
        [SClose template (Returns tt); SClose dst (Returns tt)].
Proof.
  intros H F template dst memory_size verbose s res Hret.
  destruct res as [r s'] eqn:Hres. cbn [fst snd] in *. subst r.
  unfold _populate_cmake in Hres.
  apply populate_returns in Hres.
  destruct Hres as (lines & s1 & s2 & Hok & Hlog1 & Htail & Hlog').
  exists lines. split; [exact Hok|].
  cbv zeta in Htail.
  apply pbind_returns_inv in Htail. destruct Htail as ([] & s3 & Hw1 & Hw2).
  apply sys_returns_inv in Hw1.
  rewrite Hlog'. rewrite !map_app. cbn [map].
  destruct (truthy_result verbose).
  - apply sys_returns_inv in Hw2. rewrite Hw2, Hw1, Hlog1.
    rewrite <- !app_assoc. reflexivity.
  - unfold pret in Hw2. injection Hw2 as <-. rewrite Hw1, Hlog1.
    rewrite <- !app_assoc. reflexivity.
Qed.

Lemma populate_cmake_text_witness :
  let s := Sim.start (Sim.fresh true 0) in
  let template := ["opt"; "project"; "CMakeLists.txt.template"]%string in
  let dst := ["tmp"; "CMakeLists.txt"]%string in
  let res := _populate_cmake Sim.platform template dst (PyInt 2048)
               (Some true) s in
  exists lines,
    lines_ok lines = true /\
    syslog (snd res) =
      syslog s ++
      [SOpenW dst (Returns tt); SOpenR template (Returns lines)] ++
      map (fun t => SWrite dst t (Returns tt))
        (texts lines ++
         [("target_compile_definitions(main PUBLIC -DTVM_WORKSPACE_SIZE_BYTES="
           ++ py_format Sim.platform (PyInt 2048) ++ ")" ++ nl)%string] ++
         [("set(CMAKE_VERBOSE_MAKEFILE TRUE)" ++ nl)%string]) ++
      [SClose template (Returns tt); SClose dst (Returns tt)].
Proof.
  exact (@populate_cmake_text Sim.host Sim.platform
           ["opt"; "project"; "CMakeLists.txt.template"]%string
           ["tmp"; "CMakeLists.txt"]%string (PyInt 2048) (Some true)
           (Sim.start (Sim.fresh true 0)) eq_refl).
Defined.

(** X19: when [_populate_ini] returns, it has written to the ini file the
    lines of the template in their order and after them one line
    [arch.cpu=...] for [cpu_arch], or no such line when [cpu_arch] is
    [None] or the string ["None"]; both files are closed and no other call
    was made. *)
Theorem populate_ini_text :
  forall (H : Host) (F : Platform H) template dst cpu_arch (s : Server H),
    let res := _populate_ini F template dst cpu_arch s in
    fst res = Returns tt ->
    exists lines,
      lines_ok lines = true /\
      syslog (snd res) =
        syslog s ++
        [SOpenW dst (Returns tt); SOpenR template (Returns lines)] ++
        map (fun t => SWrite dst t (Returns tt))
          (texts lines ++
           (if no_cpu_arch cpu_arch then []
            else [("arch.cpu=" ++ py_format F cpu_arch ++ nl)%string])) ++
        [SClose template (Returns tt); SClose dst (Returns tt)].
Proof.
  intros H F template dst cpu_arch s res Hret.
  destruct res as [r s'] eqn:Hres. cbn [fst snd] in *. subst r.
  unfold _populate_ini in Hres.
  apply populate_returns in Hres.
  destruct Hres as (lines & s1 & s2 & Hok & Hlog1 & Htail & Hlog').
  exists lines. split; [exact Hok|].
  rewrite Hlog'. rewrite !map_app.
  destruct (no_cpu_arch cpu_arch).
  - unfold pret in Htail. injection Htail as <-. rewrite Hlog1.
    cbn [map]. rewrite app_nil_r, <- !app_assoc. reflexivity.
  - cbv zeta in Htail. apply sys_returns_inv in Htail.
    rewrite Htail, Hlog1. cbn [map]. rewrite <- !app_assoc. reflexivity.
Qed.

Lemma populate_ini_text_witness :
  let s := Sim.start (Sim.fresh true 0) in
  let template := ["opt"; "project"; "etiss.ini.template"]%string in
  let dst := ["tmp"; "etiss.ini"]%string in
  let res := _populate_ini Sim.platform template dst (PyStr "None") s in
  exists lines,
    lines_ok lines = true /\
    syslog (snd res) =
      syslog s ++
      [SOpenW dst (Returns tt); SOpenR template (Returns lines)] ++
      map (fun t => SWrite dst t (Returns tt)) (texts lines ++ []) ++
      [SClose template (Returns tt); SClose dst (Returns tt)].
Proof.
  exact (@populate_ini_text Sim.host Sim.platform
           ["opt"; "project"; "etiss.ini.template"]%string
           ["tmp"; "etiss.ini"]%string (PyStr "None")
           (Sim.start (Sim.fresh true 0)) eq_refl).
Defined.

(** X20: [_populate_cmake] opens the CMake file for writing before it opens
    the template. When the template cannot be opened, the CMake file has
    already been created or emptied; nothing is written to it, it is closed,
    and the error of the open leaves the call, unless the close fails too. *)
Theorem populate_cmake_missing_template :
  forall (H : Host) (F : Platform H) template dst memory_size verbose
         (s : Server H) o1 e o2,
    p_open_w F dst (os (transport s)) = (Returns tt, o1) ->
    p_open_r F template o1 = (Raises e, o2) ->
    let res := _populate_cmake F template dst memory_size verbose s in
    let (r3, o3) := p_close F dst o2 in
    syslog (snd res) =
      syslog s ++ [SOpenW dst (Returns tt); SOpenR template (Raises e);
                   SClose dst r3] /\
    fst res = match r3 with
              | Returns _ => Raises (sys_error e)
              | Raises e' => Raises (sys_error e')
              | Blocks => Blocks
              end.
Proof.
  intros H F template dst memory_size verbose s o1 e o2 Hw Hr. cbv zeta.
  unfold _populate_cmake, closing, pbind, sys. cbv zeta.
  rewrite Hw. cbn [lift_sys transport os self log syslog atexit_hooks].
  rewrite Hr. cbn [lift_sys transport os self log syslog atexit_hooks].
  destruct (p_close F dst o2) as [[[]|e'|] o3];
    cbn [lift_sys fst snd syslog]; rewrite <- !app_assoc;
    split; reflexivity.
Qed.

Lemma populate_cmake_missing_template_witness :
  let s := Sim.start (Sim.fresh true 0) in
  let template := ["nowhere"; "CMakeLists.txt.template"]%string in
  let dst := ["tmp"; "CMakeLists.txt"]%string in
  let res := _populate_cmake Sim.platform template dst (PyInt 2048)
               (Some false) s in
  syslog (snd res) =
    syslog s ++ [SOpenW dst (Returns tt);
                 SOpenR template (Raises (SysOs (OtherOSError 2)));
                 SClose dst (Returns tt)] /\
  fst res = Raises (sys_error (SysOs (OtherOSError 2))).
Proof.
  exact (@populate_cmake_missing_template Sim.host Sim.platform
           ["nowhere"; "CMakeLists.txt.template"]%string
           ["tmp"; "CMakeLists.txt"]%string (PyInt 2048) (Some false)
           (Sim.start (Sim.fresh true 0))
           (Sim.mkState (Echo.exited false) [] true []
              ((["tmp"; "CMakeLists.txt"]%string, []) ::
               Sim.files (Sim.fresh true 0)) 0)
           (SysOs (OtherOSError 2))
           (Sim.mkState (Echo.exited false) [] true []
              ((["tmp"; "CMakeLists.txt"]%string, []) ::
               Sim.files (Sim.fresh true 0)) 0)
           eq_refl eq_refl).
Defined.

(** ** Files opened and closed *)

Section Closes.

Variable H : Host.
Variable F : Platform H.

Local Open Scope project_scope.





Lemma populate_ini_log :
  forall template dst cpu_arch s s',
    _populate_ini F template dst cpu_arch s = (Returns tt, s') ->
    exists lines,
      lines_ok lines = true /\
      syslog s' =
        syslog s ++
        [SOpenW dst (Returns tt); SOpenR template (Returns lines)] ++
        map (fun t => SWrite dst t (Returns tt))
          (texts lines ++
           (if no_cpu_arch cpu_arch then []
            else [("arch.cpu=" ++ py_format F cpu_arch ++ nl)%string])) ++
        [SClose template (Returns tt); SClose dst (Returns tt)].
Proof.
  intros template dst cpu_arch s s' Hres.
  unfold _populate_ini in Hres.
  apply populate_returns in Hres.
  destruct Hres as (lines & s1 & s2 & Hok & Hlog1 & Htail & Hlog').
  exists lines. split; [exact Hok|].
  rewrite Hlog'. rewrite !map_app.
  destruct (no_cpu_arch cpu_arch).
  - unfold pret in Htail. injection Htail as <-. rewrite Hlog1.
    cbn [map]. rewrite app_nil_r, <- !app_assoc. reflexivity.
  - cbv zeta in Htail. apply sys_returns_inv in Htail.
    rewrite Htail, Hlog1. cbn [map]. rewrite <- !app_assoc. reflexivity.
Qed.

(** One more step of a method that returns in the end. *)
Lemma pbind_returns_step :
  forall bad A B (c : P H A) (k : A -> P H B),
    avoids bad c ->
    forall (s0 s : Server H) acc b s',
      syslog s = syslog s0 ++ acc -> existsb bad acc = false ->
      pbind c k s = (Returns b, s') ->
      exists a s1 acc',
        syslog s1 = syslog s0 ++ acc' /\ existsb bad acc' = false /\
        k a s1 = (Returns b, s').
Proof.
  intros bad A B c k Hc s0 s acc b s' Hacc Hbad E.
  destruct (Hc s) as (made & Hlog & Hn). unfold pbind in E.
  destruct (c s) as [[a|e|] s1]; try discriminate. cbn [snd] in Hlog.
  exists a, s1, (acc ++ made). split; [|split; [|exact E]].
  - rewrite Hlog, Hacc, app_assoc. reflexivity.
  - rewrite existsb_app, Hbad, Hn. reflexivity.
Qed.

Ltac plain := apply avoids_sys; intro; reflexivity.

Ltac step tac :=
  match goal with
  | Hacc : syslog ?sc = syslog ?s0 ++ ?acc,
    Hbad : existsb ?bad ?acc = false,
    E : pbind ?c ?k ?sc = (Returns _, _) |- _ =>
      let Hc := fresh "Hc" in
      assert (Hc : avoids bad c) by tac;
      let a := fresh "a" in
      let s1 := fresh "s" in
      let acc' := fresh "acc" in
      let Hacc' := fresh "Hacc" in
      let Hbad' := fresh "Hbad" in
      let E' := fresh "E" in
      destruct (pbind_returns_step bad _ _ c k Hc s0 sc acc _ _ Hacc Hbad E)
        as (a & s1 & acc' & Hacc' & Hbad' & E');
      clear Hacc Hbad E Hc
  end.

Lemma generate_project_returns :
  forall model_library_format_path standalone_crt_dir project_dir options
         s s',
    generate_project F model_library_format_path standalone_crt_dir
      project_dir options s = (Returns tt, s') ->
    exists before d s1,
      default_cpu_arch F options = Returns d /\
      existsb (opens (path_join project_dir INI_FILENAME)) before = false /\
      syslog s1 = syslog s ++ before /\
      _populate_ini F (path_join (current_dir F) "etiss.ini.template")
        (path_join project_dir INI_FILENAME)
        (options_get options "cpu_arch" (PyStr d)) s1 = (Returns tt, s').
Proof.
  intros mlf crt proj options s s' E.
  unfold generate_project in E. cbv zeta in E.
  assert (Hacc : syslog s = syslog s ++ []) by (rewrite app_nil_r; reflexivity).
  assert (Hbad : existsb (opens (path_join proj INI_FILENAME)) [] = false)
    by reflexivity.
  do 4 step plain.
  step ltac:(apply (behaves_avoids _ _ _ is_returned);
             apply behaves_finally;
             [|intro; reflexivity|intros r Hr; exact Hr];
             apply behaves_pbind;
             [apply behaves_sys; [intro; reflexivity|intros r Hr; exact Hr]|];
             intros _;
             apply behaves_sys; [intro; reflexivity|intros r Hr; exact Hr]).
  step plain.
  step ltac:(apply (behaves_avoids _ _ _ is_returned);
             apply behaves_copy_crt_items).
  step ltac:(apply avoids_pure).
  step ltac:(apply avoids_populate_cmake; apply same_path_join_ne;
             discriminate).
  do 7 step plain.
  apply pbind_returns_inv in E. destruct E as (d & sd & Hd & E).
  unfold pure in Hd. injection Hd as Hd <-.
  eexists _, d, _. split; [exact Hd|]. split; [eassumption|].
  split; [eassumption|exact E].
Qed.

End Closes.



(** X22: when [generate_project] returns, the last thing it has done is to
    fill the [etiss.ini] of the project, which it had not opened before: the
    lines of [etiss.ini.template], then [arch.cpu=] with the option
    [cpu_arch] or, without that option, with [RV<xlen>IMACFD] where [xlen]
    is the number [int] reads at the third and fourth character of [arch]
    (for an [arch] of ASCII characters, what [int_of_short] reads there); no
    such line when [cpu_arch] is [None] or ["None"]. *)
Theorem generate_project_ini :
  forall (H : Host) (F : Platform H) model_library_format_path
         standalone_crt_dir project_dir options (s : Server H),
    let res := generate_project F model_library_format_path
                 standalone_crt_dir project_dir options s in
    let ini := path_join project_dir INI_FILENAME in
    let template := path_join (current_dir F) "etiss.ini.template" in
    fst res = Returns tt ->
    exists before lines arch n,
      options_get options "arch" (PyStr ARCH) = PyStr arch /\
      xlen F arch = Some n /\
      (isascii arch = true -> int_of_short (substring 2 2 arch) = Some n) /\
      lines_ok lines = true /\
      existsb (opens ini) before = false /\
      let cpu_arch :=
        options_get options "cpu_arch"
          (PyStr ("RV" ++ decimal n ++ "IMACFD")) in
      syslog (snd res) =
        syslog s ++ before ++
        [SOpenW ini (Returns tt); SOpenR template (Returns lines)] ++
        map (fun t => SWrite ini t (Returns tt))
          (texts lines ++
           (if no_cpu_arch cpu_arch then []
            else [("arch.cpu=" ++ py_format F cpu_arch ++ nl)%string])) ++
        [SClose template (Returns tt); SClose ini (Returns tt)].
Proof.
  intros H F mlf crt proj options s res ini template Hret.
  destruct res as [r s'] eqn:Hres. cbn [fst snd] in *. subst r.
  apply generate_project_returns in Hres.
  destruct Hres as (before & d & s1 & Hd & Hn & Hlog & Hini).
  apply populate_ini_log in Hini. destruct Hini as (lines & Hok & Hlog').
  unfold default_cpu_arch in Hd.
  destruct (options_get options "arch" (PyStr ARCH)) as [| | |arch|] eqn:Harch;
    try discriminate.
  destruct (xlen F arch) as [n|] eqn:Hx; [|discriminate].
  injection Hd as <-.
  exists before, lines, arch, n. split; [reflexivity|].
  split; [exact Hx|]. split.
  { intro Hascii. unfold xlen in Hx. rewrite Hascii in Hx. exact Hx. }
  split; [exact Hok|].
  split; [exact Hn|]. cbv zeta. rewrite Hlog', Hlog, <- app_assoc.
  reflexivity.
Qed.

Lemma generate_project_ini_witness :
  let s := Sim.start (Sim.fresh true 0) in
  let options := [("verbose", PyBool false)]%string in
  let res := generate_project Sim.platform ["tmp"; "model.tar"]%string
               ["tvm"; "crt"]%string ["tmp"; "proj"]%string options s in
  let ini := path_join ["tmp"; "proj"]%string INI_FILENAME in
  let template := path_join (current_dir Sim.platform) "etiss.ini.template" in
  exists before lines arch n,
    options_get options "arch" (PyStr ARCH) = PyStr arch /\
    xlen Sim.platform arch = Some n /\
    (isascii arch = true -> int_of_short (substring 2 2 arch) = Some n) /\
    lines_ok lines = true /\
    existsb (opens ini) before = false /\
    let cpu_arch :=
      options_get options "cpu_arch"
        (PyStr ("RV" ++ decimal n ++ "IMACFD")) in
    syslog (snd res) =
      syslog s ++ before ++
      [SOpenW ini (Returns tt); SOpenR template (Returns lines)] ++
      map (fun t => SWrite ini t (Returns tt))
        (texts lines ++
         (if no_cpu_arch cpu_arch then []
          else [("arch.cpu=" ++ py_format Sim.platform cpu_arch ++ nl)%string])) ++
      [SClose template (Returns tt); SClose ini (Returns tt)].
Proof.
  exact (@generate_project_ini Sim.host Sim.platform
           ["tmp"; "model.tar"]%string ["tvm"; "crt"]%string
           ["tmp"; "proj"]%string [("verbose", PyBool false)]%string
           (Sim.start (Sim.fresh true 0)) eq_refl).
Defined.

(** With the options of the witness, [arch] left out: the line written is
    [arch.cpu=RV32IMACFD]. *)
Example generate_project_default_cpu_arch :
  let res := generate_project Sim.platform ["tmp"; "model.tar"]%string
               ["tvm"; "crt"]%string ["tmp"; "proj"]%string
               [("verbose", PyBool false)]%string
               (Sim.start (Sim.fresh true 0)) in
  fst res = Returns tt /\
  Sim.lines_of (Sim.files (os (transport (snd res))))
    ["tmp"; "proj"; "etiss.ini"]%string =
    Some ["[IntConfigurations]"; ("arch.cpu=RV32IMACFD" ++ nl)]%string.
Proof. vm_compute. split; reflexivity. Qed.
